(** * idpartners-ping-authorize: a shallow embedding of the sideband plugin

    The Go sources embedded here are [headers.go], [circuit_breaker.go],
    [network.go] (Execute, parseRetryAfter, ParseURL, BuildSidebandURL),
    [config.go] (Validate), [mcp.go], [sse.go], [observability.go]
    (TruncateBody, RedactHeaders, DebugLogPayload, logMCPContext),
    [sideband_provider.go], [access.go], [response.go] and the [Response]
    handler of [main.go].

    Conventions.
    - A Go [string] and a Go [[]byte] are both sequences of bytes: they are
      modelled by [string] (a list of 8-bit [ascii]).  Where the code tells a
      nil slice from an empty one the model uses [option].
    - A Go [int] or [int64] is a [Z]; arithmetic that can leave the 64-bit
      range is wrapped with [wrap64].
    - A Go map whose iteration order the code observes is a list of its
      entries in the order of one iteration; a map that is only built and
      looked up is a [gmap].
    - The standard library's [encoding/json], the certificate collaborator
      and the URL helpers are interfaces ([EncodingJSON], [ProviderJSON],
      [Collaborators], [PackageURL], [ErrorTexts]): every theorem holds for
      each implementation of them. *)

From Stdlib Require Import ZArith Ascii String List Lia DecimalString.
From stdpp Require Import base option gmap strings list fin_maps sorting.

Local Open Scope string_scope.
Local Open Scope list_scope.
Local Open Scope Z_scope.

(* ===================================================================== *)
(** * Part I. Definitions                                                *)
(* ===================================================================== *)

(* --------------------------------------------------------------------- *)
(** ** Go basics                                                          *)
(* --------------------------------------------------------------------- *)

(** Two's-complement wrap-around of 64-bit signed arithmetic. *)
Definition wrap64 (z : Z) : Z := (z + 2 ^ 63) mod 2 ^ 64 - 2 ^ 63.

(** [time.Time.Sub] saturates at the ends of the [Duration] range. *)
Definition clamp64 (z : Z) : Z := Z.max (- 2 ^ 63) (Z.min (2 ^ 63 - 1) z).

(** The double quote, and Go literals that contain it: in the argument of
    [go_lit] an apostrophe stands for the double quote of the Go source. *)
Definition dq : ascii := ascii_of_nat 34.

Fixpoint go_lit (s : string) : string :=
  match s with
  | EmptyString => EmptyString
  | String c rest =>
      String (if Ascii.eqb c "'"%char then dq else c) (go_lit rest)
  end.

(** [len(s)] *)
Definition len (s : string) : Z := Z.of_nat (String.length s).

(** Byte-wise map, filter-free helpers on [string]. *)
Fixpoint string_map (f : ascii -> ascii) (s : string) : string :=
  match s with
  | EmptyString => EmptyString
  | String c rest => String (f c) (string_map f rest)
  end.

Fixpoint string_rev_append (s acc : string) : string :=
  match s with
  | EmptyString => acc
  | String c rest => string_rev_append rest (String c acc)
  end.

Definition string_rev (s : string) : string := string_rev_append s EmptyString.

Fixpoint string_forallb (p : ascii -> bool) (s : string) : bool :=
  match s with
  | EmptyString => true
  | String c rest => p c && string_forallb p rest
  end.

(** [s[:n]] for [0 <= n <= len(s)] (the callers check the bound). *)
Fixpoint string_take (n : nat) (s : string) : string :=
  match n, s with
  | S n', String c rest => String c (string_take n' rest)
  | _, _ => EmptyString
  end.

Fixpoint string_drop (n : nat) (s : string) : string :=
  match n, s with
  | S n', String _ rest => string_drop n' rest
  | _, _ => s
  end.

(* --------------------------------------------------------------------- *)
(** ** Package strings / bytes                                            *)
(* --------------------------------------------------------------------- *)

(** [strings.HasPrefix], [bytes.HasPrefix] *)
Fixpoint HasPrefix (s prefix : string) : bool :=
  match prefix, s with
  | EmptyString, _ => true
  | String p prefix', String c s' => Ascii.eqb p c && HasPrefix s' prefix'
  | String _ _, EmptyString => false
  end.

(** [bytes.TrimPrefix] *)
Definition TrimPrefix (s prefix : string) : string :=
  if HasPrefix s prefix then string_drop (String.length prefix) s else s.

(** [strings.ToLower].  The letters A-Z are mapped to a-z.  Header names and
    media types are ASCII; for a string with letters outside ASCII Go also
    applies the Unicode lower-case mapping, which is left out here. *)
Definition lower_byte (c : ascii) : ascii :=
  let n := nat_of_ascii c in
  if ((65 <=? n)%nat && (n <=? 90)%nat)%bool then ascii_of_nat (n + 32) else c.

Definition ToLower (s : string) : string := string_map lower_byte s.

(** [unicode.IsSpace], as the UTF-8 byte sequences of the white-space runes:
    the six ASCII ones, U+0085, U+00A0, U+1680, U+2000..U+200A, U+2028,
    U+2029, U+202F, U+205F and U+3000. *)
Definition bytes_of (l : list nat) : string :=
  fold_right (fun n s => String (ascii_of_nat n) s) EmptyString l.

Definition space_runes : list string :=
  Eval cbv in
    map bytes_of
      [ [9]; [10]; [11]; [12]; [13]; [32]; [194; 133]; [194; 160];
        [225; 154; 128];
        [226; 128; 128]; [226; 128; 129]; [226; 128; 130]; [226; 128; 131];
        [226; 128; 132]; [226; 128; 133]; [226; 128; 134]; [226; 128; 135];
        [226; 128; 136]; [226; 128; 137]; [226; 128; 138];
        [226; 128; 168]; [226; 128; 169]; [226; 128; 175];
        [226; 129; 159]; [227; 128; 128] ]%nat.

(** The white-space rune [s] starts with, if any. *)
Definition leading_space (runes : list string) (s : string) : option string :=
  List.find (fun r => HasPrefix s r) runes.

(** [strings.TrimLeftFunc(s, unicode.IsSpace)]; [fuel] bounds the number of
    runes removed and is the length of [s] at the call. *)
Fixpoint trim_left (runes : list string) (fuel : nat) (s : string) : string :=
  match fuel with
  | O => s
  | S fuel' =>
      match leading_space runes s with
      | Some r => trim_left runes fuel' (string_drop (String.length r) s)
      | None => s
      end
  end.

(** [strings.TrimSpace], [bytes.TrimSpace]: white space is removed at both
    ends; the right end is the left end of the reversed string. *)
Definition TrimSpace (s : string) : string :=
  let l := trim_left space_runes (String.length s) s in
  string_rev
    (trim_left (map string_rev space_runes) (String.length l) (string_rev l)).

(** [bytes.Split(body, []byte("\n"))]: the pieces between line feeds; a body
    with n line feeds has n+1 pieces. *)
Definition LF : ascii := ascii_of_nat 10.

Fixpoint SplitLF (s : string) : list string :=
  match s with
  | EmptyString => [EmptyString]
  | String c rest =>
      if Ascii.eqb c LF then EmptyString :: SplitLF rest
      else match SplitLF rest with
           | piece :: pieces => String c piece :: pieces
           | [] => [String c EmptyString]
           end
  end.

(* --------------------------------------------------------------------- *)
(** ** Package strconv                                                    *)
(* --------------------------------------------------------------------- *)

Definition is_digit (c : ascii) : bool :=
  let n := nat_of_ascii c in ((48 <=? n)%nat && (n <=? 57)%nat)%bool.

(** The value of a string of decimal digits, most significant first. *)
Fixpoint digits_value (acc : Z) (s : string) : Z :=
  match s with
  | EmptyString => acc
  | String c rest => digits_value (10 * acc + Z.of_nat (nat_of_ascii c - 48)) rest
  end.

(** [strconv.Atoi]: an optional sign, then at least one decimal digit and
    nothing else; a value outside the 64-bit range is an error. *)
Definition Atoi (s : string) : option Z :=
  let '(neg, ds) :=
    match s with
    | String "-"%char rest => (true, rest)
    | String "+"%char rest => (false, rest)
    | _ => (false, s)
    end in
  match ds with
  | EmptyString => None
  | _ =>
      if string_forallb is_digit ds then
        let v := if neg then - digits_value 0 ds else digits_value 0 ds in
        if ((- 2 ^ 63 <=? v) && (v <=? 2 ^ 63 - 1))%bool then Some v else None
      else None
  end.

(** [strconv.Itoa], [strconv.FormatInt(n, 10)] and the verb [%d]. *)
Definition Itoa (n : Z) : string := NilZero.string_of_int (Z.to_int n).

(** A Go result [(value, error)]: the value when the error is nil, the
    error's message otherwise. *)
Inductive Result (A : Type) : Type :=
| Ok (a : A)
| Err (msg : string).
Arguments Ok {A} a.
Arguments Err {A} msg.

(** Error propagation ([if err != nil { return nil, err }]) is the bind of
    this monad, written [x ← r; k]. *)
#[global] Instance Result_ret : MRet Result := fun A a => Ok a.
#[global] Instance Result_bind : MBind Result := fun A B k r =>
  match r with
  | Ok a => k a
  | Err e => Err e
  end.

(** [fmt.Errorf(prefix + ": %w", err)] *)
Definition wrapErr {A : Type} (prefix : string) (r : Result A) : Result A :=
  match r with
  | Ok a => Ok a
  | Err e => Err (prefix +:+ ": " +:+ e)
  end.

(** [json.RawMessage]: a byte slice, nil when the field was absent. *)
Definition RawMessage : Type := option string.

Definition raw_len (m : RawMessage) : Z :=
  match m with
  | Some b => len b
  | None => 0
  end.

(* --------------------------------------------------------------------- *)
(** ** headers.go                                                         *)
(* --------------------------------------------------------------------- *)

(** One element of the wire array, a [map[string]string], as the entries one
    iteration over it yields.  FormatHeaders only builds singletons. *)
Definition WireEntry : Type := list (string * string).

(** [FormatHeaders]: [headers] lists the entries of the Go map in the order
    the [range] loop visits them. *)
Definition FormatHeaders (headers : list (string * list string))
  : Result (list WireEntry) :=
  match headers with
  | [] => Ok []
  | _ =>
      Ok (flat_map
            (fun '(name, values) =>
               let lowerName := ToLower name in
               map (fun v => [(lowerName, v)]) values)
            headers)
  end.

(** The body of the inner loop of FlattenHeaders:
    [result[lowerName] = append(result[lowerName], value)]. *)
Definition flatten_step (result : gmap string (list string))
  (nv : string * string) : gmap string (list string) :=
  let lowerName := ToLower nv.1 in
  <[lowerName := default [] (result !! lowerName) ++ [nv.2]]> result.

(** [FlattenHeaders] *)
Definition FlattenHeaders (headers : list WireEntry)
  : gmap string (list string) :=
  match headers with
  | [] => ∅
  | _ =>
      fold_left (fun result entry => fold_left flatten_step entry result)
        headers ∅
  end.

(** A header map with every key lower-cased, as a map. *)
Definition lowercase_keys (m : list (string * list string))
  : gmap string (list string) :=
  list_to_map (map (fun nv => (ToLower nv.1, nv.2)) m).

(* --------------------------------------------------------------------- *)
(** ** config.go                                                          *)
(* --------------------------------------------------------------------- *)

Module Config.
(** The fields of [Config] the embedded functions read. *)
Record t : Type := {
  FailOpen : bool;
  PassthroughStatusCodes : list Z;
  MaxRetries : Z;
  RetryBackoffMs : Z;
  CircuitBreakerEnabled : bool;
  StripAcceptEncoding : bool;
  IncludeFullCertChain : bool;
  EnableMCP : bool;
  MCPJsonrpcErrors : bool;
  MaxSidebandBodyBytes : Z;
  ExtractHeaders : list string;
  MCPRetryMethods : list string
}.
End Config.

(* --------------------------------------------------------------------- *)
(** ** circuit_breaker.go                                                 *)
(* --------------------------------------------------------------------- *)

Definition defaultRetryAfterSec : Z := 30.

Inductive CircuitBreakerTrigger : Type :=
| TriggerNone
| Trigger429
| Trigger5xx
| TriggerTimeout.

#[global] Instance CircuitBreakerTrigger_eq_dec : EqDecision CircuitBreakerTrigger.
Proof. solve_decision. Defined.

Module CircuitBreakerOpenError.
Record t : Type := {
  Trigger : CircuitBreakerTrigger;
  RetryAfterSec : Z;
  RemainingMs : Z
}.
End CircuitBreakerOpenError.

Module CircuitBreaker.
(** The fields the mutex guards.  A [time.Time] is the reading of the
    monotonic clock in nanoseconds. *)
Record t : Type := {
  enabled : bool;
  closed : bool;
  openedAt : Z;
  retryAfterSec : Z;
  triggerType : CircuitBreakerTrigger
}.
End CircuitBreaker.

Definition NewCircuitBreaker (enabled : bool) : CircuitBreaker.t :=
  {| CircuitBreaker.enabled := enabled;
     CircuitBreaker.closed := true;
     CircuitBreaker.openedAt := 0;
     CircuitBreaker.retryAfterSec := 0;
     CircuitBreaker.triggerType := TriggerNone |}.

(** [time.Second] and [time.Millisecond], in nanoseconds. *)
Definition Second : Z := 1000000000.
Definition Millisecond : Z := 1000000.

(** [Duration.Milliseconds()]: the integer quotient, rounded toward zero. *)
Definition Milliseconds (d : Z) : Z := Z.quot d Millisecond.

(** [Allow] at clock reading [now]: the verdict, the error when the verdict
    is false, and the breaker it leaves. *)
Definition Allow (cb : CircuitBreaker.t) (now : Z)
  : bool * option CircuitBreakerOpenError.t * CircuitBreaker.t :=
  if negb (CircuitBreaker.enabled cb) then (true, None, cb)
  else if CircuitBreaker.closed cb then (true, None, cb)
  else
    let elapsed := clamp64 (now - CircuitBreaker.openedAt cb) in
    let retryDuration := wrap64 (CircuitBreaker.retryAfterSec cb * Second) in
    if elapsed >=? retryDuration then
      (true, None,
       {| CircuitBreaker.enabled := CircuitBreaker.enabled cb;
          CircuitBreaker.closed := true;
          CircuitBreaker.openedAt := CircuitBreaker.openedAt cb;
          CircuitBreaker.retryAfterSec := CircuitBreaker.retryAfterSec cb;
          CircuitBreaker.triggerType := TriggerNone |})
    else
      let remaining := wrap64 (retryDuration - elapsed) in
      (false,
       Some {| CircuitBreakerOpenError.Trigger := CircuitBreaker.triggerType cb;
               CircuitBreakerOpenError.RetryAfterSec := CircuitBreaker.retryAfterSec cb;
               CircuitBreakerOpenError.RemainingMs := Milliseconds remaining |},
       cb).

(** [Trip] at clock reading [now]. *)
Definition Trip (cb : CircuitBreaker.t) (trigger : CircuitBreakerTrigger)
  (retryAfterSec now : Z) : CircuitBreaker.t :=
  if negb (CircuitBreaker.enabled cb) then cb
  else
    {| CircuitBreaker.enabled := CircuitBreaker.enabled cb;
       CircuitBreaker.closed := false;
       CircuitBreaker.openedAt := now;
       CircuitBreaker.retryAfterSec :=
         if retryAfterSec >? 0 then retryAfterSec else defaultRetryAfterSec;
       CircuitBreaker.triggerType := trigger |}.

(* --------------------------------------------------------------------- *)
(** ** mcp.go: retryable methods                                          *)
(* --------------------------------------------------------------------- *)

(** [isMCPMethodRetryable] *)
Fixpoint isMCPMethodRetryable (method : string) (retryMethods : list string) : bool :=
  match retryMethods with
  | [] => false
  | m :: rest => if String.eqb m method then true else isMCPMethodRetryable method rest
  end.

(* --------------------------------------------------------------------- *)
(** ** network.go                                                         *)
(* --------------------------------------------------------------------- *)

(** [http.Header.Get]: the first value under the (canonical) key, or the
    empty string. *)
Definition Header_Get (h : gmap string (list string)) (key : string) : string :=
  match h !! key with
  | Some (v :: _) => v
  | _ => ""
  end.

(** [parseRetryAfter] *)
Definition parseRetryAfter (headers : gmap string (list string)) : Z :=
  let val := Header_Get headers "Retry-After" in
  if String.eqb val "" then defaultRetryAfterSec
  else
    match Atoi val with
    | None => defaultRetryAfterSec
    | Some secs => if secs <=? 0 then defaultRetryAfterSec else secs
    end.

(** What one [doRequest] yields: a transport error, or the provider's status,
    headers and body; and the time the exchange took. *)
Inductive AttemptResult : Type :=
| TransportError (msg : string)
| HTTPResponse (statusCode : Z) (respHeaders : gmap string (list string))
    (respBody : string).

Record Attempt : Type := { took : Z; outcome : AttemptResult }.

(** The provider as one call of Execute sees it: the result of its [k]-th
    [doRequest], for k = 0, 1, ... *)
Definition Provider : Type := nat -> Attempt.

(** What Execute acts on: the clock, the breaker of the client, the number
    of HTTP requests issued so far and the pauses taken between attempts. *)
Record World : Type := {
  now : Z;
  breaker : CircuitBreaker.t;
  requests : nat;
  sleeps : list Z
}.

Inductive GoError : Type :=
| ErrCircuitOpen (e : CircuitBreakerOpenError.t)
| ErrMessage (msg : string).

(** The four results of Execute. *)
Record ExecResult : Type := {
  statusCode : Z;
  respHeaders : option (gmap string (list string));
  respBody : option string;
  err : option GoError
}.

(** The variables [lastErr], [lastStatus], [lastHeaders], [lastBody]. *)
Record Last : Type := {
  lastErr : option GoError;
  lastStatus : Z;
  lastHeaders : option (gmap string (list string));
  lastBody : option string
}.

Definition set_breaker (w : World) (cb : CircuitBreaker.t) : World :=
  {| now := now w; breaker := cb; requests := requests w; sleeps := sleeps w |}.

(** [time.Sleep(d)]: returns at once when [d] is not positive. *)
Definition Sleep (d : Z) (w : World) : World :=
  {| now := now w + Z.max 0 d; breaker := breaker w;
     requests := requests w; sleeps := sleeps w ++ [d] |}.

(** One [doRequest]: the request is issued and the clock advances. *)
Definition doRequest (p : Provider) (attempt : nat) (w : World)
  : AttemptResult * World :=
  (outcome (p attempt),
   {| now := now w + took (p attempt); breaker := breaker w;
      requests := S (requests w); sleeps := sleeps w |}).

(** The [for attempt := 0; attempt < maxAttempts; attempt++] loop of Execute;
    [fuel] is [maxAttempts - attempt].  The result is [Some] when the loop
    body returns, [None] when the loop runs out. *)
Fixpoint retry_loop (conf : Config.t) (p : Provider) (fuel attempt : nat)
  (last : Last) (w : World) : option ExecResult * Last * World :=
  match fuel with
  | O => (None, last, w)
  | S fuel' =>
      let w :=
        if (0 <? attempt)%nat
        then Sleep (wrap64 (Config.RetryBackoffMs conf * Millisecond)) w
        else w in
      let '(res, w) := doRequest p attempt w in
      match res with
      | TransportError e =>
          retry_loop conf p fuel' (S attempt)
            {| lastErr := Some (ErrMessage e); lastStatus := 0;
               lastHeaders := None; lastBody := None |} w
      | HTTPResponse statusCode respHeaders respBody =>
          if statusCode =? 429 then
            let retryAfter := parseRetryAfter respHeaders in
            (Some {| statusCode := statusCode; respHeaders := Some respHeaders;
                     respBody := Some respBody; err := None |},
             last,
             set_breaker w (Trip (breaker w) Trigger429 retryAfter (now w)))
          else if statusCode >=? 500 then
            retry_loop conf p fuel' (S attempt)
              {| lastErr := Some (ErrMessage ("sideband returned " +:+ Itoa statusCode));
                 lastStatus := statusCode;
                 lastHeaders := Some respHeaders; lastBody := Some respBody |} w
          else
            (Some {| statusCode := statusCode; respHeaders := Some respHeaders;
                     respBody := Some respBody; err := None |},
             last, w)
      end
  end.

(** [maxAttempts] as Execute computes it. *)
Definition maxAttempts (conf : Config.t) (mcpMethod : string) : Z :=
  if (negb (String.eqb mcpMethod "")
      && negb (isMCPMethodRetryable mcpMethod (Config.MCPRetryMethods conf)))%bool
  then 1
  else wrap64 (1 + Config.MaxRetries conf).

(** [Execute] *)
Definition Execute (conf : Config.t) (p : Provider) (mcpMethod : string)
  (w : World) : ExecResult * World :=
  let '(ok, cbErr, cb) := Allow (breaker w) (now w) in
  let w := set_breaker w cb in
  if negb ok then
    ({| statusCode := 0; respHeaders := None; respBody := None;
        err := option_map ErrCircuitOpen cbErr |}, w)
  else
    let init := {| lastErr := None; lastStatus := 0;
                   lastHeaders := None; lastBody := None |} in
    match retry_loop conf p (Z.to_nat (maxAttempts conf mcpMethod)) O init w with
    | (Some r, _, w) => (r, w)
    | (None, last, w) =>
        let w :=
          match lastErr last with
          | Some _ =>
              if lastStatus last >=? 500 then
                set_breaker w
                  (Trip (breaker w) Trigger5xx defaultRetryAfterSec (now w))
              else if lastStatus last =? 0 then
                set_breaker w
                  (Trip (breaker w) TriggerTimeout defaultRetryAfterSec (now w))
              else w
          | None => w
          end in
        if lastStatus last >? 0 then
          ({| statusCode := lastStatus last; respHeaders := lastHeaders last;
              respBody := lastBody last; err := lastErr last |}, w)
        else
          ({| statusCode := 0; respHeaders := None; respBody := None;
              err := lastErr last |}, w)
    end.

(** The configuration [New()] returns, with the retryable methods that
    [applyDefaults] fills in. *)
Definition defaultConfig : Config.t :=
  {| Config.FailOpen := false;
     Config.PassthroughStatusCodes := [413];
     Config.MaxRetries := 0;
     Config.RetryBackoffMs := 500;
     Config.CircuitBreakerEnabled := true;
     Config.StripAcceptEncoding := true;
     Config.IncludeFullCertChain := false;
     Config.EnableMCP := false;
     Config.MCPJsonrpcErrors := false;
     Config.MaxSidebandBodyBytes := 0;
     Config.ExtractHeaders := [];
     Config.MCPRetryMethods :=
       ["tools/list"; "resources/list"; "prompts/list"; "initialize"] |}.

(** An attempt the retry loop repeats: a transport failure or a 5xx reply. *)
Definition transient (r : AttemptResult) : Prop :=
  match r with
  | TransportError _ => True
  | HTTPResponse statusCode _ _ => statusCode <> 429 /\ 500 <= statusCode
  end.

(** The worlds and providers of [network_test.go]: a client that has issued
    nothing yet, a provider that answers 429 with [Retry-After: 5], and one
    that answers 500 every time. *)
Definition freshWorld (enabled : bool) : World :=
  {| now := 0; breaker := NewCircuitBreaker enabled; requests := 0; sleeps := [] |}.

Definition rateLimitedProvider : Provider := fun _ =>
  {| took := Millisecond;
     outcome := HTTPResponse 429 {[ "Retry-After" := ["5"] ]} "rate limited" |}.

Definition failingProvider : Provider := fun _ =>
  {| took := Millisecond; outcome := HTTPResponse 500 ∅ "error" |}.

(** Scenario 6 of the specification: [max_retries = 3], the default
    retryable methods, a provider that answers 500. *)
Definition retryConfig : Config.t :=
  {| Config.FailOpen := false;
     Config.PassthroughStatusCodes := [413];
     Config.MaxRetries := 3;
     Config.RetryBackoffMs := 10;
     Config.CircuitBreakerEnabled := true;
     Config.StripAcceptEncoding := true;
     Config.IncludeFullCertChain := false;
     Config.EnableMCP := true;
     Config.MCPJsonrpcErrors := true;
     Config.MaxSidebandBodyBytes := 0;
     Config.ExtractHeaders := [];
     Config.MCPRetryMethods :=
       ["tools/list"; "resources/list"; "prompts/list"; "initialize"] |}.

(** The world one second after a first [tools/call] was answered 500 and
    tripped the breaker. *)
Definition worldAfterTrip : World :=
  Sleep Second (Execute retryConfig failingProvider "tools/call" (freshWorld true)).2.

(* --------------------------------------------------------------------- *)
(** ** types.go                                                           *)
(* --------------------------------------------------------------------- *)

Module MCPContext.
Record t : Type := {
  Method : string;
  ToolName : string;
  ToolArguments : RawMessage;
  ResourceURI : string;
  PromptName : string;
  JsonrpcID : RawMessage
}.
End MCPContext.

Module JsonRPCRequest.
Record t : Type := {
  Jsonrpc : string;
  Method : string;
  ID : RawMessage;
  Params : RawMessage
}.
End JsonRPCRequest.

Module JsonRPCErrorDetail.
Record t : Type := { Code : Z; Message : string }.
End JsonRPCErrorDetail.

Module JsonRPCError.
Record t : Type := {
  Jsonrpc : string;
  ID : RawMessage;
  Error : JsonRPCErrorDetail.t
}.
End JsonRPCError.

Module JWK.
Record t : Type := {
  Kty : string; N : string; E : string; Crv : string;
  X : string; Y : string; X5C : list string
}.
End JWK.

Module SidebandAccessRequest.
Record t : Type := {
  SourceIP : string;
  SourcePort : string;
  Method : string;
  URL : string;
  Body : string;
  Headers : list WireEntry;
  HTTPVersion : string;
  ClientCertificate : option JWK.t;
  TrafficType : string;
  MCP : option MCPContext.t;
  ExtractedHeaders : option (gmap string string)
}.
End SidebandAccessRequest.

Module DenyResponse.
Record t : Type := {
  ResponseCode : string;
  ResponseStatus : string;
  Body : string;
  Headers : list WireEntry
}.
End DenyResponse.

Module SidebandAccessResponse.
Record t : Type := {
  SourceIP : string;
  SourcePort : string;
  Method : string;
  URL : string;
  Body : option string;
  Headers : list WireEntry;
  ClientCertificate : option JWK.t;
  State : RawMessage;
  Response : option DenyResponse.t
}.
End SidebandAccessResponse.

Module SidebandResponsePayload.
Record t : Type := {
  Method : string;
  URL : string;
  Body : string;
  ResponseCode : string;
  ResponseStatus : string;
  Headers : list WireEntry;
  HTTPVersion : string;
  State : RawMessage;
  Request : option SidebandAccessRequest.t;
  TrafficType : string;
  MCP : option MCPContext.t
}.
End SidebandResponsePayload.

Module SidebandResponseResult.
Record t : Type := {
  ResponseCode : string;
  Body : string;
  Headers : list WireEntry;
  Message : string;
  ID : string
}.
End SidebandResponseResult.

(** The zero value of [SidebandAccessRequest]. *)
Definition zeroAccessRequest : SidebandAccessRequest.t :=
  {| SidebandAccessRequest.SourceIP := "";
     SidebandAccessRequest.SourcePort := "";
     SidebandAccessRequest.Method := "";
     SidebandAccessRequest.URL := "";
     SidebandAccessRequest.Body := "";
     SidebandAccessRequest.Headers := [];
     SidebandAccessRequest.HTTPVersion := "";
     SidebandAccessRequest.ClientCertificate := None;
     SidebandAccessRequest.TrafficType := "";
     SidebandAccessRequest.MCP := None;
     SidebandAccessRequest.ExtractedHeaders := None |}.

(* --------------------------------------------------------------------- *)
(** ** Package encoding/json                                              *)
(* --------------------------------------------------------------------- *)

(** A byte that Marshal copies unchanged into a JSON string literal: a
    printable ASCII character other than the double quote, the backslash
    and the three characters Marshal escapes for HTML. *)
Definition json_plain (c : ascii) : bool :=
  let n := nat_of_ascii c in
  ((32 <=? n)%nat && (n <=? 126)%nat
   && negb (n =? 34)%nat && negb (n =? 92)%nat
   && negb (n =? 60)%nat && negb (n =? 62)%nat && negb (n =? 38)%nat)%bool.

(** A Go string between double quotes. *)
Definition quoted (s : string) : string := String dq (s +:+ String dq "").

(** The decoder and the encoder of Go's standard library, as the plugin
    uses them.  [Unmarshal_T data] is [json.Unmarshal(data, &v)] for a fresh
    [v] of type T: the decoded value when the error is nil.
    [Unmarshal_probe] decodes into the anonymous struct of
    isJsonRPCResponse (its jsonrpc and id fields); [Unmarshal_RawMap] into
    a [map[string]json.RawMessage].  The two laws are the facts about them
    the development relies on: the empty input is not valid JSON, and a
    string of plain bytes is encoded as itself between quotes. *)
Class EncodingJSON : Type := {
  Valid : string -> bool;
  EncodeString : string -> string;
  Unmarshal_JsonRPCRequest : string -> Result JsonRPCRequest.t;
  Unmarshal_probe : string -> Result (string * RawMessage);
  Unmarshal_RawMap : string -> Result (gmap string string);
  Unmarshal_string : string -> Result string;
  Unmarshal_SidebandAccessRequest : string -> Result SidebandAccessRequest.t;
  Unmarshal_MCPContext : string -> Result MCPContext.t;
  Marshal_SidebandAccessRequest : SidebandAccessRequest.t -> Result string;
  Valid_empty : Valid "" = false;
  EncodeString_plain : forall s,
    string_forallb json_plain s = true -> EncodeString s = quoted s
}.

Definition hex_digit (n : nat) : ascii :=
  match String.get n "0123456789abcdef" with
  | Some c => c
  | None => "0"%char
  end.

Definition is_json_space (c : ascii) : bool :=
  let n := nat_of_ascii c in
  ((n =? 32) || (n =? 9) || (n =? 13) || (n =? 10))%nat%bool.

Definition is_html_byte (c : ascii) : bool :=
  let n := nat_of_ascii c in ((n =? 60) || (n =? 62) || (n =? 38))%nat%bool.

(** Whether [src] starts with the UTF-8 form of U+2028 or U+2029
    ([0xE2 0x80 0xA8] or [0xE2 0x80 0xA9]); the result is the last byte. *)
Definition line_separator (src : string) : option nat :=
  match src with
  | String c0 (String c1 (String c2 _)) =>
      if ((nat_of_ascii c0 =? 226) && (nat_of_ascii c1 =? 128)
          && ((nat_of_ascii c2 =? 168) || (nat_of_ascii c2 =? 169)))%nat%bool
      then Some (nat_of_ascii c2) else None
  | _ => None
  end.

(** [appendCompact(dst, src, escapeHTML = true)] on a valid JSON text, which
    is how Marshal writes a [json.RawMessage]: [<], [>], [&], U+2028 and
    U+2029 become [\u] escapes and white space outside string literals is
    dropped.  [inStr] and [esc] follow the scanner through string literals;
    [skip] counts the bytes of a line separator still to pass over. *)
Fixpoint compact_from (inStr esc : bool) (skip : nat) (src : string) : string :=
  match src with
  | EmptyString => EmptyString
  | String c rest =>
      match skip with
      | S skip' => compact_from inStr false skip' rest
      | O =>
          if is_html_byte c then
            "\u00" +:+ String (hex_digit (nat_of_ascii c / 16))
                        (String (hex_digit (nat_of_ascii c mod 16))
                           (compact_from inStr false 0 rest))
          else
            match line_separator src with
            | Some c2 =>
                "\u202" +:+ String (hex_digit (c2 mod 16))
                              (compact_from inStr false 2 rest)
            | None =>
                if inStr then
                  if esc then String c (compact_from true false 0 rest)
                  else if Ascii.eqb c "\"%char
                       then String c (compact_from true true 0 rest)
                  else if Ascii.eqb c dq
                       then String c (compact_from false false 0 rest)
                  else String c (compact_from true false 0 rest)
                else if Ascii.eqb c dq
                     then String c (compact_from true false 0 rest)
                else if is_json_space c then compact_from false false 0 rest
                else String c (compact_from false false 0 rest)
            end
      end
  end.

Definition compact (src : string) : string := compact_from false false 0 src.

(* --------------------------------------------------------------------- *)
(** ** The gateway facade (go-pdk) and the other collaborators            *)
(* --------------------------------------------------------------------- *)

Module PDK.
(** What the gateway answers to the reads of one request.  [kong.Request]
    is the client's request and does not change while the plugin runs. *)
Record t : Type := {
  Client_GetIp : Result string;
  Client_GetPort : Result Z;
  Request_GetMethod : Result string;
  Request_GetRawBody : Result string;
  Request_GetHeaders : Result (list (string * list string));
  Nginx_GetVar : string -> Result string;
  ServiceResponse_GetRawBody : Result string;
  ServiceResponse_GetStatus : Result Z;
  ServiceResponse_GetHeaders : Result (list (string * list string));
  Ctx_GetSharedString : string -> Result string
}.
End PDK.

Inductive LogLevel : Type := LevelDebug | LevelInfo | LevelWarn | LevelErr.

(** The calls by which the plugin acts on the gateway, in the order it makes
    them.  A logger call is recorded with its message (the key-value pairs
    are left out).  [Response_Exit] builds the complete response the client
    receives: status, body (nil or bytes) and header map (nil or a map). *)
Inductive PDKCall : Type :=
| Log (level : LogLevel) (msg : string)
| Response_Exit (status : Z) (body : option string)
    (headers : option (gmap string (list string)))
| ServiceRequest_ClearHeader (name : string)
| ServiceRequest_SetHeader (name value : string)
| ServiceRequest_AddHeader (name value : string)
| ServiceRequest_SetMethod (method : string)
| ServiceRequest_SetPath (path : string)
| ServiceRequest_SetRawQuery (query : string)
| ServiceRequest_SetRawBody (body : string)
| Ctx_SetShared (key value : string).

(** The response the client receives: the one of the first [Response_Exit]. *)
Fixpoint clientResponse (calls : list PDKCall)
  : option (Z * option string * option (gmap string (list string))) :=
  match calls with
  | [] => None
  | Response_Exit status body headers :: _ => Some (status, body, headers)
  | _ :: rest => clientResponse rest
  end.

Module URL.
(** The fields of [url.URL] that updateURL compares. *)
Record t : Type := {
  Scheme : string; Host : string; Path : string; RawQuery : string
}.
End URL.

(** Functions kept abstract: [url.Parse] of package net/url, the certificate
    conversion of [certificate.go] (PEM chain to JWK), and two helpers of
    [access.go] whose results the payloads carry unchanged,
    [buildForwardedURL] (the URL rebuilt from the forwarded scheme, host,
    port, path and query) and [getHTTPVersion]. *)
Class Collaborators : Type := {
  url_Parse : string -> Result URL.t;
  ExtractClientCertJWK : string -> bool -> Result JWK.t;
  buildForwardedURL : PDK.t -> Result string;
  getHTTPVersion : PDK.t -> Result string
}.

Definition orZero {A : Type} (zero : A) (r : Result A) : A :=
  match r with
  | Ok a => a
  | Err _ => zero
  end.

(* --------------------------------------------------------------------- *)
(** ** observability.go                                                   *)
(* --------------------------------------------------------------------- *)

(** [TruncateBody] *)
Definition TruncateBody (body : string) (maxBytes : Z) : string :=
  if ((maxBytes <=? 0) || (len body <=? maxBytes))%bool then body
  else string_take (Z.to_nat maxBytes) body
       +:+ "... [truncated, " +:+ Itoa (len body) +:+ " bytes]".

(* --------------------------------------------------------------------- *)
(** ** mcp.go, sse.go                                                     *)
(* --------------------------------------------------------------------- *)

Definition mcpMethods : list string :=
  ["tools/call"; "tools/list"; "resources/read"; "resources/list";
   "prompts/get"; "prompts/list"; "initialize"].

(** [IsMCPMethod] *)
Definition IsMCPMethod (method : string) : bool :=
  existsb (String.eqb method) mcpMethods.

(** [httpStatusToJsonRPCError] *)
Definition httpStatusToJsonRPCError (statusCode : Z) : Z :=
  if statusCode =? 400 then -32600
  else if ((statusCode =? 401) || (statusCode =? 403))%bool then -32600
  else if statusCode =? 404 then -32601
  else if statusCode =? 429 then -32000
  else if statusCode =? 500 then -32603
  else if ((statusCode =? 502) || (statusCode =? 503))%bool then -32000
  else if ((statusCode >=? 400) && (statusCode <? 500))%bool then -32600
  else -32603.

(** The mapping table of the specification, row by row. *)
Definition jsonrpc_code_table (http : Z) : Z :=
  if decide (http = 404) then -32601
  else if decide (http = 429) then -32000
  else if decide (400 <= http < 500) then -32600
  else if decide (http = 500) then -32603
  else if decide (http = 502 \/ http = 503) then -32000
  else -32603.

(** [isSSEContentType] *)
Definition isSSEContentType (contentType : string) : bool :=
  HasPrefix (ToLower (TrimSpace contentType)) "text/event-stream".

Definition setToolName (ctx : MCPContext.t) (v : string) : MCPContext.t :=
  {| MCPContext.Method := MCPContext.Method ctx;
     MCPContext.ToolName := v;
     MCPContext.ToolArguments := MCPContext.ToolArguments ctx;
     MCPContext.ResourceURI := MCPContext.ResourceURI ctx;
     MCPContext.PromptName := MCPContext.PromptName ctx;
     MCPContext.JsonrpcID := MCPContext.JsonrpcID ctx |}.

Definition setToolArguments (ctx : MCPContext.t) (v : RawMessage) : MCPContext.t :=
  {| MCPContext.Method := MCPContext.Method ctx;
     MCPContext.ToolName := MCPContext.ToolName ctx;
     MCPContext.ToolArguments := v;
     MCPContext.ResourceURI := MCPContext.ResourceURI ctx;
     MCPContext.PromptName := MCPContext.PromptName ctx;
     MCPContext.JsonrpcID := MCPContext.JsonrpcID ctx |}.

Definition setResourceURI (ctx : MCPContext.t) (v : string) : MCPContext.t :=
  {| MCPContext.Method := MCPContext.Method ctx;
     MCPContext.ToolName := MCPContext.ToolName ctx;
     MCPContext.ToolArguments := MCPContext.ToolArguments ctx;
     MCPContext.ResourceURI := v;
     MCPContext.PromptName := MCPContext.PromptName ctx;
     MCPContext.JsonrpcID := MCPContext.JsonrpcID ctx |}.

Definition setPromptName (ctx : MCPContext.t) (v : string) : MCPContext.t :=
  {| MCPContext.Method := MCPContext.Method ctx;
     MCPContext.ToolName := MCPContext.ToolName ctx;
     MCPContext.ToolArguments := MCPContext.ToolArguments ctx;
     MCPContext.ResourceURI := MCPContext.ResourceURI ctx;
     MCPContext.PromptName := v;
     MCPContext.JsonrpcID := MCPContext.JsonrpcID ctx |}.

Section WithJSON.
Context {J : EncodingJSON}.

(** Marshal of a [json.RawMessage] field: [null] for a nil slice; the bytes,
    compacted and HTML-escaped, when they are valid JSON; an error otherwise. *)
Definition Marshal_RawMessage (m : RawMessage) : Result string :=
  match m with
  | None => Ok "null"
  | Some b =>
      if Valid b then Ok (compact b)
      else Err "json: error calling MarshalJSON for type json.RawMessage"
  end.

(** [json.Marshal] of a [JsonRPCError]: the fields in declaration order. *)
Definition Marshal_JsonRPCError (resp : JsonRPCError.t) : Result string :=
  id ← Marshal_RawMessage (JsonRPCError.ID resp);
  Ok (go_lit "{'jsonrpc':" +:+ EncodeString (JsonRPCError.Jsonrpc resp)
      +:+ go_lit ",'id':" +:+ id
      +:+ go_lit ",'error':{'code':"
      +:+ Itoa (JsonRPCErrorDetail.Code (JsonRPCError.Error resp))
      +:+ go_lit ",'message':"
      +:+ EncodeString (JsonRPCErrorDetail.Message (JsonRPCError.Error resp))
      +:+ "}}").

(** [formatMCPDenyResponse]; the result is nil when Marshal fails. *)
Definition formatMCPDenyResponse (statusCode : Z) (message : string)
  (jsonrpcID : RawMessage) : option string :=
  let errCode := httpStatusToJsonRPCError statusCode in
  let resp :=
    {| JsonRPCError.Jsonrpc := "2.0";
       JsonRPCError.ID := jsonrpcID;
       JsonRPCError.Error :=
         {| JsonRPCErrorDetail.Code := errCode;
            JsonRPCErrorDetail.Message := message |} |} in
  match Marshal_JsonRPCError resp with
  | Ok body => Some body
  | Err _ => None
  end.

(** [extractMCPParams]: the context with the fields of the method filled in. *)
Definition extractMCPParams (method params : string) (ctx : MCPContext.t)
  : MCPContext.t :=
  match Unmarshal_RawMap params with
  | Err _ => ctx
  | Ok paramsMap =>
      if String.eqb method "tools/call" then
        let ctx :=
          match paramsMap !! "name" with
          | Some name =>
              match Unmarshal_string name with
              | Ok toolName => setToolName ctx toolName
              | Err _ => ctx
              end
          | None => ctx
          end in
        match paramsMap !! "arguments" with
        | Some args => setToolArguments ctx (Some args)
        | None => ctx
        end
      else if String.eqb method "resources/read" then
        match paramsMap !! "uri" with
        | Some uri =>
            match Unmarshal_string uri with
            | Ok resourceURI => setResourceURI ctx resourceURI
            | Err _ => ctx
            end
        | None => ctx
        end
      else if String.eqb method "prompts/get" then
        match paramsMap !! "name" with
        | Some name =>
            match Unmarshal_string name with
            | Ok promptName => setPromptName ctx promptName
            | Err _ => ctx
            end
        | None => ctx
        end
      else ctx
  end.

(** [ParseMCPRequest] *)
Definition ParseMCPRequest (body : string) : option MCPContext.t :=
  if len body =? 0 then None
  else
    match Unmarshal_JsonRPCRequest body with
    | Err _ => None
    | Ok rpc =>
        if negb (String.eqb (JsonRPCRequest.Jsonrpc rpc) "2.0") then None
        else if negb (IsMCPMethod (JsonRPCRequest.Method rpc)) then None
        else
          let ctx :=
            {| MCPContext.Method := JsonRPCRequest.Method rpc;
               MCPContext.ToolName := "";
               MCPContext.ToolArguments := None;
               MCPContext.ResourceURI := "";
               MCPContext.PromptName := "";
               MCPContext.JsonrpcID := JsonRPCRequest.ID rpc |} in
          match JsonRPCRequest.Params rpc with
          | Some params =>
              if len params >? 0
              then Some (extractMCPParams (JsonRPCRequest.Method rpc) params ctx)
              else Some ctx
          | None => Some ctx
          end
    end.

(** [isJsonRPCResponse] *)
Definition isJsonRPCResponse (data : string) : bool :=
  match Unmarshal_probe data with
  | Err _ => false
  | Ok (jsonrpc, id) => (String.eqb jsonrpc "2.0" && (raw_len id >? 0))%bool
  end.

(** One turn of the loop of ParseSSEFinalMessage over the lines of the body:
    the new value of [lastValidJSON]. *)
Definition sse_line (lastValidJSON : option string) (line : string)
  : option string :=
  let line := TrimSpace line in
  if negb (HasPrefix line "data:") then lastValidJSON
  else
    let data := TrimSpace (TrimPrefix line "data:") in
    if len data =? 0 then lastValidJSON
    else if (Valid data && isJsonRPCResponse data)%bool then Some data
    else lastValidJSON.

(** [ParseSSEFinalMessage] *)
Definition ParseSSEFinalMessage (body contentType : string) : string :=
  if negb (isSSEContentType contentType) then body
  else if len body =? 0 then body
  else
    match fold_left sse_line (SplitLF body) None with
    | Some lastValidJSON => lastValidJSON
    | None => body
    end.

(** The final-message extraction in the words of the specification: the
    payloads of the [data:] lines, and the last of them that is a JSON-RPC
    response. *)
Definition sse_payloads (body : string) : list string :=
  map (fun line => TrimSpace (TrimPrefix (TrimSpace line) "data:"))
    (List.filter (fun line => HasPrefix (TrimSpace line) "data:") (SplitLF body)).

Definition is_response_payload (data : string) : bool :=
  (Valid data
   && match Unmarshal_probe data with
      | Ok (jsonrpc, id) => String.eqb jsonrpc "2.0" && (0 <? raw_len id)
      | Err _ => false
      end)%bool.

Definition sse_final_message_spec (body contentType : string) : string :=
  if HasPrefix (ToLower (TrimSpace contentType)) "text/event-stream" then
    match List.last (map Some (List.filter is_response_payload (sse_payloads body))) None with
    | Some payload => payload
    | None => body
    end
  else body.

End WithJSON.

(* --------------------------------------------------------------------- *)
(** ** access.go                                                          *)
(* --------------------------------------------------------------------- *)

Definition mcpContextKey : string := "paz_mcp_context".

Definition setClientCertificate (req : SidebandAccessRequest.t) (jwk : JWK.t)
  : SidebandAccessRequest.t :=
  {| SidebandAccessRequest.SourceIP := SidebandAccessRequest.SourceIP req;
     SidebandAccessRequest.SourcePort := SidebandAccessRequest.SourcePort req;
     SidebandAccessRequest.Method := SidebandAccessRequest.Method req;
     SidebandAccessRequest.URL := SidebandAccessRequest.URL req;
     SidebandAccessRequest.Body := SidebandAccessRequest.Body req;
     SidebandAccessRequest.Headers := SidebandAccessRequest.Headers req;
     SidebandAccessRequest.HTTPVersion := SidebandAccessRequest.HTTPVersion req;
     SidebandAccessRequest.ClientCertificate := Some jwk;
     SidebandAccessRequest.TrafficType := SidebandAccessRequest.TrafficType req;
     SidebandAccessRequest.MCP := SidebandAccessRequest.MCP req;
     SidebandAccessRequest.ExtractedHeaders :=
       SidebandAccessRequest.ExtractedHeaders req |}.

(** [req.TrafficType = "mcp"; req.MCP = mcpCtx] *)
Definition setMCP (req : SidebandAccessRequest.t) (mcpCtx : MCPContext.t)
  : SidebandAccessRequest.t :=
  {| SidebandAccessRequest.SourceIP := SidebandAccessRequest.SourceIP req;
     SidebandAccessRequest.SourcePort := SidebandAccessRequest.SourcePort req;
     SidebandAccessRequest.Method := SidebandAccessRequest.Method req;
     SidebandAccessRequest.URL := SidebandAccessRequest.URL req;
     SidebandAccessRequest.Body := SidebandAccessRequest.Body req;
     SidebandAccessRequest.Headers := SidebandAccessRequest.Headers req;
     SidebandAccessRequest.HTTPVersion := SidebandAccessRequest.HTTPVersion req;
     SidebandAccessRequest.ClientCertificate :=
       SidebandAccessRequest.ClientCertificate req;
     SidebandAccessRequest.TrafficType := "mcp";
     SidebandAccessRequest.MCP := Some mcpCtx;
     SidebandAccessRequest.ExtractedHeaders :=
       SidebandAccessRequest.ExtractedHeaders req |}.

Definition setExtractedHeaders (req : SidebandAccessRequest.t)
  (extracted : gmap string string) : SidebandAccessRequest.t :=
  {| SidebandAccessRequest.SourceIP := SidebandAccessRequest.SourceIP req;
     SidebandAccessRequest.SourcePort := SidebandAccessRequest.SourcePort req;
     SidebandAccessRequest.Method := SidebandAccessRequest.Method req;
     SidebandAccessRequest.URL := SidebandAccessRequest.URL req;
     SidebandAccessRequest.Body := SidebandAccessRequest.Body req;
     SidebandAccessRequest.Headers := SidebandAccessRequest.Headers req;
     SidebandAccessRequest.HTTPVersion := SidebandAccessRequest.HTTPVersion req;
     SidebandAccessRequest.ClientCertificate :=
       SidebandAccessRequest.ClientCertificate req;
     SidebandAccessRequest.TrafficType := SidebandAccessRequest.TrafficType req;
     SidebandAccessRequest.MCP := SidebandAccessRequest.MCP req;
     SidebandAccessRequest.ExtractedHeaders := Some extracted |}.

Definition setBody (req : SidebandAccessRequest.t) (body : string)
  : SidebandAccessRequest.t :=
  {| SidebandAccessRequest.SourceIP := SidebandAccessRequest.SourceIP req;
     SidebandAccessRequest.SourcePort := SidebandAccessRequest.SourcePort req;
     SidebandAccessRequest.Method := SidebandAccessRequest.Method req;
     SidebandAccessRequest.URL := SidebandAccessRequest.URL req;
     SidebandAccessRequest.Body := body;
     SidebandAccessRequest.Headers := SidebandAccessRequest.Headers req;
     SidebandAccessRequest.HTTPVersion := SidebandAccessRequest.HTTPVersion req;
     SidebandAccessRequest.ClientCertificate :=
       SidebandAccessRequest.ClientCertificate req;
     SidebandAccessRequest.TrafficType := SidebandAccessRequest.TrafficType req;
     SidebandAccessRequest.MCP := SidebandAccessRequest.MCP req;
     SidebandAccessRequest.ExtractedHeaders :=
       SidebandAccessRequest.ExtractedHeaders req |}.

(** [headers[name]] on the Go map [headers]. *)
Definition map_index {V : Type} (headers : list (string * V)) (name : string)
  : option V :=
  option_map snd (List.find (fun nv => String.eqb nv.1 name) headers).

(** [isPassthroughCode] *)
Definition isPassthroughCode (code : Z) (conf : Config.t) : bool :=
  existsb (fun c => c =? code) (Config.PassthroughStatusCodes conf).

(** [stringSliceEqual] *)
Fixpoint stringSliceEqual (a b : list string) : bool :=
  match a, b with
  | [], [] => true
  | x :: a', y :: b' => String.eqb x y && stringSliceEqual a' b'
  | _, _ => false
  end.

Section WithCollaborators.
Context {J : EncodingJSON} {C : Collaborators}.

(** [getClientCertPEM] *)
Definition getClientCertPEM (kong : PDK.t) : Result string :=
  PDK.Nginx_GetVar kong "ssl_client_raw_cert".

(** The loop of composeAccessPayload over [conf.ExtractHeaders]. *)
Definition extractHeaders (names : list string)
  (headers : list (string * list string)) : gmap string string :=
  fold_left
    (fun extracted headerName =>
       let lowerName := ToLower headerName in
       match map_index headers lowerName with
       | Some (v :: _) => <[lowerName := v]> extracted
       | _ => extracted
       end)
    names ∅.

(** composeAccessPayload up to, and not including, its last block: the
    payload with the request data, the client certificate and the MCP
    enrichment. *)
Definition assembleAccessPayload (kong : PDK.t) (conf : Config.t)
  : Result SidebandAccessRequest.t :=
  sourceIP ← wrapErr "failed to get client IP" (PDK.Client_GetIp kong);
  sourcePort ← wrapErr "failed to get client port" (PDK.Client_GetPort kong);
  method ← wrapErr "failed to get method" (PDK.Request_GetMethod kong);
  reqURL ← wrapErr "failed to build URL" (buildForwardedURL kong);
  rawBody ← wrapErr "failed to get request body" (PDK.Request_GetRawBody kong);
  headers ← wrapErr "failed to get headers" (PDK.Request_GetHeaders kong);
  formattedHeaders ← FormatHeaders headers;
  httpVersion ← wrapErr "failed to get HTTP version" (getHTTPVersion kong);
  let req :=
    {| SidebandAccessRequest.SourceIP := sourceIP;
       SidebandAccessRequest.SourcePort := Itoa sourcePort;
       SidebandAccessRequest.Method := method;
       SidebandAccessRequest.URL := reqURL;
       SidebandAccessRequest.Body := rawBody;
       SidebandAccessRequest.Headers := formattedHeaders;
       SidebandAccessRequest.HTTPVersion := httpVersion;
       SidebandAccessRequest.ClientCertificate := None;
       SidebandAccessRequest.TrafficType := "";
       SidebandAccessRequest.MCP := None;
       SidebandAccessRequest.ExtractedHeaders := None |} in
  req ← match getClientCertPEM kong with
        | Ok certPEM =>
            if negb (String.eqb certPEM "") then
              jwk ← wrapErr "failed to extract client certificate JWK"
                      (ExtractClientCertJWK certPEM (Config.IncludeFullCertChain conf));
              Ok (setClientCertificate req jwk)
            else Ok req
        | Err _ => Ok req
        end;
  if Config.EnableMCP conf then
    let req :=
      match ParseMCPRequest rawBody with
      | Some mcpCtx => setMCP req mcpCtx
      | None => req
      end in
    match Config.ExtractHeaders conf with
    | [] => Ok req
    | names =>
        let extracted := extractHeaders names headers in
        if (0 <? size extracted)%nat then Ok (setExtractedHeaders req extracted)
        else Ok req
    end
  else Ok req.

(** The block "Payload size enforcement" that ends composeAccessPayload. *)
Definition payloadSizeEnforcement (conf : Config.t) (req : SidebandAccessRequest.t)
  : SidebandAccessRequest.t :=
  if Config.MaxSidebandBodyBytes conf >? 0 then
    match Marshal_SidebandAccessRequest req with
    | Ok payloadBytes =>
        if len payloadBytes >? Config.MaxSidebandBodyBytes conf then
          setBody req
            (TruncateBody (SidebandAccessRequest.Body req)
               (Z.quot (Config.MaxSidebandBodyBytes conf) 2))
        else req
    | Err _ => req
    end
  else req.

(** [composeAccessPayload] *)
Definition composeAccessPayload (kong : PDK.t) (conf : Config.t)
  : Result SidebandAccessRequest.t :=
  req ← assembleAccessPayload kong conf;
  Ok (payloadSizeEnforcement conf req).

(** [ensureValidJsonRPC]: the body it returns and the warnings it logs. *)
Definition ensureValidJsonRPC (body : string) (mcpCtx : MCPContext.t)
  : string * list PDKCall :=
  match Unmarshal_JsonRPCRequest body with
  | Err _ =>
      (body, [Log LevelWarn "Modified MCP body is not valid JSON-RPC, using as-is"])
  | Ok rpc =>
      if negb (String.eqb (JsonRPCRequest.Jsonrpc rpc) "2.0") then
        (body, [Log LevelWarn "Modified MCP body missing jsonrpc 2.0 field, using as-is"])
      else (body, [])
  end.

(** [updateURL] *)
Definition updateURL (newURL currentURL : string) : list PDKCall :=
  match url_Parse newURL with
  | Err _ => [Log LevelWarn "Failed to parse new URL"]
  | Ok newParsed =>
      match url_Parse currentURL with
      | Err _ => [Log LevelWarn "Failed to parse current URL"]
      | Ok currentParsed =>
          (if negb (String.eqb (URL.Scheme newParsed) (URL.Scheme currentParsed))
           then [Log LevelWarn "Scheme change not supported"] else [])
          ++ (if negb (String.eqb (URL.Host newParsed) (URL.Host currentParsed))
              then [ServiceRequest_SetHeader "Host" (URL.Host newParsed)] else [])
          ++ (if negb (String.eqb (URL.Path newParsed) (URL.Path currentParsed))
              then [ServiceRequest_SetPath (URL.Path newParsed)] else [])
          ++ (if negb (String.eqb (URL.RawQuery newParsed) (URL.RawQuery currentParsed))
              then [ServiceRequest_SetRawQuery (URL.RawQuery newParsed)] else [])
      end
  end.

(** The last block of updateRequest, "Update body if changed". *)
Definition updateBody (kong : PDK.t) (conf : Config.t)
  (resp : SidebandAccessResponse.t) (payload : SidebandAccessRequest.t)
  : list PDKCall :=
  match SidebandAccessResponse.Body resp with
  | Some respBody =>
      let currentBody := orZero "" (PDK.Request_GetRawBody kong) in
      if negb (String.eqb respBody currentBody) then
        let '(newBody, warnings) :=
          match Config.EnableMCP conf, SidebandAccessRequest.MCP payload with
          | true, Some mcpCtx => ensureValidJsonRPC respBody mcpCtx
          | _, _ => (respBody, [])
          end in
        warnings ++ [ServiceRequest_SetRawBody newBody]
      else []
  | None => []
  end.

(** [updateRequest].  The two loops over Go maps visit the names in the order
    [map_to_list] gives; Go leaves that order open. *)
Definition updateRequest (kong : PDK.t) (conf : Config.t)
  (resp : SidebandAccessResponse.t) (payload : SidebandAccessRequest.t)
  : list PDKCall :=
  match PDK.Request_GetHeaders kong with
  | Err _ => [Log LevelWarn "Failed to get current headers for diffing"]
  | Ok currentHeaders =>
      let currentFlat : gmap string (list string) :=
        fold_left (fun m nv => <[ToLower nv.1 := nv.2]> m) currentHeaders ∅ in
      let newFlat := FlattenHeaders (SidebandAccessResponse.Headers resp) in
      flat_map
        (fun nv : string * list string =>
           match newFlat !! nv.1 with
           | None => [ServiceRequest_ClearHeader nv.1]
           | Some _ => []
           end)
        (map_to_list currentFlat)
      ++ flat_map
           (fun nv : string * list string =>
              let changed :=
                match currentFlat !! nv.1 with
                | Some currentValues => negb (stringSliceEqual currentValues nv.2)
                | None => true
                end in
              if changed then
                match nv.2 with
                | v :: vs =>
                    ServiceRequest_SetHeader nv.1 v
                    :: map (ServiceRequest_AddHeader nv.1) vs
                | [] => []
                end
              else [])
           (map_to_list newFlat)
      ++ (if Config.StripAcceptEncoding conf
          then [ServiceRequest_ClearHeader "Accept-Encoding"] else [])
      ++ (if negb (String.eqb (SidebandAccessResponse.Method resp) "") then
            let currentMethod := orZero "" (PDK.Request_GetMethod kong) in
            if negb (String.eqb (SidebandAccessResponse.Method resp) currentMethod)
            then [ServiceRequest_SetMethod (SidebandAccessResponse.Method resp)]
            else []
          else [])
      ++ (if negb (String.eqb (SidebandAccessResponse.URL resp) "") then
            let currentURL := orZero "" (buildForwardedURL kong) in
            if negb (String.eqb (SidebandAccessResponse.URL resp) currentURL)
            then updateURL (SidebandAccessResponse.URL resp) currentURL
            else []
          else [])
      ++ updateBody kong conf resp payload
  end.

(** [handleAccessResponse]: the calls it makes and its two results (the
    state, or the error that reports the denial). *)
Definition handleAccessResponse (kong : PDK.t) (conf : Config.t)
  (resp : SidebandAccessResponse.t) (payload : SidebandAccessRequest.t)
  : list PDKCall * Result RawMessage :=
  match SidebandAccessResponse.Response resp with
  | Some deny =>
      let statusCode :=
        match Atoi (DenyResponse.ResponseCode deny) with
        | Some n => n
        | None => 403
        end in
      let denied :=
        Err ("request denied with status " +:+ Itoa statusCode) in
      match Config.MCPJsonrpcErrors conf, SidebandAccessRequest.MCP payload with
      | true, Some mcp =>
          let body :=
            formatMCPDenyResponse statusCode (DenyResponse.Body deny)
              (MCPContext.JsonrpcID mcp) in
          ([Log LevelInfo "Request denied by policy provider";
            Response_Exit statusCode body
              (Some {[ "Content-Type" := ["application/json"] ]})],
           denied)
      | _, _ =>
          let headers := FlattenHeaders (DenyResponse.Headers deny) in
          ([Log LevelInfo "Request denied by policy provider";
            Response_Exit statusCode (Some (DenyResponse.Body deny)) (Some headers)],
           denied)
      end
  | None =>
      (updateRequest kong conf resp payload, Ok (SidebandAccessResponse.State resp))
  end.

(** The number of seconds both circuit-breaker handlers announce:
    [(cbErr.RemainingMs + 999) / 1000], at least 1. *)
Definition remainingSeconds (cbErr : CircuitBreakerOpenError.t) : Z :=
  let remainingSec :=
    Z.quot (wrap64 (CircuitBreakerOpenError.RemainingMs cbErr + 999)) 1000 in
  if remainingSec <? 1 then 1 else remainingSec.

(** The body both handlers send for a rate-limit trip outside MCP. *)
Definition limitExceededBody (remainingSec : Z) : string :=
  go_lit "{'code':'LIMIT_EXCEEDED','message':'The request exceeded the allowed rate limit. Please try after "
  +:+ Itoa remainingSec +:+ go_lit " second.'}".

(** [handleCircuitBreakerError] (access phase) *)
Definition handleCircuitBreakerError (cbErr : CircuitBreakerOpenError.t)
  (conf : Config.t) (payload : SidebandAccessRequest.t) : list PDKCall :=
  if decide (CircuitBreakerOpenError.Trigger cbErr = Trigger429) then
    let remainingSec := remainingSeconds cbErr in
    match Config.MCPJsonrpcErrors conf, SidebandAccessRequest.MCP payload with
    | true, Some mcp =>
        let msg := "Service temporarily unavailable. Retry after "
                   +:+ Itoa remainingSec +:+ " seconds." in
        let body := formatMCPDenyResponse 429 msg (MCPContext.JsonrpcID mcp) in
        [Response_Exit 429 body
           (Some (<[ "Retry-After" := [Itoa remainingSec] ]>
                    {[ "Content-Type" := ["application/json"] ]}))]
    | _, _ =>
        [Response_Exit 429 (Some (limitExceededBody remainingSec))
           (Some (<[ "Retry-After" := [Itoa remainingSec] ]>
                    {[ "Content-Type" := ["application/json"] ]}))]
    end
  else if Config.FailOpen conf then []
  else
    match Config.MCPJsonrpcErrors conf, SidebandAccessRequest.MCP payload with
    | true, Some mcp =>
        let body :=
          formatMCPDenyResponse 502 "Service temporarily unavailable."
            (MCPContext.JsonrpcID mcp) in
        [Response_Exit 502 body (Some {[ "Content-Type" := ["application/json"] ]})]
    | _, _ => [Response_Exit 502 None None]
    end.

(* --------------------------------------------------------------------- *)
(** ** response.go                                                        *)
(* --------------------------------------------------------------------- *)

(** [originalRequest != nil && originalRequest.MCP != nil], with the context. *)
Definition originalMCP (originalRequest : option SidebandAccessRequest.t)
  : option MCPContext.t :=
  match originalRequest with
  | Some req => SidebandAccessRequest.MCP req
  | None => None
  end.

(** [handleCircuitBreakerErrorResponse] (response phase) *)
Definition handleCircuitBreakerErrorResponse (cbErr : CircuitBreakerOpenError.t)
  (conf : Config.t) (originalRequest : option SidebandAccessRequest.t)
  : list PDKCall :=
  if decide (CircuitBreakerOpenError.Trigger cbErr = Trigger429) then
    let remainingSec := remainingSeconds cbErr in
    match Config.MCPJsonrpcErrors conf, originalMCP originalRequest with
    | true, Some mcp =>
        let msg := "Service temporarily unavailable. Retry after "
                   +:+ Itoa remainingSec +:+ " seconds." in
        let body := formatMCPDenyResponse 429 msg (MCPContext.JsonrpcID mcp) in
        [Response_Exit 429 body
           (Some (<[ "Retry-After" := [Itoa remainingSec] ]>
                    {[ "Content-Type" := ["application/json"] ]}))]
    | _, _ =>
        [Response_Exit 429 (Some (limitExceededBody remainingSec))
           (Some (<[ "Retry-After" := [Itoa remainingSec] ]>
                    {[ "Content-Type" := ["application/json"] ]}))]
    end
  else if Config.FailOpen conf then []
  else
    match Config.MCPJsonrpcErrors conf, originalMCP originalRequest with
    | true, Some mcp =>
        let body :=
          formatMCPDenyResponse 502 "Service temporarily unavailable."
            (MCPContext.JsonrpcID mcp) in
        [Response_Exit 502 body (Some {[ "Content-Type" := ["application/json"] ]})]
    | _, _ => [Response_Exit 502 None None]
    end.

(** [statusStrings] and [getStatusString] *)
Definition getStatusString (code : Z) : string :=
  if code =? 200 then "OK"
  else if code =? 400 then "BAD REQUEST"
  else if code =? 401 then "UNAUTHORIZED"
  else if code =? 404 then "NOT FOUND"
  else if code =? 413 then "PAYLOAD TOO LARGE"
  else if code =? 429 then "TOO MANY REQUESTS"
  else if code =? 500 then "INTERNAL SERVER ERROR"
  else if code =? 503 then "SERVICE UNAVAILABLE"
  else "".

(** [preservedResponseHeaders[name]] *)
Definition preservedResponseHeaders (name : string) : bool :=
  existsb (String.eqb name) ["content-length"; "date"; "connection"; "vary"].

(** [getResponseContentType]: the first value of the first name the loop
    meets that equals [content-type] up to case. *)
Fixpoint getResponseContentType (headers : list (string * list string)) : string :=
  match headers with
  | [] => ""
  | (name, values) :: rest =>
      match String.eqb (ToLower name) "content-type", values with
      | true, v :: _ => v
      | _, _ => getResponseContentType rest
      end
  end.

Definition setState (p : SidebandResponsePayload.t) (state : RawMessage)
  : SidebandResponsePayload.t :=
  {| SidebandResponsePayload.Method := SidebandResponsePayload.Method p;
     SidebandResponsePayload.URL := SidebandResponsePayload.URL p;
     SidebandResponsePayload.Body := SidebandResponsePayload.Body p;
     SidebandResponsePayload.ResponseCode := SidebandResponsePayload.ResponseCode p;
     SidebandResponsePayload.ResponseStatus := SidebandResponsePayload.ResponseStatus p;
     SidebandResponsePayload.Headers := SidebandResponsePayload.Headers p;
     SidebandResponsePayload.HTTPVersion := SidebandResponsePayload.HTTPVersion p;
     SidebandResponsePayload.State := state;
     SidebandResponsePayload.Request := SidebandResponsePayload.Request p;
     SidebandResponsePayload.TrafficType := SidebandResponsePayload.TrafficType p;
     SidebandResponsePayload.MCP := SidebandResponsePayload.MCP p |}.

Definition setRequest (p : SidebandResponsePayload.t)
  (originalRequest : SidebandAccessRequest.t) : SidebandResponsePayload.t :=
  {| SidebandResponsePayload.Method := SidebandResponsePayload.Method p;
     SidebandResponsePayload.URL := SidebandResponsePayload.URL p;
     SidebandResponsePayload.Body := SidebandResponsePayload.Body p;
     SidebandResponsePayload.ResponseCode := SidebandResponsePayload.ResponseCode p;
     SidebandResponsePayload.ResponseStatus := SidebandResponsePayload.ResponseStatus p;
     SidebandResponsePayload.Headers := SidebandResponsePayload.Headers p;
     SidebandResponsePayload.HTTPVersion := SidebandResponsePayload.HTTPVersion p;
     SidebandResponsePayload.State := SidebandResponsePayload.State p;
     SidebandResponsePayload.Request := Some originalRequest;
     SidebandResponsePayload.TrafficType := SidebandResponsePayload.TrafficType p;
     SidebandResponsePayload.MCP := SidebandResponsePayload.MCP p |}.

(** [payload.TrafficType = "mcp"; payload.MCP = mcpCtx] *)
Definition setPayloadMCP (p : SidebandResponsePayload.t) (mcpCtx : MCPContext.t)
  : SidebandResponsePayload.t :=
  {| SidebandResponsePayload.Method := SidebandResponsePayload.Method p;
     SidebandResponsePayload.URL := SidebandResponsePayload.URL p;
     SidebandResponsePayload.Body := SidebandResponsePayload.Body p;
     SidebandResponsePayload.ResponseCode := SidebandResponsePayload.ResponseCode p;
     SidebandResponsePayload.ResponseStatus := SidebandResponsePayload.ResponseStatus p;
     SidebandResponsePayload.Headers := SidebandResponsePayload.Headers p;
     SidebandResponsePayload.HTTPVersion := SidebandResponsePayload.HTTPVersion p;
     SidebandResponsePayload.State := SidebandResponsePayload.State p;
     SidebandResponsePayload.Request := SidebandResponsePayload.Request p;
     SidebandResponsePayload.TrafficType := "mcp";
     SidebandResponsePayload.MCP := Some mcpCtx |}.

(** [composeResponsePayload]; [originalRequest] may be nil. *)
Definition composeResponsePayload (kong : PDK.t) (conf : Config.t)
  (originalRequest : option SidebandAccessRequest.t) (state : RawMessage)
  : Result SidebandResponsePayload.t :=
  method ← wrapErr "failed to get method" (PDK.Request_GetMethod kong);
  reqURL ← wrapErr "failed to build URL" (buildForwardedURL kong);
  responseBodyBytes ←
    wrapErr "failed to get response body" (PDK.ServiceResponse_GetRawBody kong);
  statusCode ←
    wrapErr "failed to get response status" (PDK.ServiceResponse_GetStatus kong);
  responseHeaders ←
    wrapErr "failed to get response headers" (PDK.ServiceResponse_GetHeaders kong);
  formattedHeaders ← FormatHeaders responseHeaders;
  httpVersion ← wrapErr "failed to get HTTP version" (getHTTPVersion kong);
  let responseBody :=
    if Config.EnableMCP conf then
      let contentType := getResponseContentType responseHeaders in
      if isSSEContentType contentType
      then ParseSSEFinalMessage responseBodyBytes contentType
      else responseBodyBytes
    else responseBodyBytes in
  let payload :=
    {| SidebandResponsePayload.Method := method;
       SidebandResponsePayload.URL := reqURL;
       SidebandResponsePayload.Body := responseBody;
       SidebandResponsePayload.ResponseCode := Itoa statusCode;
       SidebandResponsePayload.ResponseStatus := getStatusString statusCode;
       SidebandResponsePayload.Headers := formattedHeaders;
       SidebandResponsePayload.HTTPVersion := httpVersion;
       SidebandResponsePayload.State := None;
       SidebandResponsePayload.Request := None;
       SidebandResponsePayload.TrafficType := "";
       SidebandResponsePayload.MCP := None |} in
  let payload :=
    if raw_len state >? 0 then setState payload state
    else
      match originalRequest with
      | Some req => setRequest payload req
      | None => payload
      end in
  let payload :=
    if Config.EnableMCP conf then
      match ParseMCPRequest responseBody with
      | Some mcpCtx => setPayloadMCP payload mcpCtx
      | None =>
          match originalMCP originalRequest with
          | Some mcpCtx => setPayloadMCP payload mcpCtx
          | None => payload
          end
      end
    else payload in
  Ok payload.

(** [loadPerRequestContext]: the original request (never nil) and the state. *)
Definition loadPerRequestContext (kong : PDK.t)
  : Result (SidebandAccessRequest.t * RawMessage) :=
  reqStr ← wrapErr "failed to get original request from context"
             (PDK.Ctx_GetSharedString kong "paz_original_request");
  req ← (if negb (String.eqb reqStr "") then
           wrapErr "failed to unmarshal original request"
             (Unmarshal_SidebandAccessRequest reqStr)
         else Ok zeroAccessRequest);
  let req :=
    match PDK.Ctx_GetSharedString kong mcpContextKey with
    | Ok mcpStr =>
        if negb (String.eqb mcpStr "") then
          match Unmarshal_MCPContext mcpStr with
          | Ok mcpCtx => setMCP req mcpCtx
          | Err _ => req
          end
        else req
    | Err _ => req
    end in
  let state : RawMessage :=
    match PDK.Ctx_GetSharedString kong "paz_state" with
    | Ok stateStr => if negb (String.eqb stateStr "") then Some stateStr else None
    | Err _ => None
    end in
  Ok (req, state).

(** The payload executeResponse sends: [loadPerRequestContext], then
    [composeResponsePayload] on what it loaded. *)
Definition responsePhasePayload (kong : PDK.t) (conf : Config.t)
  : Result SidebandResponsePayload.t :=
  loaded ← loadPerRequestContext kong;
  composeResponsePayload kong conf (Some loaded.1) loaded.2.

(** The loop of handleResponseResult over the upstream headers.  Its three
    branches (a preserved name, a name the policy response lacks, any other
    name) are all empty in the source: no call is made for any header. *)
Definition upstreamHeaderLoop (policyHeaders : gmap string (list string))
  (upstreamHeaders : list (string * list string)) : list PDKCall :=
  flat_map
    (fun nv : string * list string =>
       let lowerName := ToLower nv.1 in
       if preservedResponseHeaders lowerName then []
       else
         match policyHeaders !! lowerName with
         | None => []
         | Some _ => []
         end)
    upstreamHeaders.

(** [handleResponseResult] *)
Definition handleResponseResult (kong : PDK.t) (conf : Config.t)
  (result : SidebandResponseResult.t) : list PDKCall :=
  let statusCode :=
    match Atoi (SidebandResponseResult.ResponseCode result) with
    | Some n => n
    | None => 200
    end in
  let policyHeaders := FlattenHeaders (SidebandResponseResult.Headers result) in
  match PDK.ServiceResponse_GetHeaders kong with
  | Ok upstreamHeaders => upstreamHeaderLoop policyHeaders upstreamHeaders
  | Err _ => []
  end
  ++ [Log LevelInfo "Response phase complete";
      Response_Exit statusCode (Some (SidebandResponseResult.Body result))
        (Some policyHeaders)].

End WithCollaborators.

(* --------------------------------------------------------------------- *)
(** ** Specification-side notions                                         *)
(* --------------------------------------------------------------------- *)

(** [ceil(ms / 1000)], at least 1. *)
Definition ceil_seconds_min1 (ms : Z) : Z := Z.max 1 (- ((- ms) / 1000)).

(** The headers of the 429 a rate-limit trip is answered with. *)
Definition rateLimitHeaders (n : Z) : gmap string (list string) :=
  <[ "Retry-After" := [Itoa n] ]> {[ "Content-Type" := ["application/json"] ]}.

(** A raw JSON value that Marshal writes back byte for byte: it has none of
    the bytes [<], [>], [&], no U+2028 or U+2029, and no white space outside
    its string literals.  Every integer is of this kind. *)
Fixpoint raw_stable_from (inStr esc : bool) (src : string) : bool :=
  match src with
  | EmptyString => true
  | String c rest =>
      (negb (is_html_byte c)
       && match line_separator src with Some _ => false | None => true end
       && if inStr then
            if esc then raw_stable_from true false rest
            else if Ascii.eqb c "\"%char then raw_stable_from true true rest
            else if Ascii.eqb c dq then raw_stable_from false false rest
            else raw_stable_from true false rest
          else if Ascii.eqb c dq then raw_stable_from true false rest
          else negb (is_json_space c) && raw_stable_from false false rest)%bool
  end.

Definition raw_stable (src : string) : bool := raw_stable_from false false src.

(** The id of a JSON-RPC error as it is written into the body, in two
    passes.  First each of the characters [<], [>], [&], U+2028 and U+2029
    (the last two in their three bytes of UTF-8) is replaced by its
    six-byte escape; every other byte stays. *)
Fixpoint escape_chars (s : string) : string :=
  match s with
  | EmptyString => EmptyString
  | String c rest =>
      if Ascii.eqb c "<"%char then "\u003c" +:+ escape_chars rest
      else if Ascii.eqb c ">"%char then "\u003e" +:+ escape_chars rest
      else if Ascii.eqb c "&"%char then "\u0026" +:+ escape_chars rest
      else
        match rest with
        | String c1 (String c2 rest') =>
            if (Ascii.eqb c "226"%char && Ascii.eqb c1 "128"%char
                && Ascii.eqb c2 "168"%char)%bool
            then "\u2028" +:+ escape_chars rest'
            else if (Ascii.eqb c "226"%char && Ascii.eqb c1 "128"%char
                     && Ascii.eqb c2 "169"%char)%bool
            then "\u2029" +:+ escape_chars rest'
            else String c (escape_chars rest)
        | _ => String c (escape_chars rest)
        end
  end.

(** Then white space (space, tab, CR, LF) outside string literals is
    dropped; [inStr] and [esc] tell whether the text is inside a string
    literal and after a backslash there. *)
Fixpoint drop_outer_space (inStr esc : bool) (s : string) : string :=
  match s with
  | EmptyString => EmptyString
  | String c rest =>
      if inStr then
        String c
          (if esc then drop_outer_space true false rest
           else if Ascii.eqb c "\"%char then drop_outer_space true true rest
           else if Ascii.eqb c dq then drop_outer_space false false rest
           else drop_outer_space true false rest)
      else if Ascii.eqb c dq then String c (drop_outer_space true false rest)
      else if is_json_space c then drop_outer_space false false rest
      else String c (drop_outer_space false false rest)
  end.

Definition id_as_written (id : string) : string :=
  drop_outer_space false false (escape_chars id).

(** The JSON-RPC error body of the specification for a given id text. *)
Definition jsonrpc_error_body `{EncodingJSON} (id : string) (code : Z)
  (message : string) : string :=
  go_lit "{'jsonrpc':'2.0','id':" +:+ id
  +:+ go_lit ",'error':{'code':" +:+ Itoa code
  +:+ go_lit ",'message':" +:+ EncodeString message +:+ "}}".

(* --------------------------------------------------------------------- *)
(** ** An implementation of encoding/json for the examples                *)
(* --------------------------------------------------------------------- *)

(** [MiniJSON] below implements [EncodingJSON]: a scanner for the JSON
    grammar (RFC 8259), decoders for what the plugin reads and encoders for
    what it writes.  Names are matched up to ASCII case, as Unmarshal matches
    struct fields.  It is smaller than the library in three ways: a string
    value is taken as it stands between its quotes, so a value with an
    escape is refused; bytes above 127 are copied as they are; and a stored
    access request is not read back.  No theorem depends on it; the examples
    and the concrete inputs are evaluated with it. *)

(** The text after leading JSON white space. *)
Fixpoint skip_ws (s : string) : string :=
  match s with
  | String c rest => if is_json_space c then skip_ws rest else s
  | EmptyString => EmptyString
  end.

Inductive StringScan : Type := InString | InEscape | InHex (n : nat).

Definition is_hex (c : ascii) : bool :=
  let n := nat_of_ascii c in
  (((48 <=? n) && (n <=? 57)) || ((65 <=? n) && (n <=? 70))
   || ((97 <=? n) && (n <=? 102)))%nat%bool.

(** The text after the closing quote of a string literal whose opening
    quote has been read. *)
Fixpoint scan_string (st : StringScan) (s : string) : option string :=
  match s with
  | EmptyString => None
  | String c rest =>
      match st with
      | InString =>
          if Ascii.eqb c dq then Some rest
          else if Ascii.eqb c "\"%char then scan_string InEscape rest
          else if (nat_of_ascii c <? 32)%nat then None
          else scan_string InString rest
      | InEscape =>
          if existsb (Ascii.eqb c)
               [dq; "\"; "/"; "b"; "f"; "n"; "r"; "t"]%char
          then scan_string InString rest
          else if Ascii.eqb c "u"%char then scan_string (InHex 3) rest
          else None
      | InHex n =>
          if is_hex c then
            scan_string (match n with O => InString | S n' => InHex n' end) rest
          else None
      end
  end.

Fixpoint skip_digits (s : string) : string :=
  match s with
  | String c rest => if is_digit c then skip_digits rest else s
  | EmptyString => EmptyString
  end.

(** The text after a number. *)
Definition scan_number (s : string) : option string :=
  let s := match s with String "-"%char rest => rest | _ => s end in
  let after_int :=
    match s with
    | String "0"%char rest => Some rest
    | String c rest => if is_digit c then Some (skip_digits rest) else None
    | EmptyString => None
    end in
  let after_frac :=
    match after_int with
    | Some (String "."%char (String d rest)) =>
        if is_digit d then Some (skip_digits rest) else None
    | Some (String "."%char EmptyString) => None
    | other => other
    end in
  match after_frac with
  | Some (String e rest) =>
      if (Ascii.eqb e "e" || Ascii.eqb e "E")%char%bool then
        let rest :=
          match rest with
          | String "+"%char r => r
          | String "-"%char r => r
          | _ => rest
          end in
        match rest with
        | String d r => if is_digit d then Some (skip_digits r) else None
        | EmptyString => None
        end
      else after_frac
  | other => other
  end.

Inductive ScanMode : Type := AValue | Members | Elements.

(** The text after one JSON value ([AValue]), after the members of an object
    up to its closing brace ([Members], at the first name), or after the
    elements of an array up to its closing bracket ([Elements]). *)
Fixpoint scan_json (fuel : nat) (mode : ScanMode) (s : string) : option string :=
  match fuel with
  | O => None
  | S fuel' =>
      match mode with
      | AValue =>
          match skip_ws s with
          | String c rest =>
              if Ascii.eqb c "{"%char then
                match skip_ws rest with
                | String "}"%char rest' => Some rest'
                | rest' => scan_json fuel' Members rest'
                end
              else if Ascii.eqb c "["%char then
                match skip_ws rest with
                | String "]"%char rest' => Some rest'
                | rest' => scan_json fuel' Elements rest'
                end
              else if Ascii.eqb c dq then scan_string InString rest
              else if HasPrefix (String c rest) "true"
                   then Some (string_drop 4 (String c rest))
              else if HasPrefix (String c rest) "false"
                   then Some (string_drop 5 (String c rest))
              else if HasPrefix (String c rest) "null"
                   then Some (string_drop 4 (String c rest))
              else scan_number (String c rest)
          | EmptyString => None
          end
      | Members =>
          match s with
          | String c rest =>
              if Ascii.eqb c dq then
                match scan_string InString rest with
                | Some rest1 =>
                    match skip_ws rest1 with
                    | String ":"%char rest2 =>
                        match scan_json fuel' AValue rest2 with
                        | Some rest3 =>
                            match skip_ws rest3 with
                            | String ","%char rest4 =>
                                scan_json fuel' Members (skip_ws rest4)
                            | String "}"%char rest4 => Some rest4
                            | _ => None
                            end
                        | None => None
                        end
                    | _ => None
                    end
                | None => None
                end
              else None
          | EmptyString => None
          end
      | Elements =>
          match scan_json fuel' AValue s with
          | Some rest3 =>
              match skip_ws rest3 with
              | String ","%char rest4 => scan_json fuel' Elements rest4
              | String "]"%char rest4 => Some rest4
              | _ => None
              end
          | None => None
          end
      end
  end.

Definition scan_fuel (s : string) : nat := S (S (2 * String.length s)).

Definition mini_Valid (s : string) : bool :=
  match scan_json (scan_fuel s) AValue s with
  | Some rest => String.eqb (skip_ws rest) ""
  | None => false
  end.

(** The text [s] has lost when [rest] is what remains of it. *)
Definition consumed (s rest : string) : string :=
  string_take (String.length s - String.length rest) s.

(** The members of an object, from its first name on: each name (the bytes
    between its quotes) with the raw text of its value. *)
Fixpoint object_members (fuel : nat) (s : string) : option (list (string * string)) :=
  match fuel with
  | O => None
  | S fuel' =>
      match s with
      | String c rest =>
          if Ascii.eqb c dq then
            match scan_string InString rest with
            | Some rest1 =>
                let name := string_take (String.length rest - String.length rest1 - 1) rest in
                match skip_ws rest1 with
                | String ":"%char rest2 =>
                    let value := skip_ws rest2 in
                    match scan_json (scan_fuel value) AValue value with
                    | Some rest3 =>
                        match skip_ws rest3 with
                        | String ","%char rest4 =>
                            option_map (cons (name, consumed value rest3))
                              (object_members fuel' (skip_ws rest4))
                        | String "}"%char _ => Some [(name, consumed value rest3)]
                        | _ => None
                        end
                    | None => None
                    end
                | _ => None
                end
            | None => None
            end
          else None
      | EmptyString => None
      end
  end.

(** A valid JSON text as the decoder of a struct or a map sees it. *)
Inductive TopLevel : Type :=
| TopNull
| TopObject (members : list (string * string))
| TopOther.

Definition top_level (s : string) : option TopLevel :=
  if mini_Valid s then
    match skip_ws s with
    | String "{"%char rest =>
        match skip_ws rest with
        | String "}"%char _ => Some (TopObject [])
        | rest' => option_map TopObject (object_members (scan_fuel s) rest')
        end
    | String "n"%char _ => Some TopNull
    | _ => Some TopOther
    end
  else None.

(** A raw value decoded into a Go string variable holding [old]: a string
    literal gives its content, [null] leaves the variable alone, anything
    else is a type error. *)
Definition decode_string (old raw : string) : Result string :=
  match raw with
  | String c rest =>
      if Ascii.eqb c dq then
        let content := string_take (String.length rest - 1) rest in
        if string_forallb (fun b => negb (Ascii.eqb b "\"%char)) content
        then Ok content
        else Err "json: escapes are not supported"
      else if String.eqb raw "null" then Ok old
      else Err "json: cannot unmarshal into Go value of type string"
  | EmptyString => Err "unexpected end of JSON input"
  end.

(** A string field of a struct after all the members were decoded. *)
Definition string_field (field : string) (members : list (string * string))
  : Result string :=
  fold_left
    (fun acc nv =>
       if String.eqb (ToLower nv.1) field
       then old ← acc; decode_string old nv.2
       else acc)
    members (Ok "").

(** A [json.RawMessage] field: the raw text of the last member so named. *)
Definition raw_field (field : string) (members : list (string * string))
  : RawMessage :=
  option_map snd
    (List.find (fun nv => String.eqb (ToLower nv.1) field) (rev members)).

Definition trim_ws (s : string) : string :=
  string_rev (skip_ws (string_rev (skip_ws s))).

Definition mini_Unmarshal_string (s : string) : Result string :=
  if mini_Valid s then decode_string "" (trim_ws s)
  else Err "invalid character".

Definition mini_Unmarshal_JsonRPCRequest (s : string) : Result JsonRPCRequest.t :=
  match top_level s with
  | Some (TopObject members) =>
      jsonrpc ← string_field "jsonrpc" members;
      method ← string_field "method" members;
      Ok {| JsonRPCRequest.Jsonrpc := jsonrpc;
            JsonRPCRequest.Method := method;
            JsonRPCRequest.ID := raw_field "id" members;
            JsonRPCRequest.Params := raw_field "params" members |}
  | Some TopNull =>
      Ok {| JsonRPCRequest.Jsonrpc := ""; JsonRPCRequest.Method := "";
            JsonRPCRequest.ID := None; JsonRPCRequest.Params := None |}
  | Some TopOther => Err "json: cannot unmarshal into Go value of type main.JsonRPCRequest"
  | None => Err "invalid character"
  end.

Definition mini_Unmarshal_probe (s : string) : Result (string * RawMessage) :=
  match top_level s with
  | Some (TopObject members) =>
      jsonrpc ← string_field "jsonrpc" members;
      Ok (jsonrpc, raw_field "id" members)
  | Some TopNull => Ok ("", None)
  | Some TopOther => Err "json: cannot unmarshal into Go value of type struct"
  | None => Err "invalid character"
  end.

Definition mini_Unmarshal_RawMap (s : string) : Result (gmap string string) :=
  match top_level s with
  | Some (TopObject members) => Ok (list_to_map (rev members))
  | Some TopNull => Ok ∅
  | Some TopOther => Err "json: cannot unmarshal into Go value of type map"
  | None => Err "invalid character"
  end.

Definition mini_Unmarshal_MCPContext (s : string) : Result MCPContext.t :=
  match top_level s with
  | Some (TopObject members) =>
      method ← string_field "mcp_method" members;
      toolName ← string_field "mcp_tool_name" members;
      resourceURI ← string_field "mcp_resource_uri" members;
      promptName ← string_field "mcp_prompt_name" members;
      Ok {| MCPContext.Method := method;
            MCPContext.ToolName := toolName;
            MCPContext.ToolArguments := raw_field "mcp_tool_arguments" members;
            MCPContext.ResourceURI := resourceURI;
            MCPContext.PromptName := promptName;
            MCPContext.JsonrpcID := raw_field "mcp_jsonrpc_id" members |}
  | Some TopNull =>
      Ok {| MCPContext.Method := ""; MCPContext.ToolName := "";
            MCPContext.ToolArguments := None; MCPContext.ResourceURI := "";
            MCPContext.PromptName := ""; MCPContext.JsonrpcID := None |}
  | Some TopOther => Err "json: cannot unmarshal into Go value of type main.MCPContext"
  | None => Err "invalid character"
  end.

(** A byte inside a string literal as Marshal writes it (Go 1.21): the
    quote and the backslash behind a backslash, line feed, carriage return
    and tab by their letters, the other control bytes and [<], [>], [&] as
    [\u00XX], and every other byte as it is (bytes above 127 are taken to be
    valid UTF-8). *)
Definition encode_byte (c : ascii) : string :=
  let n := nat_of_ascii c in
  if ((n =? 34) || (n =? 92))%nat%bool then String "\"%char (String c "")
  else if (n =? 10)%nat then "\n"
  else if (n =? 13)%nat then "\r"
  else if (n =? 9)%nat then "\t"
  else if ((n <? 32) || is_html_byte c)%nat%bool then
    "\u00" +:+ String (hex_digit (n / 16)) (String (hex_digit (n mod 16)) "")
  else String c "".

Fixpoint encode_bytes (s : string) : string :=
  match s with
  | EmptyString => EmptyString
  | String c rest => encode_byte c +:+ encode_bytes rest
  end.

Definition mini_EncodeString (s : string) : string := quoted (encode_bytes s).

Definition json_object (fields : list (string * string)) : string :=
  "{" +:+ String.concat "," (map (fun nv => quoted nv.1 +:+ ":" +:+ nv.2) fields)
  +:+ "}".

Definition json_array (items : list string) : string :=
  "[" +:+ String.concat "," items +:+ "]".

(** A string field tagged [omitempty]. *)
Definition omitempty (name value : string) : list (string * string) :=
  if String.eqb value "" then [] else [(name, mini_EncodeString value)].

(** A [json.RawMessage] field tagged [omitempty]. *)
Definition omitempty_raw (name : string) (m : RawMessage)
  : Result (list (string * string)) :=
  match m with
  | None => Ok []
  | Some EmptyString => Ok []
  | Some b =>
      if mini_Valid b then Ok [(name, compact b)]
      else Err "json: error calling MarshalJSON for type json.RawMessage"
  end.

Definition mini_Marshal_MCPContext (ctx : MCPContext.t) : Result string :=
  arguments ← omitempty_raw "mcp_tool_arguments" (MCPContext.ToolArguments ctx);
  id ← omitempty_raw "mcp_jsonrpc_id" (MCPContext.JsonrpcID ctx);
  Ok (json_object
        ([("mcp_method", mini_EncodeString (MCPContext.Method ctx))]
         ++ omitempty "mcp_tool_name" (MCPContext.ToolName ctx)
         ++ arguments
         ++ omitempty "mcp_resource_uri" (MCPContext.ResourceURI ctx)
         ++ omitempty "mcp_prompt_name" (MCPContext.PromptName ctx)
         ++ id)).

Definition mini_Marshal_JWK (jwk : JWK.t) : string :=
  json_object
    ([("kty", mini_EncodeString (JWK.Kty jwk))]
     ++ omitempty "n" (JWK.N jwk) ++ omitempty "e" (JWK.E jwk)
     ++ omitempty "crv" (JWK.Crv jwk) ++ omitempty "x" (JWK.X jwk)
     ++ omitempty "y" (JWK.Y jwk)
     ++ [("x5c", json_array (map mini_EncodeString (JWK.X5C jwk)))]).

(** A [map[string]string]: Marshal writes the keys in byte order. *)
Definition mini_Marshal_map (entries : list (string * string)) : string :=
  json_object
    (map (fun nv => (nv.1, mini_EncodeString nv.2))
       (merge_sort (fun a b => Is_true (String.leb a.1 b.1)) entries)).

Definition mini_Marshal_SidebandAccessRequest (req : SidebandAccessRequest.t)
  : Result string :=
  mcp ← match SidebandAccessRequest.MCP req with
        | Some ctx => text ← mini_Marshal_MCPContext ctx; Ok [("mcp", text)]
        | None => Ok []
        end;
  Ok (json_object
        ([("source_ip", mini_EncodeString (SidebandAccessRequest.SourceIP req));
          ("source_port", mini_EncodeString (SidebandAccessRequest.SourcePort req));
          ("method", mini_EncodeString (SidebandAccessRequest.Method req));
          ("url", mini_EncodeString (SidebandAccessRequest.URL req));
          ("body", mini_EncodeString (SidebandAccessRequest.Body req));
          ("headers",
           json_array (map mini_Marshal_map (SidebandAccessRequest.Headers req)));
          ("http_version", mini_EncodeString (SidebandAccessRequest.HTTPVersion req))]
         ++ match SidebandAccessRequest.ClientCertificate req with
            | Some jwk => [("client_certificate", mini_Marshal_JWK jwk)]
            | None => []
            end
         ++ omitempty "traffic_type" (SidebandAccessRequest.TrafficType req)
         ++ mcp
         ++ match SidebandAccessRequest.ExtractedHeaders req with
            | Some extracted =>
                if (0 <? size extracted)%nat
                then [("extracted_headers", mini_Marshal_map (map_to_list extracted))]
                else []
            | None => []
            end)).

(** On plain bytes the encoder changes nothing. *)
Definition encode_byte_plain (c : ascii) :
  json_plain c = true -> encode_byte c = String c "".
Proof.
  destruct c as [[] [] [] [] [] [] [] []]; vm_compute; congruence.
Qed.

Definition mini_EncodeString_plain (s : string) :
  string_forallb json_plain s = true -> mini_EncodeString s = quoted s.
Proof.
  unfold mini_EncodeString. intros H. f_equal.
  induction s as [|c s IH]; [done|].
  simpl in *. apply andb_prop in H as [Hc Hs].
  by rewrite (encode_byte_plain c Hc), IH.
Qed.

Definition MiniJSON : EncodingJSON := {|
  Valid := mini_Valid;
  EncodeString := mini_EncodeString;
  Unmarshal_JsonRPCRequest := mini_Unmarshal_JsonRPCRequest;
  Unmarshal_probe := mini_Unmarshal_probe;
  Unmarshal_RawMap := mini_Unmarshal_RawMap;
  Unmarshal_string := mini_Unmarshal_string;
  Unmarshal_SidebandAccessRequest := fun _ => Err "json: not supported";
  Unmarshal_MCPContext := mini_Unmarshal_MCPContext;
  Marshal_SidebandAccessRequest := mini_Marshal_SidebandAccessRequest;
  Valid_empty := eq_refl;
  EncodeString_plain := mini_EncodeString_plain
|}.

(* --------------------------------------------------------------------- *)
(** ** Sample data                                                        *)
(* --------------------------------------------------------------------- *)

(** Collaborators for the examples: URLs are not parsed, there is no client
    certificate, the forwarded URL and the HTTP version are fixed. *)
Definition SampleCollaborators : Collaborators := {|
  url_Parse := fun _ => Err "parse error";
  ExtractClientCertJWK := fun _ _ => Err "no certificate";
  buildForwardedURL := fun _ => Ok "https://svc:443/resource";
  getHTTPVersion := fun _ => Ok "1.1"
|}.

(** A request as the gateway presents it in the response phase: the
    upstream answered 200 with a [Date] and a [Content-Type] header; the
    access phase stored [shared] in the per-request context. *)
Definition sampleKong (body : string) (shared : string -> Result string) : PDK.t :=
  {| PDK.Client_GetIp := Ok "10.0.0.1";
     PDK.Client_GetPort := Ok 12345;
     PDK.Request_GetMethod := Ok "POST";
     PDK.Request_GetRawBody := Ok body;
     PDK.Request_GetHeaders := Ok [("content-type", ["application/json"])];
     PDK.Nginx_GetVar := fun _ => Err "variable not found";
     PDK.ServiceResponse_GetRawBody := Ok "upstream";
     PDK.ServiceResponse_GetStatus := Ok 200;
     PDK.ServiceResponse_GetHeaders :=
       Ok [("Date", ["Tue, 01 Jan 2030 00:00:00 GMT"]);
           ("Content-Type", ["text/plain"])];
     PDK.Ctx_GetSharedString := shared |}.

Definition noContext : string -> Result string := fun _ => Ok "".

Definition stateContext : string -> Result string := fun key =>
  if String.eqb key "paz_state" then Ok "{}" else Ok "".

(** The provider's reply of scenario 1. *)
Definition sampleResult : SidebandResponseResult.t :=
  {| SidebandResponseResult.ResponseCode := "200";
     SidebandResponseResult.Body := "{}";
     SidebandResponseResult.Headers := [[("content-type", "application/json")]];
     SidebandResponseResult.Message := "";
     SidebandResponseResult.ID := "" |}.

(** An MCP context whose JSON-RPC id is the raw text [id]. *)
Definition mcpWithID (id : RawMessage) : MCPContext.t :=
  {| MCPContext.Method := "tools/call";
     MCPContext.ToolName := "get_weather";
     MCPContext.ToolArguments := None;
     MCPContext.ResourceURI := "";
     MCPContext.PromptName := "";
     MCPContext.JsonrpcID := id |}.

(** An access payload with the given body and MCP context. *)
Definition samplePayload (body : string) (mcp : option MCPContext.t)
  : SidebandAccessRequest.t :=
  {| SidebandAccessRequest.SourceIP := "10.0.0.1";
     SidebandAccessRequest.SourcePort := "12345";
     SidebandAccessRequest.Method := "POST";
     SidebandAccessRequest.URL := "https://svc:443/mcp";
     SidebandAccessRequest.Body := body;
     SidebandAccessRequest.Headers := [[("content-type", "application/json")]];
     SidebandAccessRequest.HTTPVersion := "1.1";
     SidebandAccessRequest.ClientCertificate := None;
     SidebandAccessRequest.TrafficType := match mcp with Some _ => "mcp" | None => "" end;
     SidebandAccessRequest.MCP := mcp;
     SidebandAccessRequest.ExtractedHeaders := None |}.

(** The provider's denial of scenario 4. *)
Definition sampleDenyResponse : DenyResponse.t :=
  {| DenyResponse.ResponseCode := "403";
     DenyResponse.ResponseStatus := "FORBIDDEN";
     DenyResponse.Body := "denied";
     DenyResponse.Headers := [[("x-policy", "p1")]] |}.

Definition sampleDeny : SidebandAccessResponse.t :=
  {| SidebandAccessResponse.SourceIP := "";
     SidebandAccessResponse.SourcePort := "";
     SidebandAccessResponse.Method := "";
     SidebandAccessResponse.URL := "";
     SidebandAccessResponse.Body := None;
     SidebandAccessResponse.Headers := [];
     SidebandAccessResponse.ClientCertificate := None;
     SidebandAccessResponse.State := None;
     SidebandAccessResponse.Response := Some sampleDenyResponse |}.

(** The breaker 1.5 s after a 429 with [Retry-After: 5] tripped it. *)
Definition rateLimitedBreaker : CircuitBreaker.t :=
  Trip (NewCircuitBreaker true) Trigger429 5 0.

Definition rateLimitedAt : Z := 1500 * Millisecond.

(** The default configuration with MCP enabled and a limit on the size of
    the sideband payload. *)
Definition sizeLimitConfig (maxBytes : Z) : Config.t :=
  {| Config.FailOpen := false;
     Config.PassthroughStatusCodes := [413];
     Config.MaxRetries := 0;
     Config.RetryBackoffMs := 500;
     Config.CircuitBreakerEnabled := true;
     Config.StripAcceptEncoding := true;
     Config.IncludeFullCertChain := false;
     Config.EnableMCP := true;
     Config.MCPJsonrpcErrors := false;
     Config.MaxSidebandBodyBytes := maxBytes;
     Config.ExtractHeaders := [];
     Config.MCPRetryMethods :=
       ["tools/list"; "resources/list"; "prompts/list"; "initialize"] |}.

(** The marker TruncateBody appends to a body of [n] bytes. *)
Definition truncationMarker (n : Z) : string :=
  "... [truncated, " +:+ Itoa n +:+ " bytes]".

(** The request body of scenario 3, and the event stream of
    [TestParseSSEFinalMessage_NotificationsFollowedByResponse]. *)
Definition toolsCallBody : string :=
  go_lit "{'jsonrpc':'2.0','id':1,'method':'tools/call','params':{'name':'get_weather','arguments':{'city':'London'}}}".

Definition newline : string := String LF "".

Definition progressEvent : string :=
  go_lit "data: {'jsonrpc':'2.0','method':'notifications/progress'}"
  +:+ newline +:+ newline.

Definition responseEvent : string :=
  go_lit "data: {'jsonrpc':'2.0','id':5,'result':{'content':[{'text':'hello'}]}}"
  +:+ newline +:+ newline.

(** An MCP request whose JSON-RPC id is the string made of the one
    character [<]. *)
Definition htmlIdBody : string :=
  go_lit "{'jsonrpc':'2.0','id':'<','method':'tools/call','params':{'name':'get_weather'}}".

(* --------------------------------------------------------------------- *)
(** ** Texts of the standard library that error messages embed            *)
(* --------------------------------------------------------------------- *)

(** [Quote s] is what the verb [%q] prints for [s]; [Atoi_error s] is the
    message of the error [strconv.Atoi] returns on [s]. *)
Class ErrorTexts : Type := {
  Quote : string -> string;
  Atoi_error : string -> string
}.

(* --------------------------------------------------------------------- *)
(** ** headers.go: FormatHeadersFromInterface                             *)
(* --------------------------------------------------------------------- *)

(** A header value of type [interface{}] as the type switch tells them
    apart: a [string], a [[]string], a [[]interface{}] (each item a string
    or a value of another type), or a value of any other type. *)
Inductive HeaderValue : Type :=
| HString (v : string)
| HStrings (v : list string)
| HInterfaces (v : list (option string))
| HOther.

(** The loop over the items of a [[]interface{}]: the entries it appends, or
    [None] when it meets an item that is not a string. *)
Fixpoint interface_items (lowerName : string) (items : list (option string))
  : option (list WireEntry) :=
  match items with
  | [] => Some []
  | Some s :: rest =>
      option_map (cons [(lowerName, s)]) (interface_items lowerName rest)
  | None :: _ => None
  end.

(** The loop of FormatHeadersFromInterface over the entries of the map, in
    the order of the iteration; [result] is the slice built so far. *)
Fixpoint formatInterfaceLoop `{ErrorTexts} (headers : list (string * HeaderValue))
  (result : list WireEntry) : Result (list WireEntry) :=
  match headers with
  | [] => Ok result
  | (name, val) :: rest =>
      let lowerName := ToLower name in
      match val with
      | HString v => formatInterfaceLoop rest (result ++ [[(lowerName, v)]])
      | HStrings v =>
          formatInterfaceLoop rest (result ++ map (fun s => [(lowerName, s)]) v)
      | HInterfaces v =>
          match interface_items lowerName v with
          | Some entries => formatInterfaceLoop rest (result ++ entries)
          | None => Err ("multidimensional header value for " +:+ Quote name)
          end
      | HOther => Err ("multidimensional header value for " +:+ Quote name)
      end
  end.

(** [FormatHeadersFromInterface] *)
Definition FormatHeadersFromInterface `{ErrorTexts}
  (headers : list (string * HeaderValue)) : Result (list WireEntry) :=
  match headers with
  | [] => Ok []
  | _ => formatInterfaceLoop headers []
  end.

(** The strings a header value stands for: one for a string, the elements
    of a slice of strings; none when the value is of another shape. *)
Fixpoint all_strings (items : list (option string)) : option (list string) :=
  match items with
  | [] => Some []
  | Some s :: rest => option_map (cons s) (all_strings rest)
  | None :: _ => None
  end.

Definition header_strings (val : HeaderValue) : option (list string) :=
  match val with
  | HString v => Some [v]
  | HStrings v => Some v
  | HInterfaces v => all_strings v
  | HOther => None
  end.

(** A header map with values of type [interface{}] as a map of string
    slices, when every value has one of the three accepted shapes. *)
Fixpoint string_headers (headers : list (string * HeaderValue))
  : option (list (string * list string)) :=
  match headers with
  | [] => Some []
  | (name, val) :: rest =>
      match header_strings val, string_headers rest with
      | Some vs, Some m => Some ((name, vs) :: m)
      | _, _ => None
      end
  end.

(* --------------------------------------------------------------------- *)
(** ** circuit_breaker.go: Reset, IsClosed                                *)
(* --------------------------------------------------------------------- *)

(** [Reset] *)
Definition Reset (cb : CircuitBreaker.t) : CircuitBreaker.t :=
  if negb (CircuitBreaker.enabled cb) then cb
  else
    {| CircuitBreaker.enabled := CircuitBreaker.enabled cb;
       CircuitBreaker.closed := true;
       CircuitBreaker.openedAt := CircuitBreaker.openedAt cb;
       CircuitBreaker.retryAfterSec := CircuitBreaker.retryAfterSec cb;
       CircuitBreaker.triggerType := TriggerNone |}.

(** [IsClosed] *)
Definition IsClosed (cb : CircuitBreaker.t) : bool := CircuitBreaker.closed cb.

(** The calls a client of the breaker can make, with the clock reading at
    which each is made, and the breaker a sequence of them leaves. *)
Inductive BreakerCall : Type :=
| CallAllow (now : Z)
| CallTrip (trigger : CircuitBreakerTrigger) (retryAfterSec now : Z)
| CallReset.

Definition breaker_call (cb : CircuitBreaker.t) (c : BreakerCall) : CircuitBreaker.t :=
  match c with
  | CallAllow now => (Allow cb now).2
  | CallTrip trigger retryAfterSec now => Trip cb trigger retryAfterSec now
  | CallReset => Reset cb
  end.

(* --------------------------------------------------------------------- *)
(** ** network.go: ParseURL, BuildSidebandURL                             *)
(* --------------------------------------------------------------------- *)

(** [strings.TrimRight(s, cutset)] for a cutset of ASCII characters. *)
Fixpoint trim_left_cutset (cutset : list ascii) (s : string) : string :=
  match s with
  | String c rest =>
      if existsb (Ascii.eqb c) cutset then trim_left_cutset cutset rest else s
  | EmptyString => EmptyString
  end.

Definition TrimRight (s cutset : string) : string :=
  string_rev (trim_left_cutset (list_ascii_of_string cutset) (string_rev s)).

Module GoURL.
(** A [*url.URL] as ParseURL and Validate read it: the fields [Scheme],
    [Host], [Path], [RawQuery] and the results of the methods [Hostname()]
    and [Port()]. *)
Record t : Type := {
  Scheme : string;
  Host : string;
  Hostname : string;
  Port : string;
  Path : string;
  RawQuery : string
}.
End GoURL.

(** [url.Parse] of package net/url. *)
Class PackageURL : Type := {
  Parse : string -> Result GoURL.t
}.

Module ParsedURL.
Record t : Type := {
  Scheme : string;
  Host : string;
  Port : Z;
  Path : string;
  Query : string
}.
End ParsedURL.

(** [ParseURL] *)
Definition ParseURL `{PackageURL} `{ErrorTexts} (rawURL : string)
  : Result ParsedURL.t :=
  match Parse rawURL with
  | Err e => Err ("invalid URL " +:+ Quote rawURL +:+ ": " +:+ e)
  | Ok u =>
      let scheme := ToLower (GoURL.Scheme u) in
      if (negb (String.eqb scheme "http") && negb (String.eqb scheme "https"))%bool
      then Err ("URL scheme must be http or https, got " +:+ Quote (GoURL.Scheme u))
      else
        let host := GoURL.Hostname u in
        if String.eqb host "" then Err "URL must have a host"
        else
          port ← (if negb (String.eqb (GoURL.Port u) "") then
                    match Atoi (GoURL.Port u) with
                    | Some port => Ok port
                    | None =>
                        Err ("invalid port in URL: " +:+ Atoi_error (GoURL.Port u))
                    end
                  else if String.eqb scheme "https" then Ok 443
                  else Ok 80);
          let path := if String.eqb (GoURL.Path u) "" then "/" else GoURL.Path u in
          Ok {| ParsedURL.Scheme := scheme;
                ParsedURL.Host := host;
                ParsedURL.Port := port;
                ParsedURL.Path := path;
                ParsedURL.Query := GoURL.RawQuery u |}
  end.

(** [BuildSidebandURL] *)
Definition BuildSidebandURL (parsedURL : ParsedURL.t) (sidebandPath : string)
  : string :=
  let basePath := TrimRight (ParsedURL.Path parsedURL) "/" in
  ParsedURL.Scheme parsedURL +:+ "://" +:+ ParsedURL.Host parsedURL +:+ ":"
  +:+ Itoa (ParsedURL.Port parsedURL) +:+ basePath +:+ sidebandPath.

(* --------------------------------------------------------------------- *)
(** ** config.go: Validate                                                *)
(* --------------------------------------------------------------------- *)

Module Settings.
(** The fields of [Config] that [Config.t] above leaves out. *)
Record t : Type := {
  ServiceURL : string;
  SharedSecret : string;
  SecretHeaderName : string;
  ConnectionTimeoutMs : Z;
  ConnectionKeepaliveMs : Z;
  VerifyServiceCert : bool;
  SkipResponsePhase : bool;
  EnableDebugLogging : bool;
  EnableOtel : bool;
  RedactHeaders : list string;
  DebugBodyMaxBytes : Z
}.
End Settings.

(** [Validate]: the error it returns, [None] for nil.  The two halves of the
    Go struct are [s] and [c]. *)
Definition Validate `{PackageURL} `{ErrorTexts} (s : Settings.t) (c : Config.t)
  : option string :=
  if String.eqb (Settings.ServiceURL s) "" then Some "service_url is required"
  else
    match Parse (Settings.ServiceURL s) with
    | Err e => Some ("service_url is not a valid URL: " +:+ e)
    | Ok u =>
        let scheme := ToLower (GoURL.Scheme u) in
        if (negb (String.eqb scheme "http") && negb (String.eqb scheme "https"))%bool
        then Some ("service_url scheme must be http or https, got "
                   +:+ Quote (GoURL.Scheme u))
        else if String.eqb (GoURL.Host u) "" then Some "service_url must have a host"
        else if String.eqb (Settings.SharedSecret s) ""
             then Some "shared_secret is required"
        else if String.eqb (Settings.SecretHeaderName s) ""
             then Some "secret_header_name is required"
        else if Settings.ConnectionTimeoutMs s <=? 0
             then Some "connection_timeout_ms must be > 0"
        else if Settings.ConnectionKeepaliveMs s <=? 0
             then Some "connection_keepalive_ms must be > 0"
        else if Config.MaxRetries c <? 0 then Some "max_retries must be >= 0"
        else if Config.RetryBackoffMs c <=? 0 then Some "retry_backoff_ms must be > 0"
        else
          match List.find (fun code => ((code <? 400) || (code >? 599))%bool)
                  (Config.PassthroughStatusCodes c) with
          | Some code =>
              Some ("passthrough_status_codes must be in range 400-599, got "
                    +:+ Itoa code)
          | None =>
              if Settings.DebugBodyMaxBytes s <? 0
              then Some "debug_body_max_bytes must be >= 0"
              else if Config.MaxSidebandBodyBytes c <? 0
              then Some "max_sideband_body_bytes must be >= 0"
              else
                match List.find (fun m => negb (IsMCPMethod m))
                        (Config.MCPRetryMethods c) with
                | Some m =>
                    Some ("mcp_retry_methods contains invalid MCP method "
                          +:+ Quote m)
                | None => None
                end
          end
    end.

(* --------------------------------------------------------------------- *)
(** ** observability.go: RedactHeaders, DebugLogPayload                   *)
(* --------------------------------------------------------------------- *)

(** [RedactHeaders]; [redactSet[lower]] is false for a name the set lacks.
    Each new entry is listed in the order its source entry was. *)
Definition RedactHeaders (headers : list WireEntry) (redactSet : gmap string bool)
  (secretHeaderName : string) : list WireEntry :=
  match headers with
  | [] => headers
  | _ =>
      let secretLower := ToLower secretHeaderName in
      map (fun entry : WireEntry =>
             map (fun nv : string * string =>
                    let lower := ToLower nv.1 in
                    if (default false (redactSet !! lower)
                        || String.eqb lower secretLower)%bool
                    then (nv.1, "[REDACTED]")
                    else (nv.1, nv.2))
               entry)
        headers
  end.

(** The four payloads DebugLogPayload is called with. *)
Inductive Payload : Type :=
| PAccessRequest (p : SidebandAccessRequest.t)
| PAccessResponse (p : SidebandAccessResponse.t)
| PResponsePayload (p : SidebandResponsePayload.t)
| PResponseResult (p : SidebandResponseResult.t).

(** [logMCPContext]: the one Info line it logs, when the payload is a
    request or a response payload with an MCP context. *)
Definition logMCPContext (direction : string) (payload : Payload) : list PDKCall :=
  let mcpCtx :=
    match payload with
    | PAccessRequest p => SidebandAccessRequest.MCP p
    | PResponsePayload p => SidebandResponsePayload.MCP p
    | _ => None
    end in
  match mcpCtx with
  | None => []
  | Some _ => [Log LevelInfo (direction +:+ " [MCP]")]
  end.
(** The invariant of the breaker's fields (see [breaker_reachable_states]). *)
Definition breaker_inv (enabled : bool) (cb : CircuitBreaker.t) : Prop :=
  CircuitBreaker.enabled cb = enabled /\
  (CircuitBreaker.closed cb = true -> CircuitBreaker.triggerType cb = TriggerNone) /\
  (CircuitBreaker.closed cb = false ->
   enabled = true /\ 1 <= CircuitBreaker.retryAfterSec cb) /\
  (enabled = false -> cb = NewCircuitBreaker false).

(** The pause Execute takes before each attempt but the first. *)
Definition retryBackoff (conf : Config.t) : Z :=
  wrap64 (Config.RetryBackoffMs conf * Millisecond).

(** The loop variables after an attempt the loop repeats. *)
Definition lastOf (r : AttemptResult) : Last :=
  match r with
  | TransportError e =>
      {| lastErr := Some (ErrMessage e); lastStatus := 0;
         lastHeaders := None; lastBody := None |}
  | HTTPResponse statusCode respHeaders respBody =>
      {| lastErr := Some (ErrMessage ("sideband returned " +:+ Itoa statusCode));
         lastStatus := statusCode;
         lastHeaders := Some respHeaders; lastBody := Some respBody |}
  end.
(* --------------------------------------------------------------------- *)
(** ** encoding/json for the provider's replies and the other payloads    *)
(* --------------------------------------------------------------------- *)

Module SidebandErrorResponse.
Record t : Type := { Message : string; ID : string }.
End SidebandErrorResponse.

(** More of the encoder and the decoder.  [Unmarshal_SidebandErrorResponse]
    gives the value left in the variable together with the error, which the
    provider code ignores. *)
Class ProviderJSON : Type := {
  Marshal_MCPContext : MCPContext.t -> Result string;
  Marshal_SidebandAccessResponse : SidebandAccessResponse.t -> Result string;
  Marshal_SidebandResponsePayload : SidebandResponsePayload.t -> Result string;
  Marshal_SidebandResponseResult : SidebandResponseResult.t -> Result string;
  Unmarshal_SidebandAccessResponse : string -> Result SidebandAccessResponse.t;
  Unmarshal_SidebandResponseResult : string -> Result SidebandResponseResult.t;
  Unmarshal_SidebandErrorResponse : string -> SidebandErrorResponse.t * option string
}.

(** [json.Marshal(payload)] in DebugLogPayload. *)
Definition Marshal_Payload `{EncodingJSON} `{ProviderJSON} (payload : Payload)
  : Result string :=
  match payload with
  | PAccessRequest p => Marshal_SidebandAccessRequest p
  | PAccessResponse p => Marshal_SidebandAccessResponse p
  | PResponsePayload p => Marshal_SidebandResponsePayload p
  | PResponseResult p => Marshal_SidebandResponseResult p
  end.

(** [DebugLogPayload]: the lines it logs. *)
Definition DebugLogPayload `{EncodingJSON} `{ProviderJSON} (direction : string)
  (payload : Payload) (s : Settings.t) (conf : Config.t) : list PDKCall :=
  if negb (Settings.EnableDebugLogging s) then []
  else
    (if Config.EnableMCP conf then logMCPContext direction payload else [])
    ++ match Marshal_Payload payload with
       | Err _ => [Log LevelDebug "Failed to marshal payload for debug logging"]
       | Ok _ => [Log LevelDebug direction]
       end.

(* --------------------------------------------------------------------- *)
(** ** sideband_provider.go                                               *)
(* --------------------------------------------------------------------- *)

Module sidebandHTTPError.
Record t : Type := {
  StatusCode : Z;
  Body : option string;
  Message : string;
  ID : string
}.
End sidebandHTTPError.

(** The errors EvaluateRequest and EvaluateResponse return, by dynamic type:
    an error Execute returned (the breaker's, or a plain one), a
    [*sidebandHTTPError], or a plain error of the provider code. *)
Inductive EvalError : Type :=
| FromExecute (e : GoError)
| HTTPError (e : sidebandHTTPError.t)
| PlainError (msg : string).

(** The policy provider as the plugin reaches it: for the URL and the body
    of a POST, what its successive attempts yield. *)
Definition Server : Type := string -> string -> Provider.

(** What both methods do with the result of Execute; [decode] is the
    [json.Unmarshal] of the reply and [what] names it in the error. *)
Definition evaluate `{ProviderJSON} {A : Type} (decode : string -> Result A)
  (what : string) (r : ExecResult) : A + EvalError :=
  match err r with
  | Some e => inr (FromExecute e)
  | None =>
      if statusCode r >=? 400 then
        let errResp := (Unmarshal_SidebandErrorResponse (default "" (respBody r))).1 in
        inr (HTTPError
               {| sidebandHTTPError.StatusCode := statusCode r;
                  sidebandHTTPError.Body := respBody r;
                  sidebandHTTPError.Message := SidebandErrorResponse.Message errResp;
                  sidebandHTTPError.ID := SidebandErrorResponse.ID errResp |})
      else
        match decode (default "" (respBody r)) with
        | Ok v => inl v
        | Err e => inr (PlainError ("failed to decode " +:+ what +:+ ": " +:+ e))
        end
  end.

(** The MCP method Execute is told: [req.MCP.Method], or the empty string
    when the payload has no MCP context. *)
Definition mcpMethodOf (mcp : option MCPContext.t) : string :=
  match mcp with
  | Some ctx => MCPContext.Method ctx
  | None => ""
  end.

(** [EvaluateRequest] *)
Definition EvaluateRequest `{EncodingJSON} `{ProviderJSON} (conf : Config.t)
  (parsedURL : ParsedURL.t) (server : Server) (req : SidebandAccessRequest.t)
  (w : World) : (SidebandAccessResponse.t + EvalError) * World :=
  match Marshal_SidebandAccessRequest req with
  | Err e => (inr (PlainError ("failed to encode access request: " +:+ e)), w)
  | Ok body =>
      let mcpMethod := mcpMethodOf (SidebandAccessRequest.MCP req) in
      let requestURL := BuildSidebandURL parsedURL "/sideband/request" in
      let '(r, w) := Execute conf (server requestURL body) mcpMethod w in
      (evaluate Unmarshal_SidebandAccessResponse "access response" r, w)
  end.

(** [EvaluateResponse] *)
Definition EvaluateResponse `{EncodingJSON} `{ProviderJSON} (conf : Config.t)
  (parsedURL : ParsedURL.t) (server : Server) (req : SidebandResponsePayload.t)
  (w : World) : (SidebandResponseResult.t + EvalError) * World :=
  match Marshal_SidebandResponsePayload req with
  | Err e => (inr (PlainError ("failed to encode response payload: " +:+ e)), w)
  | Ok body =>
      let mcpMethod := mcpMethodOf (SidebandResponsePayload.MCP req) in
      let requestURL := BuildSidebandURL parsedURL "/sideband/response" in
      let '(r, w) := Execute conf (server requestURL body) mcpMethod w in
      (evaluate Unmarshal_SidebandResponseResult "response result" r, w)
  end.

(* --------------------------------------------------------------------- *)
(** ** access.go: executeAccess; response.go: executeResponse             *)
(* --------------------------------------------------------------------- *)

(** [storePerRequestContext] *)
Definition storePerRequestContext `{EncodingJSON} `{ProviderJSON}
  (originalRequest : SidebandAccessRequest.t) (state : RawMessage) : list PDKCall :=
  match Marshal_SidebandAccessRequest originalRequest with
  | Ok reqJSON => [Ctx_SetShared "paz_original_request" reqJSON]
  | Err _ => []
  end
  ++ match state with
     | Some st => [Ctx_SetShared "paz_state" st]
     | None => []
     end
  ++ match SidebandAccessRequest.MCP originalRequest with
     | Some mcp =>
         match Marshal_MCPContext mcp with
         | Ok mcpJSON => [Ctx_SetShared mcpContextKey mcpJSON]
         | Err _ => []
         end
     | None => []
     end.

(** What both phases do with an error of the provider that is not the
    breaker's: pass a listed status through, or warn and fail open or
    closed.  [failed] and [unreachable] are the two log messages of the
    phase, [failOpen] its fail-open branch. *)
Definition handleEvalError (conf : Config.t) (e : EvalError)
  (failed unreachable : string) (failOpen : list PDKCall) : list PDKCall :=
  match e with
  | HTTPError httpErr =>
      if isPassthroughCode (sidebandHTTPError.StatusCode httpErr) conf then
        [Response_Exit (sidebandHTTPError.StatusCode httpErr)
           (sidebandHTTPError.Body httpErr)
           (Some {[ "Content-Type" := ["application/json"] ]})]
      else
        Log LevelWarn failed
        :: (if Config.FailOpen conf then failOpen else [Response_Exit 502 None None])
  | _ =>
      Log LevelErr unreachable
      :: (if Config.FailOpen conf then failOpen else [Response_Exit 502 None None])
  end.

Section Phases.
Context {J : EncodingJSON} {PJ : ProviderJSON} {C : Collaborators}
  {U : PackageURL} {E : ErrorTexts}.

(** [executeAccess]: the calls it makes on the gateway, and the world its
    sideband call leaves.  The HTTP client of the configuration, created on
    first use, is the breaker of the world. *)
Definition executeAccess (kong : PDK.t) (s : Settings.t) (conf : Config.t)
  (server : Server) (w : World) : list PDKCall * World :=
  match ParseURL (Settings.ServiceURL s) with
  | Err _ =>
      ([Log LevelErr "Failed to parse service URL"; Response_Exit 500 None None], w)
  | Ok parsedURL =>
      match composeAccessPayload kong conf with
      | Err _ =>
          ([Log LevelErr "Failed to compose access payload";
            Response_Exit 400 None None], w)
      | Ok payload =>
          let sent :=
            DebugLogPayload "Sending sideband request" (PAccessRequest payload) s conf in
          let '(result, w) := EvaluateRequest conf parsedURL server payload w in
          match result with
          | inr (FromExecute (ErrCircuitOpen cbErr)) =>
              (sent ++ handleCircuitBreakerError cbErr conf payload, w)
          | inr e =>
              (sent
               ++ handleEvalError conf e "Sideband request failed"
                    "PingAuthorize unreachable"
                    (Log LevelWarn
                       "PingAuthorize unreachable, fail-open enabled, allowing request"
                     :: storePerRequestContext payload None),
               w)
          | inl resp =>
              let received :=
                DebugLogPayload "Received sideband response" (PAccessResponse resp)
                  s conf in
              let '(calls, state) := handleAccessResponse kong conf resp payload in
              match state with
              | Err _ => (sent ++ received ++ calls, w)
              | Ok state =>
                  (sent ++ received ++ calls ++ storePerRequestContext payload state, w)
              end
          end
      end
  end.

(** [executeResponse] *)
Definition executeResponse (kong : PDK.t) (s : Settings.t) (conf : Config.t)
  (server : Server) (w : World) : list PDKCall * World :=
  match ParseURL (Settings.ServiceURL s) with
  | Err _ =>
      ([Log LevelErr "Failed to parse service URL"; Response_Exit 500 None None], w)
  | Ok parsedURL =>
      match loadPerRequestContext kong with
      | Err _ =>
          ([Log LevelErr "Failed to load per-request context";
            Response_Exit 500 None None], w)
      | Ok (originalRequest, state) =>
          match composeResponsePayload kong conf (Some originalRequest) state with
          | Err _ =>
              ([Log LevelErr "Failed to compose response payload";
                Response_Exit 500 None None], w)
          | Ok payload =>
              let sent :=
                DebugLogPayload "Sending sideband response" (PResponsePayload payload)
                  s conf in
              let '(result, w) := EvaluateResponse conf parsedURL server payload w in
              match result with
              | inr (FromExecute (ErrCircuitOpen cbErr)) =>
                  (sent
                   ++ handleCircuitBreakerErrorResponse cbErr conf (Some originalRequest),
                   w)
              | inr e =>
                  (sent
                   ++ handleEvalError conf e "Sideband response failed"
                        "PingAuthorize unreachable during response phase"
                        [Log LevelWarn
                           "PingAuthorize unreachable during response phase, fail-open, passing upstream response through"],
                   w)
              | inl result =>
                  (sent
                   ++ DebugLogPayload "Received sideband response result"
                        (PResponseResult result) s conf
                   ++ handleResponseResult kong conf result,
                   w)
              end
          end
      end
  end.

(** [Response] of main.go, without its recovery from a panic. *)
Definition Response (kong : PDK.t) (s : Settings.t) (conf : Config.t)
  (server : Server) (w : World) : list PDKCall * World :=
  if Settings.SkipResponsePhase s then ([], w)
  else executeResponse kong s conf server w.

End Phases.

(** The kinds of calls on the gateway. *)
Definition isExit (c : PDKCall) : bool :=
  match c with Response_Exit _ _ _ => true | _ => false end.

Definition isServiceRequest (c : PDKCall) : bool :=
  match c with
  | ServiceRequest_ClearHeader _ | ServiceRequest_SetHeader _ _
  | ServiceRequest_AddHeader _ _ | ServiceRequest_SetMethod _
  | ServiceRequest_SetPath _ | ServiceRequest_SetRawQuery _
  | ServiceRequest_SetRawBody _ => true
  | _ => false
  end.

Definition isSetShared (c : PDKCall) : bool :=
  match c with Ctx_SetShared _ _ => true | _ => false end.

Definition isLog (c : PDKCall) : bool :=
  match c with Log _ _ => true | _ => false end.

(** The per-request context after a sequence of calls: [GetSharedString]
    returns what the last [SetShared] of the key stored, and what it
    returned before when there was none. *)
Definition sharedAfter (calls : list PDKCall) (shared : string -> Result string)
  : string -> Result string :=
  fold_left
    (fun (sh : string -> Result string) c =>
       match c with
       | Ctx_SetShared k v => fun key => if String.eqb key k then Ok v else sh key
       | _ => sh
       end)
    calls shared.

Definition withShared (kong : PDK.t) (shared : string -> Result string) : PDK.t :=
  {| PDK.Client_GetIp := PDK.Client_GetIp kong;
     PDK.Client_GetPort := PDK.Client_GetPort kong;
     PDK.Request_GetMethod := PDK.Request_GetMethod kong;
     PDK.Request_GetRawBody := PDK.Request_GetRawBody kong;
     PDK.Request_GetHeaders := PDK.Request_GetHeaders kong;
     PDK.Nginx_GetVar := PDK.Nginx_GetVar kong;
     PDK.ServiceResponse_GetRawBody := PDK.ServiceResponse_GetRawBody kong;
     PDK.ServiceResponse_GetStatus := PDK.ServiceResponse_GetStatus kong;
     PDK.ServiceResponse_GetHeaders := PDK.ServiceResponse_GetHeaders kong;
     PDK.Ctx_GetSharedString := shared |}.

(* --------------------------------------------------------------------- *)
(** ** The rest of the codec, for the examples                            *)
(* --------------------------------------------------------------------- *)

(** [MiniProviderJSON] implements [ProviderJSON] in the way [MiniJSON]
    implements [EncodingJSON], with the same limits; a client certificate in
    a reply is not read.  No theorem depends on it. *)

(** The elements of an array, from its first element on. *)
Fixpoint array_elements (fuel : nat) (s : string) : option (list string) :=
  match fuel with
  | O => None
  | S fuel' =>
      let value := skip_ws s in
      match scan_json (scan_fuel value) AValue value with
      | Some rest =>
          match skip_ws rest with
          | String ","%char rest' =>
              option_map (cons (consumed value rest)) (array_elements fuel' rest')
          | String "]"%char _ => Some [consumed value rest]
          | _ => None
          end
      | None => None
      end
  end.

Fixpoint result_map {A B : Type} (f : A -> Result B) (l : list A) : Result (list B) :=
  match l with
  | [] => Ok []
  | x :: rest => y ← f x; ys ← result_map f rest; Ok (y :: ys)
  end.

(** One element of a header array: an object whose values are strings. *)
Definition decode_wire_entry (raw : string) : Result WireEntry :=
  match top_level raw with
  | Some (TopObject members) =>
      result_map (fun nv : string * string => v ← decode_string "" nv.2; Ok (nv.1, v))
        members
  | Some TopNull => Ok []
  | _ => Err "json: cannot unmarshal into Go value of type map[string]string"
  end.

Definition decode_headers (raw : RawMessage) : Result (list WireEntry) :=
  match raw with
  | None => Ok []
  | Some text =>
      match text with
      | String "["%char rest =>
          match skip_ws rest with
          | String "]"%char _ => Ok []
          | rest' =>
              match array_elements (scan_fuel text) rest' with
              | Some elements => result_map decode_wire_entry elements
              | None => Err "invalid character"
              end
          end
      | String "n"%char _ => Ok []
      | _ => Err "json: cannot unmarshal into Go value of type []map[string]string"
      end
  end.

(** A field whose Go type is a pointer: absent or [null] leaves it nil. *)
Definition decode_pointer {A : Type} (decode : string -> Result A) (raw : RawMessage)
  : Result (option A) :=
  match raw with
  | None => Ok None
  | Some text => if String.eqb text "null" then Ok None else v ← decode text; Ok (Some v)
  end.

Definition decode_DenyResponse (raw : string) : Result DenyResponse.t :=
  match top_level raw with
  | Some (TopObject members) =>
      code ← string_field "response_code" members;
      status ← string_field "response_status" members;
      body ← string_field "body" members;
      headers ← decode_headers (raw_field "headers" members);
      Ok {| DenyResponse.ResponseCode := code;
            DenyResponse.ResponseStatus := status;
            DenyResponse.Body := body;
            DenyResponse.Headers := headers |}
  | _ => Err "json: cannot unmarshal into Go value of type main.DenyResponse"
  end.

Definition mini_Unmarshal_SidebandAccessResponse (s : string)
  : Result SidebandAccessResponse.t :=
  match top_level s with
  | Some (TopObject members) =>
      sourceIP ← string_field "source_ip" members;
      sourcePort ← string_field "source_port" members;
      method ← string_field "method" members;
      url ← string_field "url" members;
      body ← decode_pointer (decode_string "") (raw_field "body" members);
      headers ← decode_headers (raw_field "headers" members);
      response ← decode_pointer decode_DenyResponse (raw_field "response" members);
      Ok {| SidebandAccessResponse.SourceIP := sourceIP;
            SidebandAccessResponse.SourcePort := sourcePort;
            SidebandAccessResponse.Method := method;
            SidebandAccessResponse.URL := url;
            SidebandAccessResponse.Body := body;
            SidebandAccessResponse.Headers := headers;
            SidebandAccessResponse.ClientCertificate := None;
            SidebandAccessResponse.State := raw_field "state" members;
            SidebandAccessResponse.Response := response |}
  | Some TopNull =>
      Ok {| SidebandAccessResponse.SourceIP := "";
            SidebandAccessResponse.SourcePort := "";
            SidebandAccessResponse.Method := "";
            SidebandAccessResponse.URL := "";
            SidebandAccessResponse.Body := None;
            SidebandAccessResponse.Headers := [];
            SidebandAccessResponse.ClientCertificate := None;
            SidebandAccessResponse.State := None;
            SidebandAccessResponse.Response := None |}
  | Some TopOther =>
      Err "json: cannot unmarshal into Go value of type main.SidebandAccessResponse"
  | None => Err "invalid character"
  end.

Definition mini_Unmarshal_SidebandResponseResult (s : string)
  : Result SidebandResponseResult.t :=
  match top_level s with
  | Some (TopObject members) =>
      code ← string_field "response_code" members;
      body ← string_field "body" members;
      headers ← decode_headers (raw_field "headers" members);
      message ← string_field "message" members;
      id ← string_field "id" members;
      Ok {| SidebandResponseResult.ResponseCode := code;
            SidebandResponseResult.Body := body;
            SidebandResponseResult.Headers := headers;
            SidebandResponseResult.Message := message;
            SidebandResponseResult.ID := id |}
  | Some TopNull =>
      Ok {| SidebandResponseResult.ResponseCode := "";
            SidebandResponseResult.Body := "";
            SidebandResponseResult.Headers := [];
            SidebandResponseResult.Message := "";
            SidebandResponseResult.ID := "" |}
  | Some TopOther =>
      Err "json: cannot unmarshal into Go value of type main.SidebandResponseResult"
  | None => Err "invalid character"
  end.

(** A field that could not be decoded is left empty, and the error kept. *)
Definition mini_Unmarshal_SidebandErrorResponse (s : string)
  : SidebandErrorResponse.t * option string :=
  match top_level s with
  | Some (TopObject members) =>
      let message := string_field "message" members in
      let id := string_field "id" members in
      ({| SidebandErrorResponse.Message := orZero "" message;
          SidebandErrorResponse.ID := orZero "" id |},
       match message, id with
       | Err e, _ => Some e
       | _, Err e => Some e
       | _, _ => None
       end)
  | Some TopNull =>
      ({| SidebandErrorResponse.Message := ""; SidebandErrorResponse.ID := "" |}, None)
  | Some TopOther =>
      ({| SidebandErrorResponse.Message := ""; SidebandErrorResponse.ID := "" |},
       Some "json: cannot unmarshal into Go value of type main.SidebandErrorResponse")
  | None =>
      ({| SidebandErrorResponse.Message := ""; SidebandErrorResponse.ID := "" |},
       Some "invalid character")
  end.

Definition mini_Marshal_headers (headers : list WireEntry) : string :=
  json_array (map mini_Marshal_map headers).

Definition mini_Marshal_DenyResponse (deny : DenyResponse.t) : string :=
  json_object
    ([("response_code", mini_EncodeString (DenyResponse.ResponseCode deny));
      ("response_status", mini_EncodeString (DenyResponse.ResponseStatus deny))]
     ++ omitempty "body" (DenyResponse.Body deny)
     ++ match DenyResponse.Headers deny with
        | [] => []
        | headers => [("headers", mini_Marshal_headers headers)]
        end).

Definition mini_Marshal_SidebandAccessResponse (resp : SidebandAccessResponse.t)
  : Result string :=
  state ← omitempty_raw "state" (SidebandAccessResponse.State resp);
  Ok (json_object
        ([("source_ip", mini_EncodeString (SidebandAccessResponse.SourceIP resp));
          ("source_port", mini_EncodeString (SidebandAccessResponse.SourcePort resp));
          ("method", mini_EncodeString (SidebandAccessResponse.Method resp));
          ("url", mini_EncodeString (SidebandAccessResponse.URL resp));
          ("body", match SidebandAccessResponse.Body resp with
                   | Some b => mini_EncodeString b
                   | None => "null"
                   end);
          ("headers", mini_Marshal_headers (SidebandAccessResponse.Headers resp))]
         ++ match SidebandAccessResponse.ClientCertificate resp with
            | Some jwk => [("client_certificate", mini_Marshal_JWK jwk)]
            | None => []
            end
         ++ state
         ++ match SidebandAccessResponse.Response resp with
            | Some deny => [("response", mini_Marshal_DenyResponse deny)]
            | None => []
            end)).

Definition mini_Marshal_SidebandResponsePayload (p : SidebandResponsePayload.t)
  : Result string :=
  state ← omitempty_raw "state" (SidebandResponsePayload.State p);
  request ← match SidebandResponsePayload.Request p with
            | Some req =>
                text ← mini_Marshal_SidebandAccessRequest req; Ok [("request", text)]
            | None => Ok []
            end;
  mcp ← match SidebandResponsePayload.MCP p with
        | Some ctx => text ← mini_Marshal_MCPContext ctx; Ok [("mcp", text)]
        | None => Ok []
        end;
  Ok (json_object
        ([("method", mini_EncodeString (SidebandResponsePayload.Method p));
          ("url", mini_EncodeString (SidebandResponsePayload.URL p));
          ("body", mini_EncodeString (SidebandResponsePayload.Body p));
          ("response_code", mini_EncodeString (SidebandResponsePayload.ResponseCode p));
          ("response_status",
           mini_EncodeString (SidebandResponsePayload.ResponseStatus p));
          ("headers", mini_Marshal_headers (SidebandResponsePayload.Headers p));
          ("http_version", mini_EncodeString (SidebandResponsePayload.HTTPVersion p))]
         ++ state ++ request
         ++ omitempty "traffic_type" (SidebandResponsePayload.TrafficType p)
         ++ mcp)).

Definition mini_Marshal_SidebandResponseResult (r : SidebandResponseResult.t)
  : Result string :=
  Ok (json_object
        ([("response_code", mini_EncodeString (SidebandResponseResult.ResponseCode r))]
         ++ omitempty "body" (SidebandResponseResult.Body r)
         ++ [("headers", mini_Marshal_headers (SidebandResponseResult.Headers r))]
         ++ omitempty "message" (SidebandResponseResult.Message r)
         ++ omitempty "id" (SidebandResponseResult.ID r))).

Definition MiniProviderJSON : ProviderJSON := {|
  Marshal_MCPContext := mini_Marshal_MCPContext;
  Marshal_SidebandAccessResponse := mini_Marshal_SidebandAccessResponse;
  Marshal_SidebandResponsePayload := mini_Marshal_SidebandResponsePayload;
  Marshal_SidebandResponseResult := mini_Marshal_SidebandResponseResult;
  Unmarshal_SidebandAccessResponse := mini_Unmarshal_SidebandAccessResponse;
  Unmarshal_SidebandResponseResult := mini_Unmarshal_SidebandResponseResult;
  Unmarshal_SidebandErrorResponse := mini_Unmarshal_SidebandErrorResponse
|}.

(** Decoding an access request, as the response phase does with what the
    access phase stored.  In a string field a backslash may stand before a
    quote, a backslash or a slash; a client certificate is not read. *)
Fixpoint unescape (s : string) : Result string :=
  match s with
  | EmptyString => Ok EmptyString
  | String c rest =>
      if Ascii.eqb c "\"%char then
        match rest with
        | String e rest' =>
            if (Ascii.eqb e dq || Ascii.eqb e "\"%char || Ascii.eqb e "/"%char)%bool
            then tail ← unescape rest'; Ok (String e tail)
            else Err "json: escape not supported"
        | EmptyString => Err "unexpected end of JSON input"
        end
      else tail ← unescape rest; Ok (String c tail)
  end.

Definition decode_escaped (old raw : string) : Result string :=
  match raw with
  | String c rest =>
      if Ascii.eqb c dq then unescape (string_take (String.length rest - 1) rest)
      else if String.eqb raw "null" then Ok old
      else Err "json: cannot unmarshal into Go value of type string"
  | EmptyString => Err "unexpected end of JSON input"
  end.

Definition escaped_field (field : string) (members : list (string * string))
  : Result string :=
  fold_left
    (fun acc nv =>
       if String.eqb (ToLower nv.1) field
       then old ← acc; decode_escaped old nv.2
       else acc)
    members (Ok "").

Definition decode_extracted (raw : RawMessage) : Result (option (gmap string string)) :=
  match raw with
  | None => Ok None
  | Some text =>
      if String.eqb text "null" then Ok None
      else entry ← decode_wire_entry text; Ok (Some (list_to_map (rev entry)))
  end.

Definition mini_Unmarshal_SidebandAccessRequest (s : string)
  : Result SidebandAccessRequest.t :=
  match top_level s with
  | Some (TopObject members) =>
      sourceIP ← escaped_field "source_ip" members;
      sourcePort ← escaped_field "source_port" members;
      method ← escaped_field "method" members;
      url ← escaped_field "url" members;
      body ← escaped_field "body" members;
      headers ← decode_headers (raw_field "headers" members);
      httpVersion ← escaped_field "http_version" members;
      trafficType ← escaped_field "traffic_type" members;
      mcp ← decode_pointer mini_Unmarshal_MCPContext (raw_field "mcp" members);
      extracted ← decode_extracted (raw_field "extracted_headers" members);
      Ok {| SidebandAccessRequest.SourceIP := sourceIP;
            SidebandAccessRequest.SourcePort := sourcePort;
            SidebandAccessRequest.Method := method;
            SidebandAccessRequest.URL := url;
            SidebandAccessRequest.Body := body;
            SidebandAccessRequest.Headers := headers;
            SidebandAccessRequest.HTTPVersion := httpVersion;
            SidebandAccessRequest.ClientCertificate := None;
            SidebandAccessRequest.TrafficType := trafficType;
            SidebandAccessRequest.MCP := mcp;
            SidebandAccessRequest.ExtractedHeaders := extracted |}
  | Some TopNull => Ok zeroAccessRequest
  | Some TopOther =>
      Err "json: cannot unmarshal into Go value of type main.SidebandAccessRequest"
  | None => Err "invalid character"
  end.

(** [MiniJSON] with that decoder. *)
Definition StoreJSON : EncodingJSON := {|
  Valid := mini_Valid;
  EncodeString := mini_EncodeString;
  Unmarshal_JsonRPCRequest := mini_Unmarshal_JsonRPCRequest;
  Unmarshal_probe := mini_Unmarshal_probe;
  Unmarshal_RawMap := mini_Unmarshal_RawMap;
  Unmarshal_string := mini_Unmarshal_string;
  Unmarshal_SidebandAccessRequest := mini_Unmarshal_SidebandAccessRequest;
  Unmarshal_MCPContext := mini_Unmarshal_MCPContext;
  Marshal_SidebandAccessRequest := mini_Marshal_SidebandAccessRequest;
  Valid_empty := eq_refl;
  EncodeString_plain := mini_EncodeString_plain
|}.

(** Servers for the examples: one that gives every request the same reply,
    and the gateway's view of a request with the body of scenario 3. *)
Definition constantServer (r : AttemptResult) : Server :=
  fun _ _ _ => {| took := Millisecond; outcome := r |}.

Definition denyReply : string :=
  go_lit "{'response':{'response_code':'403','response_status':'FORBIDDEN','body':'denied'}}".

Definition allowReply : string :=
  go_lit "{'method':'POST','headers':[{'content-type':'application/json'}],'state':{'decision':'allow'}}".

Definition resultReply : string :=
  go_lit "{'response_code':'200','body':'{}','headers':[{'content-type':'application/json'}]}".

(** [n] slashes. *)
Fixpoint slashes (n : nat) : string :=
  match n with
  | O => EmptyString
  | S n' => String "/" (slashes n')
  end.

(** For the examples: a parser of the URLs [scheme://host[:port][/path][?query]];
    a text without [://] is taken as a path, as [url.Parse] takes it. *)
Fixpoint split_at (c : ascii) (s : string) : string * option string :=
  match s with
  | EmptyString => (EmptyString, None)
  | String x rest =>
      if Ascii.eqb x c then (EmptyString, Some rest)
      else let '(before, after) := split_at c rest in (String x before, after)
  end.

Definition sample_Parse (rawURL : string) : Result GoURL.t :=
  let '(beforeQuery, query) := split_at "?" rawURL in
  match split_at ":" beforeQuery with
  | (scheme, Some (String "/" (String "/" rest))) =>
      let '(authority, path) := split_at "/" rest in
      let '(hostname, port) := split_at ":" authority in
      Ok {| GoURL.Scheme := ToLower scheme;
            GoURL.Host := authority;
            GoURL.Hostname := hostname;
            GoURL.Port := default "" port;
            GoURL.Path := match path with Some p => String "/" p | None => "" end;
            GoURL.RawQuery := default "" query |}
  | _ =>
      Ok {| GoURL.Scheme := ""; GoURL.Host := ""; GoURL.Hostname := "";
            GoURL.Port := ""; GoURL.Path := beforeQuery;
            GoURL.RawQuery := default "" query |}
  end.

Definition SampleURL : PackageURL := {| Parse := sample_Parse |}.

(** For the examples: [%q] on a text of plain bytes. *)
Definition SampleTexts : ErrorTexts :=
  {| Quote := quoted;
     Atoi_error := fun s =>
       "strconv.Atoi: parsing " +:+ quoted s +:+ ": invalid syntax" |}.

(** The settings of the integration tests. *)
Definition sampleSettings : Settings.t :=
  {| Settings.ServiceURL := "https://pingauthorize.example.com:8443/";
     Settings.SharedSecret := "secret";
     Settings.SecretHeaderName := "X-Ping-Secret";
     Settings.ConnectionTimeoutMs := 10000;
     Settings.ConnectionKeepaliveMs := 60000;
     Settings.VerifyServiceCert := true;
     Settings.SkipResponsePhase := false;
     Settings.EnableDebugLogging := false;
     Settings.EnableOtel := false;
     Settings.RedactHeaders := ["authorization"; "cookie"];
     Settings.DebugBodyMaxBytes := 8192 |}.
(** A [tools/call] request that names its tool and passes no arguments. *)
Definition toolNameBody : string :=
  go_lit "{'jsonrpc':'2.0','id':1,'method':'tools/call','params':{'name':'get_weather'}}".
(** The access payload of scenario 3 and the response payload of
    scenario 1, as the two composers build them. *)
Definition sampleAccessPayload : SidebandAccessRequest.t :=
  match @composeAccessPayload MiniJSON SampleCollaborators
          (sampleKong toolsCallBody noContext) retryConfig with
  | Ok req => req
  | Err _ => zeroAccessRequest
  end.

Definition sampleResponsePayload : SidebandResponsePayload.t :=
  match @composeResponsePayload MiniJSON SampleCollaborators
          (sampleKong toolsCallBody noContext) retryConfig
          (Some sampleAccessPayload) None with
  | Ok payload => payload
  | Err _ =>
      {| SidebandResponsePayload.Method := ""; SidebandResponsePayload.URL := "";
         SidebandResponsePayload.Body := "";
         SidebandResponsePayload.ResponseCode := "";
         SidebandResponsePayload.ResponseStatus := "";
         SidebandResponsePayload.Headers := [];
         SidebandResponsePayload.HTTPVersion := "";
         SidebandResponsePayload.State := None;
         SidebandResponsePayload.Request := None;
         SidebandResponsePayload.TrafficType := "";
         SidebandResponsePayload.MCP := None |}
  end.

(** The number of times a sequence of calls answers the client. *)
Definition exits (calls : list PDKCall) : nat := length (filter isExit calls).
(** The provider's reply that allows the request of [sampleKong] and
    returns it unchanged. *)
Definition sampleEcho : SidebandAccessResponse.t :=
  {| SidebandAccessResponse.SourceIP := "10.0.0.1";
     SidebandAccessResponse.SourcePort := "12345";
     SidebandAccessResponse.Method := "POST";
     SidebandAccessResponse.URL := "https://svc:443/resource";
     SidebandAccessResponse.Body := Some "{}";
     SidebandAccessResponse.Headers := [[("content-type", "application/json")]];
     SidebandAccessResponse.ClientCertificate := None;
     SidebandAccessResponse.State := None;
     SidebandAccessResponse.Response := None |}.
(** The service URL of [sampleSettings] as ParseURL returns it, and the
    encoded payloads of [sampleAccessPayload] and [sampleResponsePayload]. *)
Definition sampleParsedURL : ParsedURL.t :=
  {| ParsedURL.Scheme := "https"; ParsedURL.Host := "pingauthorize.example.com";
     ParsedURL.Port := 8443; ParsedURL.Path := "/"; ParsedURL.Query := "" |}.

Definition sampleAccessBody : string :=
  match mini_Marshal_SidebandAccessRequest sampleAccessPayload with
  | Ok body => body
  | Err _ => ""
  end.

Definition sampleResponseBody : string :=
  match mini_Marshal_SidebandResponsePayload sampleResponsePayload with
  | Ok body => body
  | Err _ => ""
  end.

(** Scenario 3 from end to end.  The provider's reply that allows the
    request, decoded; the per-request context the access phase leaves then;
    the payload the response phase composes from it; and the two phases run
    on the gateway's view of that request. *)
Definition sampleAllow : SidebandAccessResponse.t :=
  match mini_Unmarshal_SidebandAccessResponse allowReply with
  | Ok resp => resp
  | Err _ => sampleEcho
  end.

Definition storedContext : string -> Result string :=
  sharedAfter
    (@storePerRequestContext StoreJSON MiniProviderJSON sampleAccessPayload
       (SidebandAccessResponse.State sampleAllow))
    noContext.

Definition storedResponsePayload : SidebandResponsePayload.t :=
  match @composeResponsePayload StoreJSON SampleCollaborators
          (sampleKong toolsCallBody storedContext) retryConfig
          (Some sampleAccessPayload) (SidebandAccessResponse.State sampleAllow) with
  | Ok payload => payload
  | Err _ => sampleResponsePayload
  end.

Definition storedResponseBody : string :=
  match mini_Marshal_SidebandResponsePayload storedResponsePayload with
  | Ok body => body
  | Err _ => ""
  end.

Definition sampleAccess (conf : Config.t) (server : Server) (w : World)
  : list PDKCall * World :=
  @executeAccess StoreJSON MiniProviderJSON SampleCollaborators SampleURL SampleTexts
    (sampleKong toolsCallBody noContext) sampleSettings conf server w.

Definition sampleResponse (conf : Config.t) (server : Server) (w : World)
  : list PDKCall * World :=
  @executeResponse StoreJSON MiniProviderJSON SampleCollaborators SampleURL SampleTexts
    (sampleKong toolsCallBody storedContext) sampleSettings conf server w.

(* ===================================================================== *)
(** * Part II. Theorems                                                  *)
(* ===================================================================== *)

Example Itoa_examples :
  Itoa 0 = "0" /\ Itoa 30 = "30" /\ Itoa (-7) = "-7" /\ Atoi "+5" = Some 5 /\
  Atoi "" = None /\ Atoi "12a" = None /\ Atoi "9223372036854775808" = None.
Proof. repeat split; reflexivity. Qed.

Example TrimSpace_examples :
  TrimSpace "  data: x  " = "data: x" /\
  TrimSpace (String (ascii_of_nat 9) "a b" +:+ bytes_of [194; 160]%nat) = "a b" /\
  SplitLF "" = [""] /\
  SplitLF (String "a" (String LF (String LF "b"))) = ["a"; ""; "b"].
Proof. repeat split; reflexivity. Qed.

(* --------------------------------------------------------------------- *)
(** ** Header codec                                                       *)
(* --------------------------------------------------------------------- *)

Lemma lower_byte_idem c : lower_byte (lower_byte c) = lower_byte c.
Proof.
  unfold lower_byte.
  destruct ((65 <=? nat_of_ascii c)%nat && (nat_of_ascii c <=? 90)%nat)%bool eqn:E.
  - apply andb_prop in E as [E1 E2].
    apply Nat.leb_le in E1. apply Nat.leb_le in E2.
    rewrite nat_ascii_embedding by lia.
    replace ((65 <=? nat_of_ascii c + 32)%nat && (nat_of_ascii c + 32 <=? 90)%nat)%bool
      with false; [done|].
    symmetry. apply andb_false_iff. right. apply Nat.leb_gt. lia.
  - by rewrite E.
Qed.

Lemma ToLower_idem s : ToLower (ToLower s) = ToLower s.
Proof.
  unfold ToLower. induction s as [|c s IH]; simpl; [done|].
  by rewrite lower_byte_idem, IH.
Qed.

(** The values a list of wire pairs carries for the lower-case name [k]. *)
Definition values_for (k : string) (pairs : list (string * string)) : list string :=
  map snd (filter (fun nv => ToLower nv.1 = k) pairs).

Lemma flatten_pairs_lookup pairs (acc : gmap string (list string)) k :
  fold_left flatten_step pairs acc !! k =
    match values_for k pairs with
    | [] => acc !! k
    | vs => Some (default [] (acc !! k) ++ vs)
    end.
Proof.
  revert acc. induction pairs as [|[n v] pairs IH]; intros acc; simpl; [done|].
  rewrite IH. unfold values_for. rewrite filter_cons. simpl.
  unfold flatten_step; simpl.
  destruct (decide (ToLower n = k)) as [->|Hne]; simpl.
  - rewrite lookup_insert_eq. simpl.
    destruct (map snd (filter _ pairs)) as [|w ws] eqn:E; [done|].
    by rewrite <- app_assoc.
  - by rewrite lookup_insert_ne.
Qed.

Lemma flatten_entries_fold (entries : list WireEntry) acc :
  fold_left (fun result entry => fold_left flatten_step entry result) entries acc =
  fold_left flatten_step (concat entries) acc.
Proof.
  revert acc. induction entries as [|e es IH]; intros acc; simpl; [done|].
  by rewrite IH, fold_left_app.
Qed.

Lemma FlattenHeaders_lookup (entries : list WireEntry) k :
  FlattenHeaders entries !! k =
    match values_for k (concat entries) with
    | [] => None
    | vs => Some vs
    end.
Proof.
  unfold FlattenHeaders. destruct entries as [|e es]; [done|].
  rewrite flatten_entries_fold, flatten_pairs_lookup, lookup_empty. done.
Qed.

Lemma values_for_app k l1 l2 :
  values_for k (l1 ++ l2) = values_for k l1 ++ values_for k l2.
Proof. unfold values_for. by rewrite filter_app, map_app. Qed.

Lemma values_for_singletons k n (vs : list string) :
  values_for k (concat (map (fun v => [(ToLower n, v)]) vs)) =
  if decide (ToLower n = k) then vs else [].
Proof.
  induction vs as [|v vs IH]; simpl.
  - by destruct (decide _).
  - change ((ToLower n, v) :: ?l) with ([(ToLower n, v)] ++ l).
    rewrite values_for_app, IH. unfold values_for. rewrite filter_cons. simpl.
    rewrite ToLower_idem. by destruct (decide (ToLower n = k)).
Qed.

(** What the wire form of [m] carries for [k]: the value lists of the entries
    of [m] whose lower-cased name is [k], in the order of the iteration. *)
Lemma values_for_FormatHeaders k (m : list (string * list string)) wire :
  FormatHeaders m = Ok wire ->
  values_for k (concat wire) =
  concat (map snd (filter (fun nv => ToLower nv.1 = k) m)).
Proof.
  intros H.
  assert (wire = flat_map
            (fun '(name, values) => map (fun v => [(ToLower name, v)]) values) m)
    as ->.
  { destruct m as [|[??]?]; simpl in H; by injection H as <-. }
  clear H. induction m as [|[n vs] m IH]; simpl; [done|].
  rewrite concat_app, values_for_app, IH, values_for_singletons, filter_cons.
  simpl. by destruct (decide (ToLower n = k)).
Qed.

Lemma filter_lower_key_absent k (m : list (string * list string)) :
  k ∉ map (fun nv => ToLower nv.1) m ->
  filter (fun nv => ToLower nv.1 = k) m = [].
Proof.
  induction m as [|[n vs] m IH]; simpl; intros Hk; [done|].
  rewrite filter_cons. simpl. apply not_elem_of_cons in Hk as [Hne Hk].
  destruct (decide (ToLower n = k)); [congruence | auto].
Qed.

Lemma lowercase_keys_lookup k (m : list (string * list string)) :
  NoDup (map (fun nv => ToLower nv.1) m) ->
  Forall (fun nv => nv.2 <> []) m ->
  lowercase_keys m !! k =
    match concat (map snd (filter (fun nv => ToLower nv.1 = k) m)) with
    | [] => None
    | vs => Some vs
    end.
Proof.
  unfold lowercase_keys.
  induction m as [|[n vs] m IH]; simpl; intros Hnd Hne; [done|].
  apply NoDup_cons in Hnd as [Hn Hnd]. apply Forall_cons in Hne as [Hvs Hne].
  rewrite filter_cons. simpl in *.
  destruct (decide (ToLower n = k)) as [Hk|Hk]; simpl.
  - subst k. rewrite lookup_insert_eq, filter_lower_key_absent by done. simpl.
    rewrite app_nil_r. by destruct vs.
  - rewrite lookup_insert_ne by done. auto.
Qed.

Lemma FlattenHeaders_FormatHeaders_map (m : list (string * list string)) wire :
  NoDup (map (fun nv => ToLower nv.1) m) ->
  Forall (fun nv => nv.2 <> []) m ->
  FormatHeaders m = Ok wire ->
  FlattenHeaders wire = lowercase_keys m.
Proof.
  intros Hnd Hne Hw. apply map_eq. intros k.
  rewrite FlattenHeaders_lookup, (values_for_FormatHeaders k m wire Hw).
  by rewrite lowercase_keys_lookup.
Qed.

(** Two iterations over the same Go map decode to the same map, whatever
    the order of their wire entries. *)
Lemma roundtrip_order_independent (m1 m2 : list (string * list string)) wire1 wire2 :
  NoDup (map (fun nv => ToLower nv.1) m1) ->
  Forall (fun nv => nv.2 <> []) m1 ->
  m1 ≡ₚ m2 ->
  FormatHeaders m1 = Ok wire1 -> FormatHeaders m2 = Ok wire2 ->
  FlattenHeaders wire1 = FlattenHeaders wire2.
Proof.
  intros Hnd Hne Hperm H1 H2.
  rewrite (FlattenHeaders_FormatHeaders_map m1 wire1), (FlattenHeaders_FormatHeaders_map m2 wire2);
    try done.
  - unfold lowercase_keys. apply list_to_map_proper.
    + by rewrite <- list_fmap_compose.
    + by apply fmap_Permutation.
  - by rewrite <- Hperm.
  - by rewrite <- Hperm.
Qed.

(** C3, as amended: when the names of [m] stay pairwise distinct after
    lower-casing and no value list of [m] is empty, FormatHeaders succeeds
    and FlattenHeaders of its wire form is [m] with every name lower-cased;
    each name keeps its values in their order.  This holds for every order
    in which the Go map is iterated, so the order of the wire entries across
    names does not matter. *)
Theorem FlattenHeaders_FormatHeaders_roundtrip (m : list (string * list string)) :
  NoDup (map (fun nv => ToLower nv.1) m) ->
  Forall (fun nv => nv.2 <> []) m ->
  exists wire,
    FormatHeaders m = Ok wire /\
    FlattenHeaders wire = lowercase_keys m /\
    forall name values,
      (name, values) ∈ m -> FlattenHeaders wire !! ToLower name = Some values.
Proof.
  intros Hnd Hne.
  assert (exists wire, FormatHeaders m = Ok wire) as [wire Hw]
    by (destruct m; simpl; eauto).
  pose proof (FlattenHeaders_FormatHeaders_map m wire Hnd Hne Hw) as Heq.
  exists wire. split; [done|]. split; [done|].
  intros name values Hin. rewrite Heq. unfold lowercase_keys.
  apply elem_of_list_to_map_1.
  - by rewrite <- list_fmap_compose.
  - apply (list_elem_of_fmap_2 (fun nv => (ToLower nv.1, nv.2)) _ _ Hin).
Qed.

(** The amended round trip at the header map of [TestRoundTrip]. *)
Lemma FlattenHeaders_FormatHeaders_roundtrip_witness :
  exists wire,
    FormatHeaders [("Content-Type", ["application/json"]);
                   ("X-Custom", ["val1"; "val2"]); ("accept", ["text/html"])]
      = Ok wire /\
    FlattenHeaders wire =
      lowercase_keys [("Content-Type", ["application/json"]);
                      ("X-Custom", ["val1"; "val2"]); ("accept", ["text/html"])] /\
    forall name values,
      (name, values) ∈ [("Content-Type", ["application/json"]);
                        ("X-Custom", ["val1"; "val2"]); ("accept", ["text/html"])] ->
      FlattenHeaders wire !! ToLower name = Some values.
Proof.
  apply (FlattenHeaders_FormatHeaders_roundtrip
           [("Content-Type", ["application/json"]);
            ("X-Custom", ["val1"; "val2"]); ("accept", ["text/html"])]).
  - compute_done.
  - repeat constructor; simpl; discriminate.
Defined.

(** C3 as stated fails in two ways.  A name whose value list is empty has no
    wire entry, so it is missing from the decoded map.  And two names that
    differ only in case are merged under one lower-cased name, whose value
    list is then the list of no name of [m]. *)
Lemma roundtrip_loses_empty_value_list :
  (FormatHeaders [("X-Empty", [])] = Ok [] /\
   FlattenHeaders [] <> lowercase_keys [("X-Empty", [])]) /\
  (exists wire,
     FormatHeaders [("Accept", ["a"]); ("accept", ["b"])] = Ok wire /\
     FlattenHeaders wire !! "accept" = Some ["a"; "b"] /\
     FlattenHeaders wire <> lowercase_keys [("Accept", ["a"]); ("accept", ["b"])] /\
     forall name values,
       (name, values) ∈ [("Accept", ["a"]); ("accept", ["b"])] ->
       values <> ["a"; "b"]).
Proof.
  split.
  - split; [reflexivity|].
    intros H. apply (f_equal (fun r => r !! "x-empty")) in H.
    unfold FlattenHeaders, lowercase_keys in H. simpl in H.
    rewrite lookup_empty in H.
    change (ToLower "X-Empty") with "x-empty" in H.
    rewrite lookup_insert_eq in H. discriminate.
  - eexists. split; [reflexivity|]. split; [reflexivity|]. split.
    + intros H. apply (f_equal (fun r => r !! "accept")) in H.
      vm_compute in H. discriminate.
    + intros name values Hin. set_unfold.
      destruct Hin as [Hin|[Hin|[]]]; injection Hin as _ ->; discriminate.
Qed.

(* --------------------------------------------------------------------- *)
(** ** Retry loop and circuit breaker                                     *)
(* --------------------------------------------------------------------- *)

Lemma wrap64_le z : 0 <= z -> wrap64 z <= z.
Proof.
  intros Hz. unfold wrap64.
  pose proof (Z.mod_le (z + 2 ^ 63) (2 ^ 64)) as H. lia.
Qed.

Lemma wrap64_range z : - 2 ^ 63 <= wrap64 z < 2 ^ 63.
Proof.
  unfold wrap64. pose proof (Z.mod_pos_bound (z + 2 ^ 63) (2 ^ 64)). lia.
Qed.

Lemma wrap64_id z : - 2 ^ 63 <= z < 2 ^ 63 -> wrap64 z = z.
Proof. intros Hz. unfold wrap64. rewrite Z.mod_small; lia. Qed.

Lemma parseRetryAfter_pos h : 0 < parseRetryAfter h.
Proof.
  unfold parseRetryAfter, defaultRetryAfterSec.
  destruct (String.eqb _ _); [lia|].
  destruct (Atoi _) as [secs|]; [|lia].
  destruct (Z.leb_spec secs 0); lia.
Qed.

(** The Retry-After value is used when [strconv.Atoi] reads it as a positive
    integer, and the default is used otherwise. *)
Lemma parseRetryAfter_spec h :
  parseRetryAfter h =
    match Atoi (Header_Get h "Retry-After") with
    | Some secs => if 0 <? secs then secs else defaultRetryAfterSec
    | None => defaultRetryAfterSec
    end.
Proof.
  unfold parseRetryAfter.
  destruct (String.eqb_spec (Header_Get h "Retry-After") "") as [->|_]; [done|].
  destruct (Atoi _) as [secs|]; [|done].
  destruct (Z.leb_spec secs 0), (Z.ltb_spec 0 secs); (done || lia).
Qed.

(** The loop issues at most [fuel] requests, never touches the breaker
    except through Trip on a 429, and leaves the loop variables describing
    the last attempt. *)
Lemma retry_loop_requests conf p fuel attempt last w r last' w' :
  retry_loop conf p fuel attempt last w = (r, last', w') ->
  (requests w <= requests w' <= requests w + fuel)%nat /\
  (fuel = 1%nat -> requests w' = S (requests w)).
Proof.
  revert attempt last w. induction fuel as [|fuel IH]; intros attempt last w; simpl.
  - intros [= <- <- <-]. lia.
  - set (w1 := if (0 <? attempt)%nat then _ else w).
    assert (requests w1 = requests w) as Hw1 by (subst w1; by destruct (0 <? attempt)%nat).
    destruct (outcome (p attempt)) as [e|sc h b].
    + intros H. apply IH in H as [H1 H2]. simpl in *. split; [lia|].
      intros [= ->]. simpl in *. lia.
    + destruct (sc =? 429).
      { intros [= <- <- <-]. simpl. lia. }
      destruct (sc >=? 500).
      * intros H. apply IH in H as [H1 H2]. simpl in *. split; [lia|].
        intros [= ->]. simpl in *. lia.
      * intros [= <- <- <-]. simpl. lia.
Qed.

(** After [k] transient attempts a 429 ends the loop at once: it is returned
    as it came, the breaker is tripped with the parsed Retry-After, and
    [k + 1] requests were issued. *)
Lemma retry_loop_429 conf p k : forall fuel attempt last w h b,
  (k < fuel)%nat ->
  (forall j, (j < k)%nat -> transient (outcome (p (attempt + j)%nat))) ->
  outcome (p (attempt + k)%nat) = HTTPResponse 429 h b ->
  exists last' w1,
    retry_loop conf p fuel attempt last w =
      (Some {| statusCode := 429; respHeaders := Some h;
               respBody := Some b; err := None |},
       last',
       set_breaker w1 (Trip (breaker w1) Trigger429 (parseRetryAfter h) (now w1))) /\
    requests w1 = (requests w + S k)%nat /\ breaker w1 = breaker w.
Proof.
  induction k as [|k IH]; intros fuel attempt last w h b Hk Htr H429.
  - destruct fuel as [|fuel]; [lia|]. simpl.
    rewrite Nat.add_0_r in H429. rewrite H429. simpl.
    eexists last, {| now := _; breaker := _; requests := _; sleeps := _ |}.
    split; [reflexivity|].
    destruct (0 <? attempt)%nat; simpl; split; (lia || done).
  - destruct fuel as [|fuel]; [lia|]. simpl.
    pose proof (Htr 0%nat ltac:(lia)) as H0. rewrite Nat.add_0_r in H0.
    set (w1 := if (0 <? attempt)%nat then _ else w).
    assert (requests w1 = requests w /\ breaker w1 = breaker w) as [Hr Hb]
      by (subst w1; by destruct (0 <? attempt)%nat).
    assert (forall j, (j < k)%nat -> transient (outcome (p (S attempt + j)%nat))) as Htr'.
    { intros j Hj. replace (S attempt + j)%nat with (attempt + S j)%nat by lia.
      apply Htr. lia. }
    assert (outcome (p (S attempt + k)%nat) = HTTPResponse 429 h b) as H429'.
    { by replace (S attempt + k)%nat with (attempt + S k)%nat by lia. }
    destruct (outcome (p attempt)) as [e|sc h0 b0].
    + edestruct (IH fuel (S attempt)) as (last' & w2 & -> & Hreq & Hbr);
        [lia | exact Htr' | exact H429' |].
      simpl in *. eexists _, _. split; [reflexivity|].
      split; [lia | congruence].
    + destruct H0 as [Hne Hge].
      destruct (Z.eqb_spec sc 429); [done|].
      destruct (Z.geb_spec sc 500); [|lia].
      edestruct (IH fuel (S attempt)) as (last' & w2 & -> & Hreq & Hbr);
        [lia | exact Htr' | exact H429' |].
      simpl in *. eexists _, _. split; [reflexivity|].
      split; [lia | congruence].
Qed.

(** Whatever the loop does, the breaker it leaves is the one it found, or
    that one tripped for a 429 with the parsed Retry-After of the reply. *)
Lemma retry_loop_breaker conf p fuel : forall attempt last w r last' w',
  retry_loop conf p fuel attempt last w = (r, last', w') ->
  breaker w' = breaker w \/
  exists k h b t, outcome (p k) = HTTPResponse 429 h b /\
    breaker w' = Trip (breaker w) Trigger429 (parseRetryAfter h) t.
Proof.
  induction fuel as [|fuel IH]; intros attempt last w r last' w'; simpl.
  - intros [= <- <- <-]. by left.
  - set (w1 := if (0 <? attempt)%nat then _ else w).
    assert (breaker w1 = breaker w) as Hb by (subst w1; by destruct (0 <? attempt)%nat).
    destruct (outcome (p attempt)) as [e|sc h b] eqn:E.
    + intros H. apply IH in H. simpl in H. by rewrite Hb in H.
    + destruct (Z.eqb_spec sc 429) as [->|_].
      { intros [= <- <- <-]. right. simpl. rewrite Hb.
        eexists attempt, h, b, _. split; [exact E | reflexivity]. }
      destruct (sc >=? 500).
      * intros H. apply IH in H. simpl in H. by rewrite Hb in H.
      * intros [= <- <- <-]. by left.
Qed.

Lemma Execute_allowed conf p mcpMethod w cb :
  Allow (breaker w) (now w) = (true, None, cb) ->
  Execute conf p mcpMethod w =
    match retry_loop conf p (Z.to_nat (maxAttempts conf mcpMethod)) O
            {| lastErr := None; lastStatus := 0;
               lastHeaders := None; lastBody := None |}
            (set_breaker w cb) with
    | (Some r, _, w) => (r, w)
    | (None, last, w) =>
        let w :=
          match lastErr last with
          | Some _ =>
              if lastStatus last >=? 500 then
                set_breaker w
                  (Trip (breaker w) Trigger5xx defaultRetryAfterSec (now w))
              else if lastStatus last =? 0 then
                set_breaker w
                  (Trip (breaker w) TriggerTimeout defaultRetryAfterSec (now w))
              else w
          | None => w
          end in
        if lastStatus last >? 0 then
          ({| statusCode := lastStatus last; respHeaders := lastHeaders last;
              respBody := lastBody last; err := lastErr last |}, w)
        else
          ({| statusCode := 0; respHeaders := None; respBody := None;
              err := lastErr last |}, w)
    end.
Proof. intros H. unfold Execute. by rewrite H. Qed.

Lemma Execute_rejected conf p mcpMethod w e cb :
  Allow (breaker w) (now w) = (false, e, cb) ->
  Execute conf p mcpMethod w =
    ({| statusCode := 0; respHeaders := None; respBody := None;
        err := option_map ErrCircuitOpen e |}, set_breaker w cb).
Proof. intros H. unfold Execute. by rewrite H. Qed.

Lemma Allow_true_no_error cb t e cb' : Allow cb t = (true, e, cb') -> e = None.
Proof.
  unfold Allow. repeat (case_match; simplify_eq); congruence.
Qed.

(** C4: when the provider answers 429 (at the attempt numbered [k], the
    earlier ones having failed transiently), Execute issues no further
    request, returns the 429 with its headers and body and a nil error, and
    trips the breaker with the rate-limit trigger and the Retry-After of the
    reply: that value when [strconv.Atoi] reads a positive integer, 30
    otherwise.  And whatever the provider does, a call leaves the breaker as
    Allow left it, or tripped for a 429 in that way, or tripped for a server
    error or for a timeout with the 30-second default. *)
Theorem Execute_429_trips_breaker (conf : Config.t) (p : Provider)
  (mcpMethod : string) (w : World) (cb : CircuitBreaker.t) :
  (forall k h b,
     Allow (breaker w) (now w) = (true, None, cb) ->
     (k < Z.to_nat (maxAttempts conf mcpMethod))%nat ->
     (forall j, (j < k)%nat -> transient (outcome (p j))) ->
     outcome (p k) = HTTPResponse 429 h b ->
     exists w',
       Execute conf p mcpMethod w =
         ({| statusCode := 429; respHeaders := Some h;
             respBody := Some b; err := None |}, w') /\
       requests w' = (requests w + S k)%nat /\
       breaker w' = Trip cb Trigger429 (parseRetryAfter h) (now w') /\
       parseRetryAfter h =
         match Atoi (Header_Get h "Retry-After") with
         | Some secs => if 0 <? secs then secs else 30
         | None => 30
         end /\
       (CircuitBreaker.enabled cb = true ->
        CircuitBreaker.closed (breaker w') = false /\
        CircuitBreaker.triggerType (breaker w') = Trigger429 /\
        CircuitBreaker.retryAfterSec (breaker w') = parseRetryAfter h)) /\
  (forall r w',
     Allow (breaker w) (now w) = (true, None, cb) ->
     Execute conf p mcpMethod w = (r, w') ->
     breaker w' = cb \/
     (exists k h b t, outcome (p k) = HTTPResponse 429 h b /\
        breaker w' = Trip cb Trigger429 (parseRetryAfter h) t) \/
     (exists t, breaker w' = Trip cb Trigger5xx 30 t) \/
     (exists t, breaker w' = Trip cb TriggerTimeout 30 t)).
Proof.
  split.
  - intros k h b Hallow Hk Htr H429.
    rewrite (Execute_allowed _ _ _ _ _ Hallow).
    edestruct (retry_loop_429 conf p k (Z.to_nat (maxAttempts conf mcpMethod)) O)
      as (last' & w1 & -> & Hreq & Hbr); [exact Hk | exact Htr | exact H429 |].
    eexists. split; [reflexivity|]. simpl in *.
    split; [done|]. split; [by rewrite Hbr|].
    split; [apply parseRetryAfter_spec|].
    intros Hen. rewrite Hbr. unfold Trip. rewrite Hen. simpl.
    pose proof (parseRetryAfter_pos h) as Hpos.
    destruct (Z.gtb_spec (parseRetryAfter h) 0); [done | lia].
  - intros r w' Hallow. rewrite (Execute_allowed _ _ _ _ _ Hallow).
    destruct (retry_loop _ _ _ _ _ _) as [[[r0|] last] w1] eqn:E;
      apply retry_loop_breaker in E; simpl in E.
    + intros [= <- <-]. destruct E as [E|E]; [by left | by right; left].
    + assert (forall w2, breaker w2 = breaker w1 ->
                breaker w2 = cb \/
                (exists k h b t, outcome (p k) = HTTPResponse 429 h b /\
                   breaker w2 = Trip cb Trigger429 (parseRetryAfter h) t))
        as Hkeep by (intros w2 ->; exact E).
      destruct E as [E|(k & h & b & t & _ & E)].
      * destruct (lastErr last);
          repeat case_match; intros [= <- <-]; simpl; rewrite ?E; eauto 8.
      * (* the loop cannot run out after a 429; the cases are still covered *)
        destruct (lastErr last);
          repeat case_match; intros [= <- <-]; simpl.
        all: try (destruct (Hkeep _ eq_refl) as [?|?]; [by left | by right; left]).
        all: rewrite E; unfold Trip; simpl;
          destruct (CircuitBreaker.enabled cb) eqn:Hen; simpl; rewrite ?Hen; simpl.
        all: eauto 8.
Qed.

(** C4 at the scenario of [TestExecute_CircuitBreakerTripsOn429]. *)
Lemma Execute_429_trips_breaker_witness :
  exists w',
    Execute defaultConfig rateLimitedProvider "" (freshWorld true) =
      ({| statusCode := 429;
          respHeaders := Some {[ "Retry-After" := ["5"] ]};
          respBody := Some "rate limited"; err := None |}, w') /\
    requests w' = (requests (freshWorld true) + 1)%nat /\
    breaker w' =
      Trip (NewCircuitBreaker true) Trigger429
        (parseRetryAfter {[ "Retry-After" := ["5"] ]}) (now w') /\
    parseRetryAfter {[ "Retry-After" := ["5"] ]} =
      match Atoi (Header_Get {[ "Retry-After" := ["5"] ]} "Retry-After") with
      | Some secs => if 0 <? secs then secs else 30
      | None => 30
      end /\
    (CircuitBreaker.enabled (NewCircuitBreaker true) = true ->
     CircuitBreaker.closed (breaker w') = false /\
     CircuitBreaker.triggerType (breaker w') = Trigger429 /\
     CircuitBreaker.retryAfterSec (breaker w') =
       parseRetryAfter {[ "Retry-After" := ["5"] ]}).
Proof.
  apply (proj1 (Execute_429_trips_breaker defaultConfig rateLimitedProvider ""
                  (freshWorld true) (NewCircuitBreaker true)) 0%nat).
  - reflexivity.
  - vm_compute. lia.
  - intros j Hj. lia.
  - reflexivity.
Defined.

Example parseRetryAfter_examples :
  parseRetryAfter {[ "Retry-After" := ["5"] ]} = 5 /\
  parseRetryAfter ∅ = 30 /\
  parseRetryAfter {[ "Retry-After" := ["0"] ]} = 30 /\
  parseRetryAfter {[ "Retry-After" := ["-3"] ]} = 30 /\
  parseRetryAfter {[ "Retry-After" := ["soon"] ]} = 30.
Proof. repeat split; vm_compute; reflexivity. Qed.

(** C5, as amended: a call issues at most [1 + max_retries] requests (for
    a validated configuration, [max_retries >= 0]); when it carries an MCP
    method outside [mcp_retry_methods] it issues exactly one request if the
    breaker lets the call through, and none if the breaker rejects it. *)
Theorem Execute_attempts (conf : Config.t) (p : Provider) (mcpMethod : string)
  (w : World) (r : ExecResult) (w' : World) :
  0 <= Config.MaxRetries conf ->
  Execute conf p mcpMethod w = (r, w') ->
  (requests w <= requests w')%nat /\
  Z.of_nat (requests w' - requests w) <= 1 + Config.MaxRetries conf /\
  (mcpMethod <> "" ->
   isMCPMethodRetryable mcpMethod (Config.MCPRetryMethods conf) = false ->
   ((Allow (breaker w) (now w)).1.1 = true -> requests w' = S (requests w)) /\
   ((Allow (breaker w) (now w)).1.1 = false -> requests w' = requests w)).
Proof.
  intros Hmax. destruct (Allow (breaker w) (now w)) as [[ok e] cb] eqn:Hallow.
  destruct ok.
  - pose proof (Allow_true_no_error _ _ _ _ Hallow) as ->.
    rewrite (Execute_allowed _ _ _ _ _ Hallow).
    destruct (retry_loop _ _ _ _ _ _) as [[r0 last] w1] eqn:E.
    apply retry_loop_requests in E as [Hle Hone]. simpl in Hle.
    assert (requests w' = requests w1 -> 
            (requests w <= requests w')%nat /\
            Z.of_nat (requests w' - requests w) <= 1 + Config.MaxRetries conf /\
            (mcpMethod <> "" ->
             isMCPMethodRetryable mcpMethod (Config.MCPRetryMethods conf) = false ->
             (true = true -> requests w' = S (requests w)) /\
             (true = false -> requests w' = requests w))) as Hgoal.
    { intros ->. split; [lia|]. split.
      - assert (Z.of_nat (Z.to_nat (maxAttempts conf mcpMethod))
                <= 1 + Config.MaxRetries conf); [|lia].
        unfold maxAttempts. case_match; [lia|].
        pose proof (wrap64_le (1 + Config.MaxRetries conf)). lia.
      - intros Hne Hret. split; [|done]. intros _.
        simpl in Hone. apply Hone. unfold maxAttempts. rewrite Hret.
        destruct (String.eqb_spec mcpMethod ""); done. }
    destruct r0 as [r0|].
    + intros [= <- <-]. by apply Hgoal.
    + intros H. apply Hgoal. cbv zeta in H.
      destruct (lastErr last); repeat case_match; by simplify_eq.
  - rewrite (Execute_rejected _ _ _ _ _ _ Hallow). intros [= <- <-]. simpl.
    split; [lia|]. split; [lia|]. done.
Qed.

(** C5 at scenario 6: [tools/call] against a failing provider with
    [max_retries = 3] is tried once. *)
Lemma Execute_attempts_witness :
  (requests (freshWorld true) <=
   requests (Execute retryConfig failingProvider "tools/call" (freshWorld true)).2)%nat /\
  Z.of_nat
    (requests (Execute retryConfig failingProvider "tools/call" (freshWorld true)).2
     - requests (freshWorld true)) <= 1 + Config.MaxRetries retryConfig /\
  ("tools/call" <> "" ->
   isMCPMethodRetryable "tools/call" (Config.MCPRetryMethods retryConfig) = false ->
   ((Allow (breaker (freshWorld true)) (now (freshWorld true))).1.1 = true ->
    requests (Execute retryConfig failingProvider "tools/call" (freshWorld true)).2
    = S (requests (freshWorld true))) /\
   ((Allow (breaker (freshWorld true)) (now (freshWorld true))).1.1 = false ->
    requests (Execute retryConfig failingProvider "tools/call" (freshWorld true)).2
    = requests (freshWorld true))).
Proof.
  apply (Execute_attempts retryConfig failingProvider "tools/call" (freshWorld true)
           (Execute retryConfig failingProvider "tools/call" (freshWorld true)).1).
  - simpl. lia.
  - by destruct (Execute _ _ _ _).
Defined.

Example Execute_scenario_6 :
  requests (Execute retryConfig failingProvider "tools/call" (freshWorld true)).2 = 1%nat /\
  requests (Execute retryConfig failingProvider "tools/list" (freshWorld true)).2 = 4%nat.
Proof. split; vm_compute; reflexivity. Qed.

(** C5 as stated fails when the breaker is open: one second after the 500 of
    scenario 6 tripped it, a second [tools/call] (a method that is not
    retryable) is rejected by Allow and no request is issued at all. *)
Lemma Execute_open_breaker_issues_no_request :
  isMCPMethodRetryable "tools/call" (Config.MCPRetryMethods retryConfig) = false /\
  CircuitBreaker.closed (breaker worldAfterTrip) = false /\
  requests (Execute retryConfig failingProvider "tools/call" worldAfterTrip).2
    = requests worldAfterTrip /\
  requests (Execute retryConfig failingProvider "tools/call" worldAfterTrip).2
    <> S (requests worldAfterTrip).
Proof. repeat split; vm_compute; congruence. Qed.

(* --------------------------------------------------------------------- *)
(** ** Response phase: the provider's result                              *)
(* --------------------------------------------------------------------- *)

Lemma upstreamHeaderLoop_makes_no_call policyHeaders upstreamHeaders :
  upstreamHeaderLoop policyHeaders upstreamHeaders = [].
Proof.
  unfold upstreamHeaderLoop.
  induction upstreamHeaders as [|[name values] rest IH]; simpl; [done|].
  rewrite IH. destruct (preservedResponseHeaders _); [done|].
  by destruct (policyHeaders !! _).
Qed.

(** The response handleResponseResult builds is the provider's status (200
    when it is not a number), body and decoded headers, whatever the
    upstream headers are. *)
Lemma handleResponseResult_response kong conf result :
  clientResponse (handleResponseResult kong conf result) =
    Some (match Atoi (SidebandResponseResult.ResponseCode result) with
          | Some n => n
          | None => 200
          end,
          Some (SidebandResponseResult.Body result),
          Some (FlattenHeaders (SidebandResponseResult.Headers result))).
Proof.
  unfold handleResponseResult.
  destruct (PDK.ServiceResponse_GetHeaders kong);
    by rewrite ?upstreamHeaderLoop_makes_no_call.
Qed.

(** C1 (the code departs from it): the upstream response carries [Date], a
    name of [preservedResponseHeaders]; the provider's result of scenario 1
    does not return it; the response built for the client has the
    provider's status, body and headers, and no [date] header. *)
Theorem handleResponseResult_drops_preserved_header :
  PDK.ServiceResponse_GetHeaders (sampleKong "" noContext) =
    Ok [("Date", ["Tue, 01 Jan 2030 00:00:00 GMT"]); ("Content-Type", ["text/plain"])] /\
  preservedResponseHeaders (ToLower "Date") = true /\
  exists headers : gmap string (list string),
    clientResponse
      (handleResponseResult (sampleKong "" noContext) defaultConfig sampleResult)
    = Some (200, Some "{}", Some headers) /\
    headers = {[ "content-type" := ["application/json"] ]} /\
    headers !! "date" = None.
Proof.
  split; [reflexivity|]. split; [reflexivity|].
  eexists. split; [apply handleResponseResult_response|].
  split; [reflexivity|]. reflexivity.
Qed.

Section Theorems.
Context {J : EncodingJSON} {C : Collaborators}.

(* --------------------------------------------------------------------- *)
(** ** SSE final-message extraction                                       *)
(* --------------------------------------------------------------------- *)

Lemma last_cons_default {A : Type} (x : A) (l : list A) (d : A) :
  List.last (x :: l) d = List.last l x.
Proof.
  revert x d. induction l as [|y l IH]; intros x d; [done|].
  change (List.last (x :: y :: l) d) with (List.last (y :: l) d).
  by rewrite !IH.
Qed.

Lemma len_zero s : (len s =? 0) = true <-> s = "".
Proof.
  unfold len. destruct s; simpl; [done|].
  split; intros H; discriminate.
Qed.

Lemma is_response_payload_eq data :
  is_response_payload data = (Valid data && isJsonRPCResponse data)%bool.
Proof.
  unfold is_response_payload, isJsonRPCResponse.
  destruct (Unmarshal_probe data) as [[jsonrpc id]|]; [|done].
  by rewrite Z.gtb_ltb.
Qed.

(** The loop over the lines keeps the last payload that is a response. *)
Lemma sse_loop_last lines : forall acc,
  fold_left sse_line lines acc =
  List.last
    (map Some
       (List.filter is_response_payload
          (map (fun line => TrimSpace (TrimPrefix (TrimSpace line) "data:"))
             (List.filter (fun line => HasPrefix (TrimSpace line) "data:") lines))))
    acc.
Proof.
  induction lines as [|line lines IH]; intros acc; simpl; [done|].
  rewrite IH. unfold sse_line.
  destruct (HasPrefix (TrimSpace line) "data:"); simpl; [|done].
  destruct (len _ =? 0) eqn:Hlen.
  - apply len_zero in Hlen. rewrite Hlen.
    unfold is_response_payload at 2. by rewrite Valid_empty.
  - rewrite <- is_response_payload_eq.
    destruct (is_response_payload _); [|done].
    simpl map. by rewrite last_cons_default.
Qed.

(** C6: ParseSSEFinalMessage returns its input when the content type does
    not begin with [text/event-stream] (after trimming and lower-casing);
    otherwise it returns the last payload of a [data:] line that is valid
    JSON with jsonrpc "2.0" and a non-empty id, and its input when there is
    no such payload. *)
Theorem ParseSSEFinalMessage_spec (body contentType : string) :
  ParseSSEFinalMessage body contentType = sse_final_message_spec body contentType.
Proof.
  unfold ParseSSEFinalMessage, sse_final_message_spec, isSSEContentType.
  destruct (HasPrefix _ "text/event-stream"); simpl; [|done].
  destruct (len body =? 0) eqn:Hlen.
  - apply len_zero in Hlen. by subst body.
  - unfold sse_payloads. by rewrite sse_loop_last.
Qed.

(* --------------------------------------------------------------------- *)
(** ** Modified request bodies                                            *)
(* --------------------------------------------------------------------- *)

Lemma updateBody_calls kong conf resp payload call :
  call ∈ updateBody kong conf resp payload ->
  (exists msg, call = Log LevelWarn msg) \/
  (exists b, call = ServiceRequest_SetRawBody b /\
             SidebandAccessResponse.Body resp = Some b).
Proof.
  unfold updateBody.
  destruct (SidebandAccessResponse.Body resp) as [respBody|]; [|by intros ?%elem_of_nil].
  destruct (negb _); [|by intros ?%elem_of_nil].
  destruct (Config.EnableMCP conf), (SidebandAccessRequest.MCP payload) as [mcpCtx|];
    try (intros ->%list_elem_of_singleton; right; eauto).
  unfold ensureValidJsonRPC.
  destruct (Unmarshal_JsonRPCRequest respBody) as [rpc|]; [destruct (negb _)|]; simpl.
  all: rewrite ?elem_of_cons, ?elem_of_nil; intros H; destruct_or?; simplify_eq; eauto.
Qed.

(** C10: ensureValidJsonRPC returns its argument on each of its three
    paths; every body updateRequest installs is therefore the body the
    provider returned, and it is installed whenever the provider returned one
    that differs from the current body (and the current headers could be
    read). *)
Theorem ensureValidJsonRPC_identity (body : string) (mcpCtx : MCPContext.t) :
  (ensureValidJsonRPC body mcpCtx).1 = body /\
  (forall kong conf resp payload b,
     ServiceRequest_SetRawBody b ∈ updateBody kong conf resp payload ->
     SidebandAccessResponse.Body resp = Some b) /\
  (forall kong conf resp payload currentHeaders b,
     PDK.Request_GetHeaders kong = Ok currentHeaders ->
     SidebandAccessResponse.Body resp = Some b ->
     b <> orZero "" (PDK.Request_GetRawBody kong) ->
     ServiceRequest_SetRawBody b ∈ updateRequest kong conf resp payload).
Proof.
  split; [|split].
  - unfold ensureValidJsonRPC.
    destruct (Unmarshal_JsonRPCRequest body) as [rpc|]; [|done].
    by destruct (negb _).
  - intros kong conf resp payload b Hin.
    apply updateBody_calls in Hin as [[msg Hmsg]|(b' & Hb & Hresp)]; congruence.
  - intros kong conf resp payload currentHeaders b Hh Hb Hne.
    unfold updateRequest. rewrite Hh. rewrite !elem_of_app. repeat right.
    unfold updateBody. rewrite Hb.
    destruct (String.eqb_spec b (orZero "" (PDK.Request_GetRawBody kong))); [done|].
    simpl. destruct (Config.EnableMCP conf), (SidebandAccessRequest.MCP payload);
      try (apply list_elem_of_singleton; done).
    unfold ensureValidJsonRPC.
    destruct (Unmarshal_JsonRPCRequest b) as [rpc|]; [destruct (negb _)|]; simpl;
      rewrite ?elem_of_cons; auto.
Qed.

End Theorems.

Section PayloadTheorems.
Context {J : EncodingJSON} {C : Collaborators}.

(* --------------------------------------------------------------------- *)
(** ** Access payload: size enforcement                                   *)
(* --------------------------------------------------------------------- *)

Lemma string_take_length n s :
  String.length (string_take n s) = Nat.min n (String.length s).
Proof.
  revert s. induction n as [|n IH]; intros [|c s]; simpl; auto.
Qed.

Lemma TruncateBody_cases body maxBytes :
  (1 <= maxBytes < len body ->
   TruncateBody body maxBytes =
     string_take (Z.to_nat maxBytes) body +:+ truncationMarker (len body) /\
   len (string_take (Z.to_nat maxBytes) body) = maxBytes) /\
  (maxBytes < 1 \/ len body <= maxBytes -> TruncateBody body maxBytes = body).
Proof.
  unfold TruncateBody, truncationMarker. split.
  - intros [H1 H2].
    destruct (Z.leb_spec maxBytes 0); [lia|].
    destruct (Z.leb_spec (len body) maxBytes); [lia|]. simpl. split; [done|].
    unfold len in *. rewrite string_take_length. lia.
  - intros [H|H].
    + destruct (Z.leb_spec maxBytes 0); [done | lia].
    + destruct (Z.leb_spec (len body) maxBytes); [|lia].
      by rewrite orb_true_r.
Qed.

(** C8, as amended: composeAccessPayload returns the assembled payload with
    at most its body changed; the MCP context, the extracted headers, the
    header list and every other field are those assembled.  When the limit
    is positive and the serialized payload is larger, the body becomes
    [TruncateBody(body, limit/2)]: its first [limit/2] bytes followed by the
    truncation marker when [1 <= limit/2 < len(body)], and the body itself
    otherwise.  When the limit is not positive, or the serialized payload is
    not larger, or cannot be serialized, the payload is unchanged. *)
Theorem composeAccessPayload_truncation (kong : PDK.t) (conf : Config.t) :
  match assembleAccessPayload kong conf with
  | Err e => composeAccessPayload kong conf = Err e
  | Ok req =>
      exists req',
        composeAccessPayload kong conf = Ok req' /\
        req' = setBody req (SidebandAccessRequest.Body req') /\
        SidebandAccessRequest.MCP req' = SidebandAccessRequest.MCP req /\
        SidebandAccessRequest.ExtractedHeaders req'
          = SidebandAccessRequest.ExtractedHeaders req /\
        SidebandAccessRequest.Headers req' = SidebandAccessRequest.Headers req /\
        (forall payloadBytes,
           0 < Config.MaxSidebandBodyBytes conf ->
           Marshal_SidebandAccessRequest req = Ok payloadBytes ->
           Config.MaxSidebandBodyBytes conf < len payloadBytes ->
           (1 <= Config.MaxSidebandBodyBytes conf / 2
              < len (SidebandAccessRequest.Body req) ->
            SidebandAccessRequest.Body req' =
              string_take (Z.to_nat (Config.MaxSidebandBodyBytes conf / 2))
                (SidebandAccessRequest.Body req)
              +:+ truncationMarker (len (SidebandAccessRequest.Body req)) /\
            len (string_take (Z.to_nat (Config.MaxSidebandBodyBytes conf / 2))
                   (SidebandAccessRequest.Body req))
              = Config.MaxSidebandBodyBytes conf / 2) /\
           (Config.MaxSidebandBodyBytes conf / 2 < 1 \/
            len (SidebandAccessRequest.Body req)
              <= Config.MaxSidebandBodyBytes conf / 2 ->
            SidebandAccessRequest.Body req' = SidebandAccessRequest.Body req)) /\
        (Config.MaxSidebandBodyBytes conf <= 0 \/
         (exists payloadBytes,
            Marshal_SidebandAccessRequest req = Ok payloadBytes /\
            len payloadBytes <= Config.MaxSidebandBodyBytes conf) \/
         (exists e, Marshal_SidebandAccessRequest req = Err e) ->
         req' = req)
  end.
Proof.
  unfold composeAccessPayload.
  destruct (assembleAccessPayload kong conf) as [req|e]; [|done]. simpl.
  exists (payloadSizeEnforcement conf req). split; [done|].
  unfold payloadSizeEnforcement.
  destruct (Z.gtb_spec (Config.MaxSidebandBodyBytes conf) 0) as [Hpos|Hnpos].
  2: { repeat split; try (by destruct req). all: intros; lia. }
  destruct (Marshal_SidebandAccessRequest req) as [bytes|e] eqn:Hm.
  2: { repeat split; try (by destruct req). all: by intros ? _ [=]. }
  destruct (Z.gtb_spec (len bytes) (Config.MaxSidebandBodyBytes conf)) as [Hbig|Hsmall].
  - split; [done|]. split; [done|]. split; [done|]. split; [done|]. split.
    + intros payloadBytes _ [= <-] _. simpl.
      rewrite Z.quot_div_nonneg by lia. apply TruncateBody_cases.
    + intros [H|[(b & [= <-] & H)|(e & [=])]]; lia.
  - split; [by destruct req|]. do 3 (split; [done|]). split.
    + intros payloadBytes _ [= <-] ?. lia.
    + done.
Qed.

(* --------------------------------------------------------------------- *)
(** ** Response payload: state or request                                 *)
(* --------------------------------------------------------------------- *)

Lemma composeResponsePayload_state_request kong conf originalRequest state payload :
  composeResponsePayload kong conf originalRequest state = Ok payload ->
  (0 < raw_len state ->
   SidebandResponsePayload.State payload = state /\
   SidebandResponsePayload.Request payload = None) /\
  (raw_len state <= 0 ->
   SidebandResponsePayload.State payload = None /\
   SidebandResponsePayload.Request payload = originalRequest).
Proof.
  unfold composeResponsePayload.
  destruct (PDK.Request_GetMethod kong); simpl; [|done].
  destruct (buildForwardedURL kong); simpl; [|done].
  destruct (PDK.ServiceResponse_GetRawBody kong); simpl; [|done].
  destruct (PDK.ServiceResponse_GetStatus kong); simpl; [|done].
  destruct (PDK.ServiceResponse_GetHeaders kong) as [hs|]; simpl; [|done].
  destruct (FormatHeaders hs); simpl; [|done].
  destruct (getHTTPVersion kong); simpl; [|done].
  intros [= <-].
  destruct (Z.gtb_spec (raw_len state) 0) as [Hs|Hs].
  - split; [|lia]. intros _.
    destruct (Config.EnableMCP conf); [|done].
    destruct (ParseMCPRequest _); [done|]. by destruct (originalMCP _).
  - split; [lia|]. intros _.
    destruct originalRequest as [req|];
      (destruct (Config.EnableMCP conf); [|done]);
      (destruct (ParseMCPRequest _); [done|]); simpl;
      by destruct (SidebandAccessRequest.MCP _) || done.
Qed.

Lemma loadPerRequestContext_state kong req state :
  loadPerRequestContext kong = Ok (req, state) ->
  state = None \/ 0 < raw_len state.
Proof.
  unfold loadPerRequestContext.
  destruct (PDK.Ctx_GetSharedString kong "paz_original_request") as [reqStr|];
    simpl; [|done].
  destruct (negb (String.eqb reqStr "")); simpl.
  - destruct (Unmarshal_SidebandAccessRequest reqStr); simpl; [|done].
    intros [= _ <-].
    destruct (PDK.Ctx_GetSharedString kong "paz_state") as [s|]; [|by left].
    destruct s; simpl; [by left|]. right. unfold len. simpl. lia.
  - intros [= _ <-].
    destruct (PDK.Ctx_GetSharedString kong "paz_state") as [s|]; [|by left].
    destruct s; simpl; [by left|]. right. unfold len. simpl. lia.
Qed.

(** C9: a composed response payload never has both a state and a request.
    With a non-empty state it has that state and no request; otherwise it
    has no state and the original request it was given, which in the
    response phase is the request loadPerRequestContext restored (never
    nil). *)
Theorem composeResponsePayload_state_xor_request (kong : PDK.t) (conf : Config.t) :
  (forall originalRequest state payload,
     composeResponsePayload kong conf originalRequest state = Ok payload ->
     (0 < raw_len state ->
      SidebandResponsePayload.State payload = state /\
      SidebandResponsePayload.Request payload = None) /\
     (raw_len state <= 0 ->
      SidebandResponsePayload.State payload = None /\
      SidebandResponsePayload.Request payload = originalRequest)) /\
  (forall payload,
     responsePhasePayload kong conf = Ok payload ->
     exists req state,
       loadPerRequestContext kong = Ok (req, state) /\
       ((0 < raw_len state /\
         SidebandResponsePayload.State payload = state /\
         SidebandResponsePayload.Request payload = None) \/
        (state = None /\
         SidebandResponsePayload.State payload = None /\
         SidebandResponsePayload.Request payload = Some req))).
Proof.
  split.
  - intros originalRequest state payload. apply composeResponsePayload_state_request.
  - intros payload. unfold responsePhasePayload.
    destruct (loadPerRequestContext kong) as [[req state]|] eqn:Hload; simpl; [|done].
    intros Hp. exists req, state. split; [done|].
    apply composeResponsePayload_state_request in Hp as [Hstate Hreq].
    destruct (loadPerRequestContext_state _ _ _ Hload) as [->|Hlen].
    + right. split; [done|]. apply Hreq. simpl. lia.
    + left. split; [done|]. by apply Hstate.
Qed.

End PayloadTheorems.

(** C8 as stated fails when the body is no longer than half the limit: with
    a limit of 100 bytes the serialized payload of 171 bytes is over the
    limit, and its 2-byte body is returned as it is, without a marker. *)
Lemma small_body_is_not_truncated :
  (exists payloadBytes,
     @Marshal_SidebandAccessRequest MiniJSON (samplePayload "ok" None)
       = Ok payloadBytes /\
     len payloadBytes = 171) /\
  0 < Config.MaxSidebandBodyBytes (sizeLimitConfig 100) < 171 /\
  SidebandAccessRequest.Body
    (@payloadSizeEnforcement MiniJSON (sizeLimitConfig 100) (samplePayload "ok" None))
    = "ok" /\
  "ok" <> string_take (Z.to_nat (100 / 2)) "ok" +:+ truncationMarker (len "ok").
Proof.
  split; [eexists; split; [reflexivity | vm_compute; reflexivity]|].
  split; [simpl; lia|]. split; [vm_compute; reflexivity|].
  vm_compute. congruence.
Qed.

Example TruncateBody_example :
  TruncateBody "abcdefghij" 4 = "abcd... [truncated, 10 bytes]" /\
  TruncateBody "abcd" 4 = "abcd" /\ TruncateBody "abcdefghij" 0 = "abcdefghij".
Proof. repeat split; reflexivity. Qed.

(** C9 in the two situations of the response phase: the access phase stored
    no state, and it stored the state [{}]. *)
Lemma composeResponsePayload_state_xor_request_witness :
  (exists payload,
     @responsePhasePayload MiniJSON SampleCollaborators
       (sampleKong "" noContext) defaultConfig = Ok payload /\
     SidebandResponsePayload.State payload = None /\
     SidebandResponsePayload.Request payload = Some zeroAccessRequest) /\
  (exists payload,
     @responsePhasePayload MiniJSON SampleCollaborators
       (sampleKong "" stateContext) defaultConfig = Ok payload /\
     SidebandResponsePayload.State payload = Some "{}" /\
     SidebandResponsePayload.Request payload = None).
Proof.
  split.
  - eexists. split; [reflexivity|].
    destruct (proj2 (@composeResponsePayload_state_xor_request MiniJSON
                       SampleCollaborators (sampleKong "" noContext) defaultConfig)
                _ eq_refl) as (req & state & [= <- <-] & [(H & _)|(_ & H1 & H2)]).
    + simpl in H. lia.
    + split; assumption.
  - eexists. split; [reflexivity|].
    destruct (proj2 (@composeResponsePayload_state_xor_request MiniJSON
                       SampleCollaborators (sampleKong "" stateContext) defaultConfig)
                _ eq_refl) as (req & state & [= <- <-] & [(_ & H1 & H2)|(H & _)]).
    + split; assumption.
    + discriminate.
Defined.

(* --------------------------------------------------------------------- *)
(** ** JSON-RPC error bodies                                              *)
(* --------------------------------------------------------------------- *)

(** httpStatusToJsonRPCError is the table of the specification. *)
Lemma httpStatusToJsonRPCError_table statusCode :
  httpStatusToJsonRPCError statusCode = jsonrpc_code_table statusCode.
Proof.
  unfold httpStatusToJsonRPCError, jsonrpc_code_table.
  repeat match goal with
         | |- context [?a =? ?b] => destruct (Z.eqb_spec a b)
         | |- context [?a >=? ?b] => destruct (Z.geb_spec a b)
         | |- context [?a <? ?b] => destruct (Z.ltb_spec a b)
         end; simpl; repeat case_decide; (reflexivity || lia).
Qed.

(** Marshal writes a stable raw value back byte for byte. *)
Lemma compact_from_stable src : forall inStr esc,
  raw_stable_from inStr esc src = true -> compact_from inStr esc 0 src = src.
Proof.
  induction src as [|c rest IH]; intros inStr esc H; [done|].
  cbn [raw_stable_from] in H. cbn [compact_from].
  apply andb_prop in H as [H1 H3]. apply andb_prop in H1 as [Hh Hl].
  apply negb_true_iff in Hh. rewrite Hh.
  destruct (line_separator (String c rest)); [done|].
  destruct inStr.
  - destruct esc; [by rewrite IH|].
    destruct (Ascii.eqb c "\"%char); [by rewrite IH|].
    destruct (Ascii.eqb c dq); by rewrite IH.
  - destruct (Ascii.eqb c dq); [by rewrite IH|].
    apply andb_prop in H3 as [Hs H3]. apply negb_true_iff in Hs.
    rewrite Hs. by rewrite IH.
Qed.

Lemma compact_stable src : raw_stable src = true -> compact src = src.
Proof. apply compact_from_stable. Qed.

Lemma compact_from_skip2 inStr esc c1 c2 rest :
  compact_from inStr esc 2 (String c1 (String c2 rest))
  = compact_from inStr false 0 rest.
Proof. reflexivity. Qed.

(** Go's one-pass [appendCompact] is the two passes of [id_as_written]. *)
Lemma compact_from_two_pass (n : nat) : forall src inStr esc,
  (String.length src <= n)%nat ->
  compact_from inStr esc 0 src = drop_outer_space inStr esc (escape_chars src).
Proof.
  induction n as [|n IH]; intros src inStr esc Hlen.
  { destruct src; [done|simpl in Hlen; lia]. }
  destruct src as [|c rest]; [done|]. simpl in Hlen.
  assert (forall i e, compact_from i e 0 rest
                      = drop_outer_space i e (escape_chars rest)) as IHrest.
  { intros i e. apply IH. lia. }
  cbn [compact_from escape_chars].
  destruct (is_html_byte c) eqn:Hhtml.
  { assert (c = "<"%char \/ c = ">"%char \/ c = "&"%char) as Hc.
    { destruct c as [[] [] [] [] [] [] [] []]; try discriminate Hhtml; auto. }
    destruct Hc as [-> | [-> | ->]]; cbn [Ascii.eqb Bool.eqb];
      rewrite IHrest; destruct inStr, esc; reflexivity. }
  assert (Ascii.eqb c "<" = false /\ Ascii.eqb c ">" = false
          /\ Ascii.eqb c "&" = false) as (-> & -> & ->).
  { destruct c as [[] [] [] [] [] [] [] []]; try discriminate Hhtml; auto. }
  destruct rest as [|c1 [|c2 rest']].
  - cbn [line_separator escape_chars compact_from drop_outer_space].
    destruct inStr, esc; repeat case_match; reflexivity.
  - cbn [line_separator drop_outer_space].
    destruct inStr, esc; repeat case_match; rewrite ?IHrest; reflexivity.
  - assert (forall i e, compact_from i e 0 rest'
                        = drop_outer_space i e (escape_chars rest')) as IHrest'.
    { intros i e. apply IH. simpl in Hlen. lia. }
    cbn [line_separator].
    destruct (Ascii.eqb c "226" && Ascii.eqb c1 "128" && Ascii.eqb c2 "168")%bool
      eqn:H8.
    { apply andb_prop in H8 as [H8 Hc2]. apply andb_prop in H8 as [Hc Hc1].
      apply Ascii.eqb_eq in Hc, Hc1, Hc2. subst c c1 c2.
      cbn -[compact_from drop_outer_space escape_chars String.append].
      rewrite compact_from_skip2, IHrest'.
      destruct inStr, esc; reflexivity. }
    destruct (Ascii.eqb c "226" && Ascii.eqb c1 "128" && Ascii.eqb c2 "169")%bool
      eqn:H9.
    { apply andb_prop in H9 as [H9 Hc2]. apply andb_prop in H9 as [Hc Hc1].
      apply Ascii.eqb_eq in Hc, Hc1, Hc2. subst c c1 c2.
      cbn -[compact_from drop_outer_space escape_chars String.append].
      rewrite compact_from_skip2, IHrest'.
      destruct inStr, esc; reflexivity. }
    assert (((nat_of_ascii c =? 226)%nat && (nat_of_ascii c1 =? 128)%nat
             && ((nat_of_ascii c2 =? 168)%nat || (nat_of_ascii c2 =? 169)%nat))%bool
            = false) as ->.
    { apply not_true_is_false. intros H.
      apply andb_prop in H as [H Hc2]. apply andb_prop in H as [Hc Hc1].
      apply Nat.eqb_eq in Hc, Hc1.
      apply (f_equal ascii_of_nat) in Hc, Hc1. rewrite ascii_nat_embedding in Hc, Hc1.
      subst c c1. apply orb_prop in Hc2 as [Hc2|Hc2]; apply Nat.eqb_eq in Hc2;
        apply (f_equal ascii_of_nat) in Hc2; rewrite ascii_nat_embedding in Hc2;
        subst c2; discriminate. }
    cbn [drop_outer_space].
    destruct inStr, esc; repeat case_match; rewrite ?IHrest; reflexivity.
Qed.

Lemma compact_id_as_written (b : string) : compact b = id_as_written b.
Proof. apply (compact_from_two_pass (String.length b)). lia. Qed.

Lemma id_as_written_stable (b : string) : raw_stable b = true -> id_as_written b = b.
Proof. intros H. rewrite <- compact_id_as_written. by apply compact_stable. Qed.

Lemma string_forallb_app (p : ascii -> bool) (s t : string) :
  string_forallb p (s +:+ t) = (string_forallb p s && string_forallb p t)%bool.
Proof.
  induction s as [|c s IH]; [done|].
  change (String c s +:+ t) with (String c (s +:+ t)).
  cbn [string_forallb]. by rewrite IH, andb_assoc.
Qed.

(** The text of a number has only digits and a sign. *)
Lemma Itoa_plain (n : Z) : string_forallb json_plain (Itoa n) = true.
Proof.
  assert (forall d, string_forallb json_plain (NilEmpty.string_of_uint d) = true) as Hd.
  { induction d; cbn [NilEmpty.string_of_uint string_forallb]; rewrite ?IHd; done. }
  assert (forall d, string_forallb json_plain (NilZero.string_of_uint d) = true) as Hz.
  { intros d. destruct d; try apply Hd. reflexivity. }
  unfold Itoa, NilZero.string_of_int.
  destruct (Z.to_int n); cbn [string_forallb]; by rewrite Hz.
Qed.

Section ErrorBodies.
Context {J : EncodingJSON} {C : Collaborators}.

(** The body formatMCPDenyResponse renders, for every id: [null] for a nil
    id; the id as it is written for an id that is valid JSON; and no body at
    all when Marshal refuses the id. *)
Lemma formatMCPDenyResponse_body statusCode message (jsonrpcID : RawMessage) :
  formatMCPDenyResponse statusCode message jsonrpcID =
    match jsonrpcID with
    | None =>
        Some (jsonrpc_error_body "null" (jsonrpc_code_table statusCode) message)
    | Some b =>
        if Valid b
        then Some (jsonrpc_error_body (id_as_written b)
                     (jsonrpc_code_table statusCode) message)
        else None
    end.
Proof.
  unfold formatMCPDenyResponse, Marshal_JsonRPCError, jsonrpc_error_body.
  rewrite httpStatusToJsonRPCError_table. cbn [JsonRPCError.ID JsonRPCError.Jsonrpc
    JsonRPCError.Error JsonRPCErrorDetail.Code JsonRPCErrorDetail.Message].
  rewrite (EncodeString_plain "2.0") by reflexivity.
  destruct jsonrpcID as [b|]; cbn [Marshal_RawMessage]; [|reflexivity].
  destruct (Valid b); [|reflexivity]. by rewrite compact_id_as_written.
Qed.

(** C7, as amended: a denial of an MCP request with [mcp_jsonrpc_errors]
    enabled is answered with the deny status (403 when it is not a number),
    the single header [Content-Type: application/json] (the headers of the
    denial are not used), and, whatever the id of the request is, the body
    [{"jsonrpc":"2.0","id":ID,"error":{"code":C,"message":M}}] where C is the
    table's code for the status, M the deny body as a JSON string, and ID the
    original id: [null] when absent, and otherwise its bytes with each of
    [<], [>], [&], U+2028, U+2029 written as its escape and the white space
    outside string literals dropped, so that an id with none of these is
    reproduced byte for byte.  Only an id that is not valid JSON, which
    Marshal refuses, leaves the body empty. *)
Theorem handleAccessResponse_mcp_deny (kong : PDK.t) (conf : Config.t)
  (resp : SidebandAccessResponse.t) (payload : SidebandAccessRequest.t)
  (deny : DenyResponse.t) (mcp : MCPContext.t) :
  SidebandAccessResponse.Response resp = Some deny ->
  SidebandAccessRequest.MCP payload = Some mcp ->
  Config.MCPJsonrpcErrors conf = true ->
  let status := default 403 (Atoi (DenyResponse.ResponseCode deny)) in
  let errorBody := fun idText : string =>
    go_lit "{'jsonrpc':'2.0','id':" +:+ idText
    +:+ go_lit ",'error':{'code':" +:+ Itoa (jsonrpc_code_table status)
    +:+ go_lit ",'message':" +:+ EncodeString (DenyResponse.Body deny) +:+ "}}" in
  clientResponse (handleAccessResponse kong conf resp payload).1 =
    Some (status,
          match MCPContext.JsonrpcID mcp with
          | None => Some (errorBody "null")
          | Some b => if Valid b then Some (errorBody (id_as_written b)) else None
          end,
          Some {[ "Content-Type" := ["application/json"] ]}) /\
  (forall b, MCPContext.JsonrpcID mcp = Some b -> raw_stable b = true ->
     id_as_written b = b).
Proof.
  intros Hdeny Hmcp Hflag status errorBody. split.
  - unfold handleAccessResponse.
    rewrite Hdeny, Hmcp, Hflag. cbn [fst clientResponse].
    rewrite formatMCPDenyResponse_body.
    unfold jsonrpc_error_body, errorBody, status. by destruct (Atoi _).
  - intros b _. apply id_as_written_stable.
Qed.

End ErrorBodies.

(** C7 at scenario 4, where the request had id 1 and the provider denied it
    with 403, and for the same denial of a request whose id is the string
    [<]. *)
Lemma handleAccessResponse_mcp_deny_witness :
  clientResponse
    (@handleAccessResponse MiniJSON SampleCollaborators (sampleKong "" noContext)
       retryConfig sampleDeny (samplePayload "" (Some (mcpWithID (Some "1"))))).1 =
    Some (403,
          Some (go_lit "{'jsonrpc':'2.0','id':1,'error':{'code':-32600,'message':'denied'}}"),
          Some {[ "Content-Type" := ["application/json"] ]}) /\
  clientResponse
    (@handleAccessResponse MiniJSON SampleCollaborators (sampleKong "" noContext)
       retryConfig sampleDeny
       (samplePayload "" (Some (mcpWithID (Some (quoted "<")))))).1 =
    Some (403,
          Some (go_lit "{'jsonrpc':'2.0','id':'\u003c','error':{'code':-32600,'message':'denied'}}"),
          Some {[ "Content-Type" := ["application/json"] ]}).
Proof.
  split.
  - exact (proj1 (@handleAccessResponse_mcp_deny MiniJSON SampleCollaborators
                    (sampleKong "" noContext) retryConfig sampleDeny
                    (samplePayload "" (Some (mcpWithID (Some "1")))) sampleDenyResponse
                    (mcpWithID (Some "1")) eq_refl eq_refl eq_refl)).
  - exact (proj1 (@handleAccessResponse_mcp_deny MiniJSON SampleCollaborators
                    (sampleKong "" noContext) retryConfig sampleDeny
                    (samplePayload "" (Some (mcpWithID (Some (quoted "<")))))
                    sampleDenyResponse
                    (mcpWithID (Some (quoted "<"))) eq_refl eq_refl eq_refl)).
Defined.

(** C7 as stated fails on a request whose id is a string with the character
    [<]: ParseMCPRequest keeps the id as the three bytes it found (a quote,
    [<], a quote), and Marshal writes the [<] as a six-byte escape, so the id
    in the error body has eight bytes. *)
Lemma mcp_deny_escapes_html_in_id :
  option_map MCPContext.JsonrpcID (@ParseMCPRequest MiniJSON htmlIdBody)
    = Some (Some (quoted "<")) /\
  clientResponse
    (@handleAccessResponse MiniJSON SampleCollaborators
       (sampleKong htmlIdBody noContext) retryConfig sampleDeny
       (samplePayload htmlIdBody (@ParseMCPRequest MiniJSON htmlIdBody))).1 =
    Some (403,
          Some (go_lit "{'jsonrpc':'2.0','id':'\u003c','error':{'code':-32600,'message':'denied'}}"),
          Some {[ "Content-Type" := ["application/json"] ]}) /\
  go_lit "{'jsonrpc':'2.0','id':'\u003c','error':{'code':-32600,'message':'denied'}}"
  <> go_lit "{'jsonrpc':'2.0','id':" +:+ quoted "<"
     +:+ go_lit ",'error':{'code':-32600,'message':'denied'}}".
Proof.
  split; [vm_compute; reflexivity|]. split; [vm_compute; reflexivity|].
  vm_compute. congruence.
Qed.

(* --------------------------------------------------------------------- *)
(** ** Rate-limit trips                                                   *)
(* --------------------------------------------------------------------- *)

Lemma Milliseconds_bound d :
  - 2 ^ 63 <= d < 2 ^ 63 ->
  - 9223372036855 < Milliseconds d < 9223372036855.
Proof.
  intros Hd. unfold Milliseconds, Millisecond.
  pose proof (Z.quot_rem' d 1000000) as E.
  destruct (Z_le_gt_dec 0 d).
  - pose proof (Z.rem_bound_pos d 1000000 ltac:(lia) ltac:(lia)). lia.
  - pose proof (Z.rem_bound_pos_neg d 1000000 ltac:(lia) ltac:(lia)). lia.
Qed.

(** The error of an open breaker carries a number of milliseconds far from
    the ends of the 64-bit range. *)
Lemma Allow_RemainingMs cb t ok cbErr cb' :
  Allow cb t = (ok, Some cbErr, cb') ->
  - 9223372036855 < CircuitBreakerOpenError.RemainingMs cbErr < 9223372036855.
Proof.
  unfold Allow. repeat case_match; intros [= <- <- <-]; simpl.
  apply Milliseconds_bound, wrap64_range.
Qed.

(** [(ms + 999) / 1000], at least 1, is the ceiling of [ms / 1000], at
    least 1. *)
Lemma remainingSeconds_ceil cbErr :
  - 2 ^ 62 < CircuitBreakerOpenError.RemainingMs cbErr < 2 ^ 62 ->
  remainingSeconds cbErr =
    ceil_seconds_min1 (CircuitBreakerOpenError.RemainingMs cbErr).
Proof.
  unfold remainingSeconds, ceil_seconds_min1.
  set (r := CircuitBreakerOpenError.RemainingMs cbErr). intros Hr.
  rewrite wrap64_id by lia.
  pose proof (Z.div_mod (- r) 1000 ltac:(lia)) as E2.
  pose proof (Z.mod_pos_bound (- r) 1000 ltac:(lia)) as B2.
  destruct (Z_le_gt_dec 0 (r + 999)).
  - rewrite Z.quot_div_nonneg by lia.
    pose proof (Z.div_mod (r + 999) 1000 ltac:(lia)) as E1.
    pose proof (Z.mod_pos_bound (r + 999) 1000 ltac:(lia)) as B1.
    destruct (Z.ltb_spec ((r + 999) / 1000) 1); lia.
  - pose proof (Z.quot_rem' (r + 999) 1000) as E1.
    pose proof (Z.rem_bound_pos_neg (r + 999) 1000 ltac:(lia) ltac:(lia)).
    destruct (Z.ltb_spec (Z.quot (r + 999) 1000) 1); lia.
Qed.

Section RateLimit.
Context {J : EncodingJSON} {C : Collaborators}.

(** The response-phase handler does what the access-phase handler does,
    with the MCP context of the original request when there is one. *)
Lemma handleCircuitBreakerErrorResponse_access cbErr conf req :
  handleCircuitBreakerErrorResponse cbErr conf (Some req) =
  handleCircuitBreakerError cbErr conf req.
Proof. reflexivity. Qed.

(** C2, as amended: an open breaker whose trigger is the rate limit is
    answered, in both phases, with status 429 and the headers
    [Content-Type: application/json] and [Retry-After: N], where
    N = ceil(remaining_ms / 1000), at least 1.  The body is
    [{"code":"LIMIT_EXCEEDED","message":"The request exceeded the allowed
    rate limit. Please try after N second."}] unless [mcp_jsonrpc_errors] is
    enabled and the request is MCP; then it is the JSON-RPC error
    [{"jsonrpc":"2.0","id":ID,"error":{"code":-32000,"message":"Service
    temporarily unavailable. Retry after N seconds."}}] where ID is the id of
    the request as it is written: [null] when absent, its own bytes when it
    has nothing to escape.  Only an id that is not valid JSON, which Marshal
    refuses, leaves the body empty. *)
Theorem rate_limit_trip_response (cb : CircuitBreaker.t) (t : Z)
  (cbErr : CircuitBreakerOpenError.t) (cb' : CircuitBreaker.t) (conf : Config.t) :
  Allow cb t = (false, Some cbErr, cb') ->
  CircuitBreakerOpenError.Trigger cbErr = Trigger429 ->
  let n := ceil_seconds_min1 (CircuitBreakerOpenError.RemainingMs cbErr) in
  let limitBody :=
    go_lit "{'code':'LIMIT_EXCEEDED','message':'The request exceeded the allowed rate limit. Please try after "
    +:+ Itoa n +:+ go_lit " second.'}" in
  let errorBody := fun idText : string =>
    go_lit "{'jsonrpc':'2.0','id':" +:+ idText
    +:+ go_lit ",'error':{'code':-32000,'message':"
    +:+ quoted ("Service temporarily unavailable. Retry after "
                +:+ Itoa n +:+ " seconds.") +:+ "}}" in
  let answer := fun mcp : option MCPContext.t =>
    [Response_Exit 429
       (match (if Config.MCPJsonrpcErrors conf then mcp else None) with
        | None => Some limitBody
        | Some ctx =>
            match MCPContext.JsonrpcID ctx with
            | None => Some (errorBody "null")
            | Some b =>
                if Valid b then Some (errorBody (id_as_written b)) else None
            end
        end)
       (Some (rateLimitHeaders n))] in
  (forall payload,
     handleCircuitBreakerError cbErr conf payload
     = answer (SidebandAccessRequest.MCP payload)) /\
  (forall originalRequest,
     handleCircuitBreakerErrorResponse cbErr conf originalRequest
     = answer (originalMCP originalRequest)) /\
  (forall b, raw_stable b = true -> id_as_written b = b).
Proof.
  intros Hallow Htrig n limitBody errorBody answer.
  assert (remainingSeconds cbErr = n) as Hn.
  { apply remainingSeconds_ceil. pose proof (Allow_RemainingMs _ _ _ _ _ Hallow). lia. }
  assert (forall mcp,
            match Config.MCPJsonrpcErrors conf, mcp with
            | true, Some ctx =>
                [Response_Exit 429
                   (formatMCPDenyResponse 429
                      ("Service temporarily unavailable. Retry after "
                       +:+ Itoa n +:+ " seconds.") (MCPContext.JsonrpcID ctx))
                   (Some (rateLimitHeaders n))]
            | _, _ =>
                [Response_Exit 429 (Some (limitExceededBody n))
                   (Some (rateLimitHeaders n))]
            end = answer mcp) as Hanswer.
  { intros mcp. unfold answer.
    destruct (Config.MCPJsonrpcErrors conf), mcp as [ctx|]; try reflexivity.
    rewrite formatMCPDenyResponse_body. unfold jsonrpc_error_body.
    rewrite (EncodeString_plain
               ("Service temporarily unavailable. Retry after "
                +:+ Itoa n +:+ " seconds.")).
    - destruct (MCPContext.JsonrpcID ctx) as [b|]; [destruct (Valid b)|]; reflexivity.
    - rewrite !string_forallb_app, Itoa_plain. reflexivity. }
  split; [|split].
  - intros payload. unfold handleCircuitBreakerError.
    destruct (decide _) as [_|]; [|done]. rewrite Hn. apply Hanswer.
  - intros originalRequest. unfold handleCircuitBreakerErrorResponse.
    destruct (decide _) as [_|]; [|done]. rewrite Hn. apply Hanswer.
  - apply id_as_written_stable.
Qed.

End RateLimit.

(** C2 at scenario 5: 1.5 s after a 429 with [Retry-After: 5] the breaker
    rejects the call with 3500 ms remaining, and the client is told 4, in
    the plain body and, for an MCP request with id 1, in the JSON-RPC
    error. *)
Lemma rate_limit_trip_response_witness :
  (Allow rateLimitedBreaker rateLimitedAt).1.2 =
    Some {| CircuitBreakerOpenError.Trigger := Trigger429;
            CircuitBreakerOpenError.RetryAfterSec := 5;
            CircuitBreakerOpenError.RemainingMs := 3500 |} /\
  @handleCircuitBreakerError MiniJSON
    {| CircuitBreakerOpenError.Trigger := Trigger429;
       CircuitBreakerOpenError.RetryAfterSec := 5;
       CircuitBreakerOpenError.RemainingMs := 3500 |}
    defaultConfig (samplePayload "" None) =
    [Response_Exit 429
       (Some (go_lit "{'code':'LIMIT_EXCEEDED','message':'The request exceeded the allowed rate limit. Please try after 4 second.'}"))
       (Some (rateLimitHeaders 4))] /\
  @handleCircuitBreakerErrorResponse MiniJSON
    {| CircuitBreakerOpenError.Trigger := Trigger429;
       CircuitBreakerOpenError.RetryAfterSec := 5;
       CircuitBreakerOpenError.RemainingMs := 3500 |}
    retryConfig (Some (samplePayload "" (Some (mcpWithID (Some "7"))))) =
    [Response_Exit 429
       (Some (go_lit "{'jsonrpc':'2.0','id':7,'error':{'code':-32000,'message':'Service temporarily unavailable. Retry after 4 seconds.'}}"))
       (Some (rateLimitHeaders 4))].
Proof.
  split; [reflexivity|]. split.
  - exact (proj1 (@rate_limit_trip_response MiniJSON
                    rateLimitedBreaker rateLimitedAt _ rateLimitedBreaker
                    defaultConfig eq_refl eq_refl)
             (samplePayload "" None)).
  - exact (proj1 (proj2 (@rate_limit_trip_response MiniJSON
                           rateLimitedBreaker rateLimitedAt _ rateLimitedBreaker
                           retryConfig eq_refl eq_refl))
             (Some (samplePayload "" (Some (mcpWithID (Some "7")))))).
Defined.

(** C2 as stated fails for an MCP request when [mcp_jsonrpc_errors] is
    enabled: the 429 then carries a JSON-RPC error, not the LIMIT_EXCEEDED
    body. *)
Lemma rate_limit_trip_mcp_body :
  Config.MCPJsonrpcErrors retryConfig = true /\
  @handleCircuitBreakerError MiniJSON
    {| CircuitBreakerOpenError.Trigger := Trigger429;
       CircuitBreakerOpenError.RetryAfterSec := 5;
       CircuitBreakerOpenError.RemainingMs := 3500 |}
    retryConfig (samplePayload "" (Some (mcpWithID (Some "1")))) =
    [Response_Exit 429
       (Some (go_lit "{'jsonrpc':'2.0','id':1,'error':{'code':-32000,'message':'Service temporarily unavailable. Retry after 4 seconds.'}}"))
       (Some (rateLimitHeaders 4))] /\
  go_lit "{'jsonrpc':'2.0','id':1,'error':{'code':-32000,'message':'Service temporarily unavailable. Retry after 4 seconds.'}}"
  <> go_lit "{'code':'LIMIT_EXCEEDED','message':'The request exceeded the allowed rate limit. Please try after 4 second.'}".
Proof.
  split; [reflexivity|]. split; [reflexivity|]. vm_compute. congruence.
Qed.

(* --------------------------------------------------------------------- *)
(** ** The tests of the repository and the scenarios of the specification *)
(* --------------------------------------------------------------------- *)

(** Names that collide after lower-casing are merged in the order of the
    iteration, so the decoded map depends on that order. *)
Example roundtrip_merges_colliding_names :
  (exists wire, FormatHeaders [("Accept", ["a"]); ("accept", ["b"])] = Ok wire /\
                FlattenHeaders wire = {[ "accept" := ["a"; "b"] ]}) /\
  (exists wire, FormatHeaders [("accept", ["b"]); ("Accept", ["a"])] = Ok wire /\
                FlattenHeaders wire = {[ "accept" := ["b"; "a"] ]}).
Proof. split; eexists; split; reflexivity. Qed.

Example TestFlattenHeaders_CaseNormalization :
  FlattenHeaders [[("Content-Type", "application/json")];
                  [("CONTENT-TYPE", "text/html")]]
  = {[ "content-type" := ["application/json"; "text/html"] ]}.
Proof. reflexivity. Qed.

Example TestIsSSEContentType :
  isSSEContentType "text/event-stream" = true /\
  isSSEContentType "text/event-stream; charset=utf-8" = true /\
  isSSEContentType "TEXT/EVENT-STREAM" = true /\
  isSSEContentType "  Text/Event-Stream" = true /\
  isSSEContentType "application/json" = false /\
  isSSEContentType "text/plain" = false /\
  isSSEContentType "" = false.
Proof. repeat split; reflexivity. Qed.

Example TestParseSSEFinalMessage :
  @ParseSSEFinalMessage MiniJSON
    (progressEvent +:+ progressEvent +:+ responseEvent) "text/event-stream"
  = go_lit "{'jsonrpc':'2.0','id':5,'result':{'content':[{'text':'hello'}]}}" /\
  @ParseSSEFinalMessage MiniJSON (responseEvent +:+ progressEvent) "text/event-stream"
  = go_lit "{'jsonrpc':'2.0','id':5,'result':{'content':[{'text':'hello'}]}}" /\
  @ParseSSEFinalMessage MiniJSON responseEvent "application/json" = responseEvent /\
  @ParseSSEFinalMessage MiniJSON "" "text/event-stream" = "" /\
  @ParseSSEFinalMessage MiniJSON (progressEvent +:+ progressEvent) "text/event-stream"
  = progressEvent +:+ progressEvent /\
  @ParseSSEFinalMessage MiniJSON ("data: not json content" +:+ newline) "text/event-stream"
  = "data: not json content" +:+ newline.
Proof. repeat split; vm_compute; reflexivity. Qed.

Example TestParseMCPRequest :
  @ParseMCPRequest MiniJSON toolsCallBody =
    Some {| MCPContext.Method := "tools/call";
            MCPContext.ToolName := "get_weather";
            MCPContext.ToolArguments := Some (go_lit "{'city':'London'}");
            MCPContext.ResourceURI := "";
            MCPContext.PromptName := "";
            MCPContext.JsonrpcID := Some "1" |} /\
  @ParseMCPRequest MiniJSON (go_lit "{'jsonrpc':'2.0','id':'req-001','method':'tools/list'}")
  = Some {| MCPContext.Method := "tools/list";
            MCPContext.ToolName := "";
            MCPContext.ToolArguments := None;
            MCPContext.ResourceURI := "";
            MCPContext.PromptName := "";
            MCPContext.JsonrpcID := Some (quoted "req-001") |} /\
  @ParseMCPRequest MiniJSON (go_lit "{'jsonrpc':'2.0','id':1,'method':'unknown/method'}")
  = None /\
  @ParseMCPRequest MiniJSON (go_lit "{'id':1,'method':'tools/list'}") = None /\
  @ParseMCPRequest MiniJSON "not json at all" = None /\
  @ParseMCPRequest MiniJSON "" = None.
Proof. repeat split; vm_compute; reflexivity. Qed.

Example TestCircuitBreaker :
  Allow (NewCircuitBreaker true) 0 = (true, None, NewCircuitBreaker true) /\
  (Allow (Trip (NewCircuitBreaker true) Trigger429 10 0) Second).1 =
    (false, Some {| CircuitBreakerOpenError.Trigger := Trigger429;
                    CircuitBreakerOpenError.RetryAfterSec := 10;
                    CircuitBreakerOpenError.RemainingMs := 9000 |}) /\
  (Allow (Trip (NewCircuitBreaker true) Trigger429 10 0) (10 * Second)).1 = (true, None) /\
  CircuitBreaker.retryAfterSec (Trip (NewCircuitBreaker true) Trigger5xx 0 0) = 30 /\
  (Allow (Trip (NewCircuitBreaker false) Trigger429 30 0) 0).1 = (true, None).
Proof. repeat split; reflexivity. Qed.

Example TestHttpStatusToJsonRPCError :
  map httpStatusToJsonRPCError [400; 401; 403; 404; 418; 429; 500; 502; 503; 504; 200]
  = [-32600; -32600; -32600; -32601; -32600; -32000; -32603; -32000; -32000;
     -32603; -32603].
Proof. reflexivity. Qed.

(** Scenario 2: outside MCP a denial is passed on with the provider's
    headers. *)
Example handleAccessResponse_plain_deny :
  clientResponse
    (@handleAccessResponse MiniJSON SampleCollaborators (sampleKong "" noContext)
       defaultConfig sampleDeny (samplePayload "" None)).1
  = Some (403, Some "denied", Some {[ "x-policy" := ["p1"] ]}).
Proof. reflexivity. Qed.

(** Scenario 3 with a limit of 200 bytes: the serialized payload is over
    it, and the body of 108 bytes is cut to its first 100. *)
Example composeAccessPayload_truncates :
  exists req,
    @composeAccessPayload MiniJSON SampleCollaborators
      (sampleKong toolsCallBody noContext) (sizeLimitConfig 200) = Ok req /\
    SidebandAccessRequest.Body req =
      string_take 100 toolsCallBody +:+ "... [truncated, 108 bytes]" /\
    SidebandAccessRequest.MCP req = @ParseMCPRequest MiniJSON toolsCallBody /\
    SidebandAccessRequest.TrafficType req = "mcp".
Proof. eexists. repeat split; vm_compute; reflexivity. Qed.

(* --------------------------------------------------------------------- *)
(** ** Header codec: what the decoder and the encoder guarantee           *)
(* --------------------------------------------------------------------- *)

Lemma values_for_lower k pairs :
  values_for k pairs <> [] -> ToLower k = k.
Proof.
  unfold values_for. induction pairs as [|[n v] pairs IH]; simpl; [done|].
  rewrite filter_cons. simpl.
  destruct (decide (ToLower n = k)) as [<-|_]; [|done].
  intros _. apply ToLower_idem.
Qed.

Lemma FlattenHeaders_lookup_Some (wire : list WireEntry) k vs :
  FlattenHeaders wire !! k = Some vs ->
  ToLower k = k /\ vs <> [] /\ vs = values_for k (concat wire).
Proof.
  rewrite FlattenHeaders_lookup.
  destruct (values_for k (concat wire)) as [|v vs'] eqn:E; [done|].
  intros [= <-]. split; [|done].
  apply (values_for_lower k (concat wire)). by rewrite E.
Qed.

(** X1.  Every name of the map FlattenHeaders returns is in lower case, and
    every value list is non-empty (so [values[0]] in updateRequest always
    exists) and holds, in wire order, the values of the wire pairs whose name
    is that name up to case. *)
Theorem FlattenHeaders_names_and_values (wire : list WireEntry) (k : string)
  (vs : list string) :
  FlattenHeaders wire !! k = Some vs ->
  ToLower k = k /\ vs <> [] /\
  vs = map snd (filter (fun nv => ToLower nv.1 = k) (concat wire)).
Proof. apply FlattenHeaders_lookup_Some. Qed.

Lemma FlattenHeaders_names_and_values_witness :
  ToLower "x-custom" = "x-custom" /\ ["val1"; "val2"] <> [] /\
  ["val1"; "val2"] =
    map snd (filter (fun nv : string * string => ToLower nv.1 = "x-custom")
               (concat [[("X-Custom", "val1")]; [("accept", "text/html")];
                        [("x-custom", "val2")]])).
Proof.
  apply (FlattenHeaders_names_and_values
           [[("X-Custom", "val1")]; [("accept", "text/html")]; [("x-custom", "val2")]]
           "x-custom" ["val1"; "val2"]).
  reflexivity.
Defined.

Lemma FormatHeaders_Ok (m : list (string * list string)) :
  FormatHeaders m =
    Ok (flat_map (fun '(name, values) => map (fun v => [(ToLower name, v)]) values) m).
Proof. by destruct m as [|[??]?]. Qed.

(** X2.  FormatHeaders never fails; each wire entry it builds is a single
    pair whose name is in lower case, and there is one entry per value: a
    name with no value contributes none. *)
Theorem FormatHeaders_entries (m : list (string * list string)) :
  exists wire,
    FormatHeaders m = Ok wire /\
    Forall (fun entry : WireEntry =>
              exists n v, entry = [(n, v)] /\ ToLower n = n) wire /\
    length wire = sum_list (map (fun nv => length nv.2) m).
Proof.
  eexists. split; [apply FormatHeaders_Ok|]. split.
  - induction m as [|[n vs] m IH]; simpl; [constructor|].
    apply Forall_app. split; [|done].
    apply Forall_forall. intros e [v [-> _]]%list_elem_of_fmap.
    exists (ToLower n), v. split; [done | apply ToLower_idem].
  - induction m as [|[n vs] m IH]; simpl; [done|].
    rewrite length_app, length_map. f_equal. exact IH.
Qed.

(** X3.  A decoded header map is a fixed point of the codec: encoding it, in
    whatever order the map is iterated, and decoding again gives it back. *)
Theorem FlattenHeaders_FormatHeaders_fixpoint (wire : list WireEntry)
  (m : list (string * list string)) :
  m ≡ₚ map_to_list (FlattenHeaders wire) ->
  exists wire',
    FormatHeaders m = Ok wire' /\ FlattenHeaders wire' = FlattenHeaders wire.
Proof.
  intros Hm. eexists. split; [apply FormatHeaders_Ok|].
  assert (Forall (fun nv => ToLower nv.1 = nv.1 /\ nv.2 <> []) m) as Hall.
  { rewrite Hm. apply Forall_forall. intros [k vs] Hin.
    apply elem_of_map_to_list in Hin.
    apply FlattenHeaders_lookup_Some in Hin as (? & ? & _). done. }
  assert (map (fun nv => ToLower nv.1) m = m.*1) as Hkeys.
  { apply Forall_fmap_ext_1. eapply Forall_impl; [exact Hall|]. by intros ? [? _]. }
  assert (map (fun nv : string * list string => (ToLower nv.1, nv.2)) m = m) as Hid.
  { rewrite <- (list_fmap_id m) at 2. apply Forall_fmap_ext_1.
    eapply Forall_impl; [exact Hall|]. intros [k vs] [Hk _]. simpl in *. by rewrite Hk. }
  rewrite (FlattenHeaders_FormatHeaders_map m _).
  - unfold lowercase_keys. rewrite Hid.
    rewrite <- (list_to_map_to_list (FlattenHeaders wire)).
    apply list_to_map_proper; [|done].
    rewrite Hm. apply NoDup_fst_map_to_list.
  - rewrite Hkeys, Hm. apply NoDup_fst_map_to_list.
  - eapply Forall_impl; [exact Hall|]. by intros ? [_ ?].
  - apply FormatHeaders_Ok.
Qed.

Lemma FlattenHeaders_FormatHeaders_fixpoint_witness :
  exists wire',
    FormatHeaders [("accept", ["text/html"]); ("x-custom", ["val1"; "val2"])] = Ok wire' /\
    FlattenHeaders wire' =
      FlattenHeaders [[("X-Custom", "val1")]; [("accept", "text/html")];
                      [("x-custom", "val2")]].
Proof.
  apply (FlattenHeaders_FormatHeaders_fixpoint
           [[("X-Custom", "val1")]; [("accept", "text/html")]; [("x-custom", "val2")]]
           [("accept", ["text/html"]); ("x-custom", ["val1"; "val2"])]).
  vm_compute. reflexivity.
Defined.

Section FromInterface.
Context {E : ErrorTexts}.

Lemma interface_items_all_strings lowerName items :
  interface_items lowerName items =
  option_map (map (fun s => [(lowerName, s)])) (all_strings items).
Proof.
  induction items as [|[s|] items IH]; simpl; [done| |done].
  rewrite IH. by destruct (all_strings items).
Qed.

Lemma formatInterfaceLoop_Ok headers : forall m result,
  string_headers headers = Some m ->
  formatInterfaceLoop headers result =
    Ok (result ++ flat_map
                    (fun '(name, values) => map (fun v => [(ToLower name, v)]) values) m).
Proof.
  induction headers as [|[name val] headers IH]; intros m result; simpl.
  - intros [= <-]. simpl. by rewrite app_nil_r.
  - destruct (header_strings val) as [vs|] eqn:Hval; [|done].
    destruct (string_headers headers) as [m'|]; [|done].
    intros [= <-]. simpl. rewrite app_assoc.
    destruct val as [v|v|v|]; simpl in Hval; simplify_eq; try by apply IH.
    rewrite interface_items_all_strings, Hval. simpl. by apply IH.
Qed.

Lemma formatInterfaceLoop_Err headers : forall result,
  string_headers headers = None ->
  exists name val,
    (name, val) ∈ headers /\ header_strings val = None /\
    formatInterfaceLoop headers result =
      Err ("multidimensional header value for " +:+ Quote name).
Proof.
  induction headers as [|[name val] headers IH]; intros result; simpl; [done|].
  destruct (header_strings val) as [vs|] eqn:Hval.
  - destruct (string_headers headers) as [m'|] eqn:Hrest; [done|]. intros _.
    assert (forall result', exists name0 val0,
              (name0, val0) ∈ (name, val) :: headers /\ header_strings val0 = None /\
              formatInterfaceLoop headers result' =
                Err ("multidimensional header value for " +:+ Quote name0)) as Hrec.
    { intros result'. destruct (IH result' eq_refl) as (n0 & v0 & Hin & Hv0 & Heq).
      exists n0, v0. split; [apply elem_of_cons; by right | done]. }
    destruct val as [v|v|v|]; simpl in Hval; try done; try apply Hrec.
    rewrite interface_items_all_strings, Hval. simpl. apply Hrec.
  - intros _. exists name, val. split; [apply elem_of_cons; by left|]. split; [done|].
    destruct val as [v|v|v|]; simpl in Hval; try done.
    by rewrite interface_items_all_strings, Hval.
Qed.

(** X4.  FormatHeadersFromInterface accepts a map exactly when every value
    is a string, a slice of strings, or a slice of interfaces that are all
    strings; it then returns what FormatHeaders returns for the same map
    with those strings (a single string counting as a slice of one).
    Otherwise it returns the error that names a header of another shape. *)
Theorem FormatHeadersFromInterface_agrees (headers : list (string * HeaderValue)) :
  match string_headers headers with
  | Some m => FormatHeadersFromInterface headers = FormatHeaders m
  | None =>
      exists name val,
        (name, val) ∈ headers /\ header_strings val = None /\
        FormatHeadersFromInterface headers =
          Err ("multidimensional header value for " +:+ Quote name)
  end.
Proof.
  destruct (string_headers headers) as [m|] eqn:Hm.
  - rewrite FormatHeaders_Ok. unfold FormatHeadersFromInterface.
    destruct headers as [|h headers].
    + simpl in Hm. by injection Hm as <-.
    + by rewrite (formatInterfaceLoop_Ok _ m []).
  - unfold FormatHeadersFromInterface. destruct headers as [|h headers]; [done|].
    by apply formatInterfaceLoop_Err.
Qed.

End FromInterface.

(* --------------------------------------------------------------------- *)
(** ** Circuit breaker: the states it can reach                           *)
(* --------------------------------------------------------------------- *)

Lemma breaker_inv_call enabled cb c :
  breaker_inv enabled cb -> breaker_inv enabled (breaker_call cb c).
Proof.
  unfold breaker_inv. destruct cb as [en cl op ra tr]. simpl.
  intros (He & Hc & Ho & Hd). subst enabled.
  destruct c as [t|trigger r t|]; simpl; unfold Allow, Trip, Reset; simpl;
    destruct en, cl; simpl; auto.
  - destruct (_ >=? _); simpl; auto.
    repeat split; auto; done.
  - repeat split; try done.
    unfold defaultRetryAfterSec. destruct (Z.gtb_spec r 0); lia.
  - repeat split; try done.
    unfold defaultRetryAfterSec. destruct (Z.gtb_spec r 0); lia.
  - repeat split; auto; done.
  - repeat split; auto; done.
Qed.

(** X5.  Whatever sequence of Allow, Trip and Reset calls a breaker created
    by NewCircuitBreaker receives, and at whatever times: it stays enabled or
    disabled as created; when IsClosed reports true its trigger is
    TriggerNone; when IsClosed reports false the breaker is enabled and its
    retry period is at least one second; and a disabled breaker never
    changes at all. *)
Theorem breaker_reachable_states (enabled : bool) (calls : list BreakerCall) :
  let cb := fold_left breaker_call calls (NewCircuitBreaker enabled) in
  CircuitBreaker.enabled cb = enabled /\
  (IsClosed cb = true -> CircuitBreaker.triggerType cb = TriggerNone) /\
  (IsClosed cb = false -> enabled = true /\ 1 <= CircuitBreaker.retryAfterSec cb) /\
  (enabled = false -> cb = NewCircuitBreaker false).
Proof.
  simpl. change (breaker_inv enabled (fold_left breaker_call calls (NewCircuitBreaker enabled))).
  assert (breaker_inv enabled (NewCircuitBreaker enabled)) as H0.
  { repeat split; simpl; try done. by intros ->. }
  revert H0. generalize (NewCircuitBreaker enabled).
  induction calls as [|c calls IH]; intros cb H; simpl; [done|].
  apply IH. by apply breaker_inv_call.
Qed.

(** X6.  An enabled breaker tripped at time [t0] with a retry period of [R]
    seconds (the period asked for when positive, 30 otherwise) rejects every
    call made less than [R] seconds later, reporting the trigger, [R], and
    the whole milliseconds that remain, and is left as it was; the first
    call made [R] seconds later or more is allowed and closes the breaker.
    ([R] is below 9223372037, so that the period fits a Duration.) *)
Theorem Trip_then_Allow (cb : CircuitBreaker.t) (trigger : CircuitBreakerTrigger)
  (retryAfterSec t0 t : Z) :
  CircuitBreaker.enabled cb = true ->
  t0 <= t ->
  let R := if retryAfterSec >? 0 then retryAfterSec else 30 in
  R <= 9223372036 ->
  let tripped := Trip cb trigger retryAfterSec t0 in
  IsClosed tripped = false /\
  (t - t0 < R * Second ->
   Allow tripped t =
     (false,
      Some {| CircuitBreakerOpenError.Trigger := trigger;
              CircuitBreakerOpenError.RetryAfterSec := R;
              CircuitBreakerOpenError.RemainingMs := (R * Second - (t - t0)) / Millisecond |},
      tripped) /\
   0 <= (R * Second - (t - t0)) / Millisecond <= R * 1000) /\
  (R * Second <= t - t0 ->
   exists cb',
     Allow tripped t = (true, None, cb') /\
     IsClosed cb' = true /\ CircuitBreaker.triggerType cb' = TriggerNone).
Proof.
  intros Hen Ht R HR tripped.
  assert (0 < R) as HRpos by (subst R; destruct (Z.gtb_spec retryAfterSec 0); lia).
  subst tripped. unfold Trip, Allow, IsClosed. rewrite Hen. simpl. rewrite ?Hen. simpl.
  fold defaultRetryAfterSec. change defaultRetryAfterSec with 30. fold R.
  assert (wrap64 (R * Second) = R * Second) as Hw.
  { apply wrap64_id. unfold Second. lia. }
  rewrite Hw. split; [done|]. split.
  - intros Hlt.
    assert (clamp64 (t - t0) = t - t0) as Hc by (unfold clamp64, Second in *; lia).
    rewrite Hc. destruct (Z.geb_spec (t - t0) (R * Second)); [lia|].
    rewrite wrap64_id by (unfold Second in *; lia).
    unfold Milliseconds. rewrite Z.quot_div_nonneg by (unfold Millisecond; lia).
    split; [done|]. unfold Millisecond, Second in *.
    split; [apply Z.div_pos; lia|].
    apply Z.div_le_upper_bound; lia.
  - intros Hge.
    assert (R * Second <= clamp64 (t - t0)) as Hc by (unfold clamp64, Second in *; lia).
    destruct (Z.geb_spec (clamp64 (t - t0)) (R * Second)); [|lia].
    eexists. split; [reflexivity|]. done.
Qed.

Lemma Trip_then_Allow_witness :
  IsClosed (Trip (NewCircuitBreaker true) Trigger429 5 0) = false /\
  (1500 * Millisecond - 0 < 5 * Second ->
   Allow (Trip (NewCircuitBreaker true) Trigger429 5 0) (1500 * Millisecond) =
     (false,
      Some {| CircuitBreakerOpenError.Trigger := Trigger429;
              CircuitBreakerOpenError.RetryAfterSec := 5;
              CircuitBreakerOpenError.RemainingMs :=
                (5 * Second - (1500 * Millisecond - 0)) / Millisecond |},
      Trip (NewCircuitBreaker true) Trigger429 5 0) /\
   0 <= (5 * Second - (1500 * Millisecond - 0)) / Millisecond <= 5 * 1000) /\
  (5 * Second <= 1500 * Millisecond - 0 ->
   exists cb',
     Allow (Trip (NewCircuitBreaker true) Trigger429 5 0) (1500 * Millisecond)
       = (true, None, cb') /\
     IsClosed cb' = true /\ CircuitBreaker.triggerType cb' = TriggerNone).
Proof.
  apply (Trip_then_Allow (NewCircuitBreaker true) Trigger429 5 0 (1500 * Millisecond)).
  - reflexivity.
  - unfold Millisecond. lia.
  - simpl. lia.
Defined.

(** X7.  Reset closes the breaker whatever state it was in: the next call
    of Allow, at any time, is let through with no error and leaves the
    breaker as Reset left it; on an enabled breaker IsClosed then reports
    true, and on a disabled one Reset changes nothing. *)
Theorem Reset_then_Allow (cb : CircuitBreaker.t) (t : Z) :
  Allow (Reset cb) t = (true, None, Reset cb) /\
  (if CircuitBreaker.enabled cb
   then IsClosed (Reset cb) = true /\
        CircuitBreaker.triggerType (Reset cb) = TriggerNone
   else Reset cb = cb).
Proof.
  unfold Reset, Allow, IsClosed.
  destruct (CircuitBreaker.enabled cb) eqn:En; simpl; rewrite ?En; simpl; done.
Qed.

(* --------------------------------------------------------------------- *)
(** ** Execute: exhausted retries and final replies                       *)
(* --------------------------------------------------------------------- *)

(** [k] attempts that fail transiently, one after the other: the loop goes
    on with the attempt after them, having issued [k] requests and paused
    before each of them but the very first of the call. *)
Lemma retry_loop_transient conf p k : forall fuel attempt last w,
  (forall j, (j < k)%nat -> transient (outcome (p (attempt + j)%nat))) ->
  exists last' w1,
    retry_loop conf p (k + fuel) attempt last w =
      retry_loop conf p fuel (attempt + k) last' w1 /\
    requests w1 = (requests w + k)%nat /\
    breaker w1 = breaker w /\
    sleeps w1 =
      sleeps w ++ repeat (retryBackoff conf) (if (attempt =? 0)%nat then pred k else k) /\
    (k = 0%nat -> last' = last /\ w1 = w) /\
    (forall k', k = S k' -> last' = lastOf (outcome (p (attempt + k')%nat))).
Proof.
  induction k as [|k IH]; intros fuel attempt last w Htr.
  - exists last, w. rewrite Nat.add_0_r. simpl.
    destruct (attempt =? 0)%nat; simpl; rewrite app_nil_r; repeat split; done.
  - pose proof (Htr 0%nat ltac:(lia)) as H0. rewrite Nat.add_0_r in H0.
    assert (forall j, (j < k)%nat -> transient (outcome (p (S attempt + j)%nat))) as Htr'.
    { intros j Hj. replace (S attempt + j)%nat with (attempt + S j)%nat by lia.
      apply Htr. lia. }
    assert (forall last1 w2,
              requests w2 = S (requests w) -> breaker w2 = breaker w ->
              sleeps w2 =
                sleeps w ++ (if (attempt =? 0)%nat then [] else [retryBackoff conf]) ->
              last1 = lastOf (outcome (p attempt)) ->
              exists last' w1,
                retry_loop conf p (k + fuel) (S attempt) last1 w2 =
                  retry_loop conf p fuel (attempt + S k) last' w1 /\
                requests w1 = (requests w + S k)%nat /\
                breaker w1 = breaker w /\
                sleeps w1 =
                  sleeps w ++ repeat (retryBackoff conf)
                                (if (attempt =? 0)%nat then pred (S k) else S k) /\
                (S k = 0%nat -> last' = last /\ w1 = w) /\
                (forall k', S k = S k' ->
                   last' = lastOf (outcome (p (attempt + k')%nat)))) as Hstep.
    { intros last1 w2 Hr2 Hb2 Hs2 Hlast1.
      destruct (IH fuel (S attempt) last1 w2 Htr')
        as (last' & w1 & -> & Hreq & Hbr & Hsl & Hk0 & HkS).
      exists last', w1.
      replace (attempt + S k)%nat with (S attempt + k)%nat by lia.
      split; [done|]. split; [lia|]. split; [congruence|]. split.
      - rewrite Hsl, Hs2, <- app_assoc. f_equal.
        destruct attempt; simpl; done.
      - split; [done|]. intros k' [= <-].
        destruct k as [|k''].
        + destruct (Hk0 eq_refl) as [-> _]. by rewrite Nat.add_0_r.
        + rewrite (HkS k'' eq_refl).
          by replace (S attempt + k'')%nat with (attempt + S k'')%nat by lia. }
    simpl.
    set (w0 := if (0 <? attempt)%nat then _ else w).
    assert (requests w0 = requests w /\ breaker w0 = breaker w /\
            sleeps w0 = sleeps w ++ (if (attempt =? 0)%nat then [] else [retryBackoff conf]))
      as (Hr0 & Hb0 & Hs0).
    { subst w0. destruct attempt; simpl; [by rewrite app_nil_r | done]. }
    destruct (outcome (p attempt)) as [e|sc h b] eqn:Hout.
    + apply Hstep; simpl; congruence.
    + destruct H0 as [Hne Hge].
      destruct (Z.eqb_spec sc 429); [done|].
      destruct (Z.geb_spec sc 500); [|lia].
      apply Hstep; simpl; congruence.
Qed.

(** X8.  When the breaker lets the call through and every one of the
    [n + 1] attempts Execute is allowed fails transiently (a transport error
    or a 5xx reply), Execute issues exactly [n + 1] requests, pauses [n]
    times for the configured backoff, and trips the breaker for 30 seconds.
    If the last attempt was a 5xx reply the trigger is Trigger5xx and the
    reply is returned together with the error [sideband returned <status>];
    if it was a transport error the trigger is TriggerTimeout and that error
    is returned with status 0 and neither headers nor body. *)
Theorem Execute_retries_exhausted (conf : Config.t) (p : Provider)
  (mcpMethod : string) (w : World) (cb : CircuitBreaker.t) (n : nat) :
  Allow (breaker w) (now w) = (true, None, cb) ->
  maxAttempts conf mcpMethod = Z.of_nat (S n) ->
  (forall j, (j <= n)%nat -> transient (outcome (p j))) ->
  exists w',
    (Execute conf p mcpMethod w).2 = w' /\
    requests w' = (requests w + S n)%nat /\
    sleeps w' = sleeps w ++ repeat (wrap64 (Config.RetryBackoffMs conf * Millisecond)) n /\
    match outcome (p n) with
    | TransportError e =>
        (Execute conf p mcpMethod w).1 =
          {| statusCode := 0; respHeaders := None; respBody := None;
             err := Some (ErrMessage e) |} /\
        breaker w' = Trip cb TriggerTimeout 30 (now w')
    | HTTPResponse sc h b =>
        (Execute conf p mcpMethod w).1 =
          {| statusCode := sc; respHeaders := Some h; respBody := Some b;
             err := Some (ErrMessage ("sideband returned " +:+ Itoa sc)) |} /\
        breaker w' = Trip cb Trigger5xx 30 (now w')
    end.
Proof.
  intros Hallow Hmax Htr.
  rewrite (Execute_allowed _ _ _ _ _ Hallow), Hmax, Nat2Z.id.
  destruct (retry_loop_transient conf p (S n) 0 0
              {| lastErr := None; lastStatus := 0; lastHeaders := None; lastBody := None |}
              (set_breaker w cb))
    as (last' & w1 & Hloop & Hreq & Hbr & Hsl & _ & Hlast).
  { intros j Hj. apply Htr. simpl. lia. }
  replace (S n + 0)%nat with (S n) in Hloop by lia. rewrite Hloop.
  specialize (Hlast n eq_refl). simpl in Hlast, Hreq, Hbr, Hsl.
  cbn [retry_loop]. pose proof (Htr n ltac:(lia)) as Hn.
  destruct (outcome (p n)) as [e|sc h b]; subst last'; cbn [lastOf lastErr lastStatus lastHeaders lastBody].
  - simpl. eexists. split; [reflexivity|]. simpl.
    split; [done|]. split; [done|]. split; [done|]. by rewrite Hbr.
  - destruct Hn as [_ Hge].
    destruct (Z.geb_spec sc 500); [|lia].
    destruct (Z.gtb_spec sc 0); [|lia].
    eexists. split; [reflexivity|]. simpl.
    split; [done|]. split; [done|]. split; [done|]. by rewrite Hbr.
Qed.

Lemma Execute_retries_exhausted_witness :
  exists w',
    (Execute retryConfig failingProvider "tools/list" (freshWorld true)).2 = w' /\
    requests w' = (requests (freshWorld true) + 4)%nat /\
    sleeps w' =
      sleeps (freshWorld true)
      ++ repeat (wrap64 (Config.RetryBackoffMs retryConfig * Millisecond)) 3 /\
    match outcome (failingProvider 3%nat) with
    | TransportError e =>
        (Execute retryConfig failingProvider "tools/list" (freshWorld true)).1 =
          {| statusCode := 0; respHeaders := None; respBody := None;
             err := Some (ErrMessage e) |} /\
        breaker w' = Trip (NewCircuitBreaker true) TriggerTimeout 30 (now w')
    | HTTPResponse sc h b =>
        (Execute retryConfig failingProvider "tools/list" (freshWorld true)).1 =
          {| statusCode := sc; respHeaders := Some h; respBody := Some b;
             err := Some (ErrMessage ("sideband returned " +:+ Itoa sc)) |} /\
        breaker w' = Trip (NewCircuitBreaker true) Trigger5xx 30 (now w')
    end.
Proof.
  apply (Execute_retries_exhausted retryConfig failingProvider "tools/list"
           (freshWorld true) (NewCircuitBreaker true) 3).
  - reflexivity.
  - reflexivity.
  - intros j _. simpl. lia.
Defined.

(** X9.  When the breaker lets the call through, the first attempt whose
    reply is neither a 429 nor a 5xx ends the call: after [k] transient
    failures (with [k] below the number of attempts allowed) such a reply is
    returned as it came with a nil error, [k + 1] requests were issued with
    [k] pauses between them, and the breaker is left as Allow left it: a
    success or a 4xx never trips it and is never retried. *)
Theorem Execute_final_reply (conf : Config.t) (p : Provider) (mcpMethod : string)
  (w : World) (cb : CircuitBreaker.t) (k : nat) (sc : Z)
  (h : gmap string (list string)) (b : string) :
  Allow (breaker w) (now w) = (true, None, cb) ->
  (k < Z.to_nat (maxAttempts conf mcpMethod))%nat ->
  (forall j, (j < k)%nat -> transient (outcome (p j))) ->
  outcome (p k) = HTTPResponse sc h b ->
  sc <> 429 -> sc < 500 ->
  exists w',
    Execute conf p mcpMethod w =
      ({| statusCode := sc; respHeaders := Some h; respBody := Some b; err := None |},
       w') /\
    requests w' = (requests w + S k)%nat /\
    breaker w' = cb /\
    sleeps w' = sleeps w ++ repeat (wrap64 (Config.RetryBackoffMs conf * Millisecond)) k.
Proof.
  intros Hallow Hk Htr Hout Hne Hlt.
  rewrite (Execute_allowed _ _ _ _ _ Hallow).
  destruct (Z.to_nat (maxAttempts conf mcpMethod)) as [|fuel] eqn:Hfuel; [lia|].
  replace (S fuel) with (k + S (fuel - k))%nat by lia.
  destruct (retry_loop_transient conf p k (S (fuel - k)) 0
              {| lastErr := None; lastStatus := 0; lastHeaders := None; lastBody := None |}
              (set_breaker w cb) Htr)
    as (last' & w1 & -> & Hreq & Hbr & Hsl & _ & _).
  cbn [Nat.add retry_loop]. unfold doRequest. rewrite Hout.
  destruct (Z.eqb_spec sc 429); [done|].
  destruct (Z.geb_spec sc 500); [lia|].
  eexists. split; [reflexivity|]. simpl in *.
  destruct k as [|k']; simpl in *.
  - split; [lia|]. split; [done|]. by rewrite Hsl, !app_nil_r.
  - split; [lia|]. split; [done|].
    rewrite Hsl, <- app_assoc. f_equal.
    change (retryBackoff conf :: repeat (retryBackoff conf) k')
      with (repeat (retryBackoff conf) (S k')).
    by rewrite <- repeat_cons.
Qed.

Lemma Execute_final_reply_witness :
  exists w',
    Execute defaultConfig
      (fun _ => {| took := Millisecond; outcome := HTTPResponse 403 ∅ "denied" |})
      "" (freshWorld true) =
      ({| statusCode := 403; respHeaders := Some ∅; respBody := Some "denied";
          err := None |}, w') /\
    requests w' = (requests (freshWorld true) + 1)%nat /\
    breaker w' = NewCircuitBreaker true /\
    sleeps w' =
      sleeps (freshWorld true)
      ++ repeat (wrap64 (Config.RetryBackoffMs defaultConfig * Millisecond)) 0.
Proof.
  apply (Execute_final_reply defaultConfig
           (fun _ => {| took := Millisecond; outcome := HTTPResponse 403 ∅ "denied" |})
           "" (freshWorld true) (NewCircuitBreaker true) 0 403 ∅ "denied").
  - reflexivity.
  - vm_compute. lia.
  - intros j Hj. lia.
  - reflexivity.
  - lia.
  - lia.
Defined.

(** What the loop can end with: a reply below 500 returned with a nil error,
    or, when it runs out, the loop variables of its last attempt. *)
Lemma retry_loop_result conf p fuel : forall attempt last w r last' w',
  retry_loop conf p fuel attempt last w = (r, last', w') ->
  match r with
  | Some r =>
      err r = None /\ statusCode r < 500 /\
      exists k h b,
        outcome (p k) = HTTPResponse (statusCode r) h b /\
        respHeaders r = Some h /\ respBody r = Some b
  | None =>
      (fuel = 0%nat /\ last' = last) \/
      (exists k, transient (outcome (p k)) /\ last' = lastOf (outcome (p k)))
  end.
Proof.
  induction fuel as [|fuel IH]; intros attempt last w r last' w'; simpl.
  - intros [= <- <- <-]. by left.
  - destruct (outcome (p attempt)) as [e|sc h b] eqn:Hout.
    + intros H. apply IH in H. destruct r as [r|]; [done|].
      right. destruct H as [[_ ->]|H]; [|done].
      exists attempt. rewrite Hout. done.
    + destruct (Z.eqb_spec sc 429) as [->|Hne].
      { intros [= <- <- <-]. simpl. split; [done|]. split; [lia|]. by exists attempt, h, b. }
      destruct (Z.geb_spec sc 500) as [Hge|Hlt].
      * intros H. apply IH in H. destruct r as [r|]; [done|].
        right. destruct H as [[_ ->]|H]; [|done].
        exists attempt. rewrite Hout. simpl. done.
      * intros [= <- <- <-]. simpl. split; [done|]. split; [lia|]. by exists attempt, h, b.
Qed.

(** X10.  With at least one attempt allowed (for [max_retries] from 0 to
    the largest int but one) and the breaker letting the call through,
    Execute returns a nil error only together with a reply of the provider
    whose status is below 500, with that reply's headers and body; a 5xx
    status is only ever returned together with an error; and an error with
    status 0 comes with neither headers nor body.  The breaker's own error
    is not returned on this path. *)
Theorem Execute_result_shape (conf : Config.t) (p : Provider) (mcpMethod : string)
  (w : World) (cb : CircuitBreaker.t) :
  Allow (breaker w) (now w) = (true, None, cb) ->
  0 <= Config.MaxRetries conf < 2 ^ 63 - 1 ->
  let r := (Execute conf p mcpMethod w).1 in
  match err r with
  | None =>
      statusCode r < 500 /\
      exists k h b,
        outcome (p k) = HTTPResponse (statusCode r) h b /\
        respHeaders r = Some h /\ respBody r = Some b
  | Some (ErrMessage _) =>
      (statusCode r = 0 /\ respHeaders r = None /\ respBody r = None) \/
      (500 <= statusCode r /\
       exists k h b,
         outcome (p k) = HTTPResponse (statusCode r) h b /\
         respHeaders r = Some h /\ respBody r = Some b)
  | Some (ErrCircuitOpen _) => False
  end.
Proof.
  intros Hallow Hmax. rewrite (Execute_allowed _ _ _ _ _ Hallow).
  assert (0 < Z.to_nat (maxAttempts conf mcpMethod))%nat as Hfuel.
  { unfold maxAttempts. case_match; [lia|]. rewrite wrap64_id; lia. }
  destruct (retry_loop _ _ _ _ _ _) as [[r0 last'] w1] eqn:E.
  apply retry_loop_result in E. destruct r0 as [r0|]; simpl.
  - destruct E as (-> & Hlt & Hex). done.
  - destruct E as [[Hz _]|(k & Htr & ->)]; [lia|].
    destruct (outcome (p k)) as [e|sc h b] eqn:Hout; simpl.
    + by left.
    + destruct Htr as [_ Hge].
      destruct (Z.geb_spec sc 500); [|lia]. destruct (Z.gtb_spec sc 0); [|lia].
      simpl. right. split; [done|]. by exists k, h, b.
Qed.

Lemma Execute_result_shape_witness :
  match err (Execute retryConfig failingProvider "tools/call" (freshWorld true)).1 with
  | None =>
      statusCode (Execute retryConfig failingProvider "tools/call" (freshWorld true)).1 < 500 /\
      exists k h b,
        outcome (failingProvider k) =
          HTTPResponse
            (statusCode (Execute retryConfig failingProvider "tools/call" (freshWorld true)).1)
            h b /\
        respHeaders (Execute retryConfig failingProvider "tools/call" (freshWorld true)).1
          = Some h /\
        respBody (Execute retryConfig failingProvider "tools/call" (freshWorld true)).1
          = Some b
  | Some (ErrMessage _) =>
      (statusCode (Execute retryConfig failingProvider "tools/call" (freshWorld true)).1 = 0 /\
       respHeaders (Execute retryConfig failingProvider "tools/call" (freshWorld true)).1 = None /\
       respBody (Execute retryConfig failingProvider "tools/call" (freshWorld true)).1 = None) \/
      (500 <= statusCode (Execute retryConfig failingProvider "tools/call" (freshWorld true)).1 /\
       exists k h b,
         outcome (failingProvider k) =
           HTTPResponse
             (statusCode (Execute retryConfig failingProvider "tools/call" (freshWorld true)).1)
             h b /\
         respHeaders (Execute retryConfig failingProvider "tools/call" (freshWorld true)).1
           = Some h /\
         respBody (Execute retryConfig failingProvider "tools/call" (freshWorld true)).1
           = Some b)
  | Some (ErrCircuitOpen _) => False
  end.
Proof.
  apply (Execute_result_shape retryConfig failingProvider "tools/call" (freshWorld true)
           (NewCircuitBreaker true)).
  - reflexivity.
  - simpl. lia.
Defined.

(* --------------------------------------------------------------------- *)
(** ** The service URL and the sideband endpoints                         *)
(* --------------------------------------------------------------------- *)

Lemma string_app_assoc (s t u : string) : (s +:+ t) +:+ u = s +:+ (t +:+ u).
Proof.
  induction s as [|c s IH]; [done|].
  change (String c ((s +:+ t) +:+ u) = String c (s +:+ (t +:+ u))). by rewrite IH.
Qed.

Lemma string_app_nil_r (s : string) : s +:+ "" = s.
Proof.
  induction s as [|c s IH]; [done|].
  change (String c (s +:+ "") = String c s). by rewrite IH.
Qed.

Lemma string_rev_append_app s t acc :
  string_rev_append (s +:+ t) acc = string_rev_append t (string_rev_append s acc).
Proof. revert acc. induction s as [|c s IH]; intros acc; simpl; [done|]. apply IH. Qed.

Lemma string_rev_append_acc s acc :
  string_rev_append s acc = string_rev s +:+ acc.
Proof.
  unfold string_rev. revert acc. induction s as [|c s IH]; intros acc; simpl; [done|].
  rewrite IH, (IH (String c "")). by rewrite string_app_assoc.
Qed.

Lemma string_rev_app s t : string_rev (s +:+ t) = string_rev t +:+ string_rev s.
Proof.
  unfold string_rev at 1. rewrite string_rev_append_app.
  apply string_rev_append_acc.
Qed.

Lemma string_rev_involutive s : string_rev (string_rev s) = s.
Proof.
  induction s as [|c s IH]; [done|].
  change (String c s) with (String c "" +:+ s) at 1.
  rewrite string_rev_app, string_rev_app, IH. done.
Qed.

Lemma string_rev_slashes n : string_rev (slashes n) = slashes n.
Proof.
  induction n as [|n IH]; [done|].
  change (slashes (S n)) with (String "/" "" +:+ slashes n) at 1.
  rewrite string_rev_app, IH. clear IH.
  change (string_rev "/") with "/".
  induction n as [|n IH]; [done|].
  change (String "/" (slashes n +:+ "/") = String "/" (slashes (S n))).
  by rewrite IH.
Qed.

Lemma trim_left_cutset_slashes n s :
  trim_left_cutset ["/"%char] (slashes n +:+ s) = trim_left_cutset ["/"%char] s.
Proof.
  induction n as [|n IH]; [done|].
  change (slashes (S n) +:+ s) with (String "/" (slashes n +:+ s)). exact IH.
Qed.

(** [TrimRight(path, "/")] on the two shapes a path can have: slashes only,
    or a last byte other than a slash followed by slashes. *)
Lemma TrimRight_slashes n : TrimRight (slashes n) "/" = "".
Proof.
  unfold TrimRight. rewrite string_rev_slashes.
  rewrite <- (string_app_nil_r (slashes n)) at 1.
  by rewrite trim_left_cutset_slashes.
Qed.

Lemma TrimRight_base base c n :
  c <> "/"%char ->
  TrimRight (base +:+ String c (slashes n)) "/" = base +:+ String c "".
Proof.
  intros Hc. unfold TrimRight.
  change (String c (slashes n)) with (String c "" +:+ slashes n).
  change (list_ascii_of_string "/") with ["/"%char].
  rewrite !string_rev_app, string_rev_slashes, string_app_assoc,
    trim_left_cutset_slashes.
  change (string_rev (String c "")) with (String c "").
  change (String c "" +:+ string_rev base) with (String c (string_rev base)).
  cbn [trim_left_cutset existsb].
  destruct (Ascii.eqb_spec c "/"%char); [done|]. cbn [orb].
  change (String c (string_rev base)) with (String c "" +:+ string_rev base).
  by rewrite string_rev_app, string_rev_involutive.
Qed.

(** X11.  BuildSidebandURL joins the base path and the endpoint with exactly
    the slash the endpoint brings: trailing slashes of the base path, however
    many, are dropped, and a base path of slashes only counts as empty.  The
    port is always written out. *)
Theorem BuildSidebandURL_trailing_slashes (scheme host : string) (port : Z)
  (query base : string) (c : ascii) (n : nat) (sidebandPath : string) :
  c <> "/"%char ->
  BuildSidebandURL
    {| ParsedURL.Scheme := scheme; ParsedURL.Host := host; ParsedURL.Port := port;
       ParsedURL.Path := base +:+ String c (slashes n); ParsedURL.Query := query |}
    sidebandPath
  = scheme +:+ "://" +:+ host +:+ ":" +:+ Itoa port +:+ (base +:+ String c "")
    +:+ sidebandPath /\
  BuildSidebandURL
    {| ParsedURL.Scheme := scheme; ParsedURL.Host := host; ParsedURL.Port := port;
       ParsedURL.Path := slashes n; ParsedURL.Query := query |}
    sidebandPath
  = scheme +:+ "://" +:+ host +:+ ":" +:+ Itoa port +:+ sidebandPath.
Proof.
  intros Hc. unfold BuildSidebandURL. simpl.
  by rewrite TrimRight_base, TrimRight_slashes.
Qed.

Lemma BuildSidebandURL_trailing_slashes_witness :
  BuildSidebandURL
    {| ParsedURL.Scheme := "https"; ParsedURL.Host := "example.com";
       ParsedURL.Port := 443;
       ParsedURL.Path := "/ap" +:+ String "i" (slashes 1); ParsedURL.Query := "" |}
    "/sideband/request"
  = "https" +:+ "://" +:+ "example.com" +:+ ":" +:+ Itoa 443 +:+ ("/ap" +:+ String "i" "")
    +:+ "/sideband/request" /\
  BuildSidebandURL
    {| ParsedURL.Scheme := "https"; ParsedURL.Host := "example.com";
       ParsedURL.Port := 443; ParsedURL.Path := slashes 1; ParsedURL.Query := "" |}
    "/sideband/request"
  = "https" +:+ "://" +:+ "example.com" +:+ ":" +:+ Itoa 443 +:+ "/sideband/request".
Proof.
  apply (BuildSidebandURL_trailing_slashes "https" "example.com" 443 "" "/ap" "i" 1
           "/sideband/request").
  discriminate.
Defined.

Section ServiceURL.
Context {U : PackageURL} {E : ErrorTexts}.

(** X12.  What ParseURL returns when it succeeds: the scheme is [http] or
    [https] in lower case; the host is the non-empty host name of the URL;
    the port is the one the URL gives, or 443 for [https] and 80 for [http]
    when it gives none; the path is the URL's, or [/] when that is empty.
    For a URL without a path, or with the path [/], the endpoint URL is
    therefore [scheme://host:port] followed by the endpoint path. *)
Theorem ParseURL_defaults (rawURL : string) (parsed : ParsedURL.t) :
  ParseURL rawURL = Ok parsed ->
  exists u,
    Parse rawURL = Ok u /\
    ParsedURL.Scheme parsed = ToLower (GoURL.Scheme u) /\
    (ParsedURL.Scheme parsed = "http" \/ ParsedURL.Scheme parsed = "https") /\
    ParsedURL.Host parsed = GoURL.Hostname u /\ ParsedURL.Host parsed <> "" /\
    (GoURL.Port u = "" ->
     ParsedURL.Port parsed =
       if String.eqb (ParsedURL.Scheme parsed) "https" then 443 else 80) /\
    (GoURL.Port u <> "" -> Atoi (GoURL.Port u) = Some (ParsedURL.Port parsed)) /\
    ParsedURL.Path parsed =
      (if String.eqb (GoURL.Path u) "" then "/" else GoURL.Path u) /\
    ParsedURL.Query parsed = GoURL.RawQuery u /\
    (GoURL.Path u = "" \/ GoURL.Path u = "/" ->
     forall sidebandPath,
       BuildSidebandURL parsed sidebandPath =
         ParsedURL.Scheme parsed +:+ "://" +:+ ParsedURL.Host parsed +:+ ":"
         +:+ Itoa (ParsedURL.Port parsed) +:+ sidebandPath).
Proof.
  unfold ParseURL. destruct (Parse rawURL) as [u|e]; [|done].
  destruct (String.eqb_spec (ToLower (GoURL.Scheme u)) "http") as [Hhttp|Hhttp];
    destruct (String.eqb_spec (ToLower (GoURL.Scheme u)) "https") as [Hhttps|Hhttps];
    simpl; try done; try congruence.
  all: destruct (String.eqb_spec (GoURL.Hostname u) "") as [|Hhost]; [done|].
  all: destruct (String.eqb_spec (GoURL.Port u) "") as [Hport|Hport]; simpl.
  all: try (destruct (Atoi (GoURL.Port u)) as [port|] eqn:Hatoi; simpl; [|done]).
  all: intros [= <-]; exists u; simpl.
  all: rewrite ?Hhttp, ?Hhttps; simpl.
  all: repeat (split; [first [done | by left | by right | congruence]|]).
  all: intros [Hp|Hp] sidebandPath; unfold BuildSidebandURL; simpl; rewrite Hp; simpl;
    rewrite ?Hhttp, ?Hhttps; reflexivity.
Qed.

End ServiceURL.

Lemma ParseURL_defaults_witness :
  exists u,
    @Parse SampleURL "http://example.com" = Ok u /\
    ParsedURL.Scheme
      {| ParsedURL.Scheme := "http"; ParsedURL.Host := "example.com";
         ParsedURL.Port := 80; ParsedURL.Path := "/"; ParsedURL.Query := "" |}
      = ToLower (GoURL.Scheme u) /\
    ("http" = "http" \/ "http" = "https") /\
    "example.com" = GoURL.Hostname u /\ "example.com" <> "" /\
    (GoURL.Port u = "" -> 80 = if String.eqb "http" "https" then 443 else 80) /\
    (GoURL.Port u <> "" -> Atoi (GoURL.Port u) = Some 80) /\
    "/" = (if String.eqb (GoURL.Path u) "" then "/" else GoURL.Path u) /\
    "" = GoURL.RawQuery u /\
    (GoURL.Path u = "" \/ GoURL.Path u = "/" ->
     forall sidebandPath,
       BuildSidebandURL
         {| ParsedURL.Scheme := "http"; ParsedURL.Host := "example.com";
            ParsedURL.Port := 80; ParsedURL.Path := "/"; ParsedURL.Query := "" |}
         sidebandPath =
         "http" +:+ "://" +:+ "example.com" +:+ ":" +:+ Itoa 80 +:+ sidebandPath).
Proof.
  apply (@ParseURL_defaults SampleURL SampleTexts "http://example.com"
           {| ParsedURL.Scheme := "http"; ParsedURL.Host := "example.com";
              ParsedURL.Port := 80; ParsedURL.Path := "/"; ParsedURL.Query := "" |}).
  reflexivity.
Defined.

(* --------------------------------------------------------------------- *)
(** ** Validate                                                           *)
(* --------------------------------------------------------------------- *)

Lemma find_None_Forall {A : Type} (f : A -> bool) (l : list A) :
  List.find f l = None <-> Forall (fun x => f x = false) l.
Proof.
  induction l as [|x l IH]; simpl.
  - split; [constructor | done].
  - destruct (f x) eqn:Hx.
    + split; [done|]. intros H. apply Forall_cons in H as [H _]. congruence.
    + rewrite IH. split; [by constructor|]. by intros [_ H]%Forall_cons.
Qed.

Lemma IsMCPMethod_elem_of method : IsMCPMethod method = true <-> method ∈ mcpMethods.
Proof.
  unfold IsMCPMethod. rewrite existsb_exists. split.
  - intros (m & Hin & ->%String.eqb_eq). by apply list_elem_of_In.
  - intros Hin. exists method. split; [by apply list_elem_of_In | apply String.eqb_refl].
Qed.

Section Validation.
Context {U : PackageURL} {E : ErrorTexts}.

(** X13.  Validate returns nil exactly for the configurations that meet all
    of its conditions: a service URL that is not empty, that [url.Parse]
    accepts, whose scheme is [http] or [https] up to case and whose host is
    not empty; a shared secret and a secret header name that are not empty;
    positive timeouts and backoff; [max_retries >= 0]; every passthrough code
    from 400 to 599; non-negative size limits; and every retryable method one
    of the seven MCP methods. *)
Theorem Validate_nil_iff (s : Settings.t) (c : Config.t) :
  Validate s c = None <->
  Settings.ServiceURL s <> "" /\
  (exists u,
     Parse (Settings.ServiceURL s) = Ok u /\
     (ToLower (GoURL.Scheme u) = "http" \/ ToLower (GoURL.Scheme u) = "https") /\
     GoURL.Host u <> "") /\
  Settings.SharedSecret s <> "" /\
  Settings.SecretHeaderName s <> "" /\
  0 < Settings.ConnectionTimeoutMs s /\
  0 < Settings.ConnectionKeepaliveMs s /\
  0 <= Config.MaxRetries c /\
  0 < Config.RetryBackoffMs c /\
  Forall (fun code => 400 <= code <= 599) (Config.PassthroughStatusCodes c) /\
  0 <= Settings.DebugBodyMaxBytes s /\
  0 <= Config.MaxSidebandBodyBytes c /\
  Forall (fun m => m ∈ mcpMethods) (Config.MCPRetryMethods c).
Proof.
  unfold Validate.
  destruct (String.eqb_spec (Settings.ServiceURL s) "") as [Hu|Hu].
  { split; [done | by intros [? _]]. }
  destruct (Parse (Settings.ServiceURL s)) as [u|e].
  2: { split; [done | by intros (_ & (u & [=] & _) & _)]. }
  destruct (String.eqb_spec (ToLower (GoURL.Scheme u)) "http") as [Hhttp|Hhttp];
    destruct (String.eqb_spec (ToLower (GoURL.Scheme u)) "https") as [Hhttps|Hhttps];
    cbn [negb andb].
  4: { split; [done|]. intros (_ & (u' & [= <-] & [?|?] & _) & _); done. }
  all: destruct (String.eqb_spec (GoURL.Host u) "") as [Hh|Hh];
    [split; [done | by intros (_ & (u' & [= <-] & _ & ?) & _)]|].
  all: destruct (String.eqb_spec (Settings.SharedSecret s) "") as [Hs|Hs];
    [split; [done | by intros (_ & _ & ? & _)]|].
  all: destruct (String.eqb_spec (Settings.SecretHeaderName s) "") as [Hn|Hn];
    [split; [done | by intros (_ & _ & _ & ? & _)]|].
  all: destruct (Z.leb_spec (Settings.ConnectionTimeoutMs s) 0);
    [split; [done | intros (_ & _ & _ & _ & ? & _); lia]|].
  all: destruct (Z.leb_spec (Settings.ConnectionKeepaliveMs s) 0);
    [split; [done | intros (_ & _ & _ & _ & _ & ? & _); lia]|].
  all: destruct (Z.ltb_spec (Config.MaxRetries c) 0);
    [split; [done | intros (_ & _ & _ & _ & _ & _ & ? & _); lia]|].
  all: destruct (Z.leb_spec (Config.RetryBackoffMs c) 0);
    [split; [done | intros (_ & _ & _ & _ & _ & _ & _ & ? & _); lia]|].
  all: destruct (List.find _ (Config.PassthroughStatusCodes c)) as [code|] eqn:Hcodes.
  all: try (split; [done|]; intros (_ & _ & _ & _ & _ & _ & _ & _ & Hall & _);
            apply find_some in Hcodes as [Hin Hbad];
            rewrite Forall_forall in Hall; apply list_elem_of_In, Hall in Hin;
            destruct (Z.ltb_spec code 400), (Z.gtb_spec code 599); simpl in Hbad; (done || lia)).
  all: apply find_None_Forall in Hcodes.
  all: destruct (Z.ltb_spec (Settings.DebugBodyMaxBytes s) 0);
    [split; [done | intros (_ & _ & _ & _ & _ & _ & _ & _ & _ & ? & _); lia]|].
  all: destruct (Z.ltb_spec (Config.MaxSidebandBodyBytes c) 0);
    [split; [done | intros (_ & _ & _ & _ & _ & _ & _ & _ & _ & _ & ? & _); lia]|].
  all: destruct (List.find _ (Config.MCPRetryMethods c)) as [m|] eqn:Hmethods.
  all: try (split; [done|]; intros (_ & _ & _ & _ & _ & _ & _ & _ & _ & _ & _ & Hall);
            apply find_some in Hmethods as [Hin Hbad];
            rewrite Forall_forall in Hall; apply list_elem_of_In, Hall in Hin;
            apply IsMCPMethod_elem_of in Hin; by rewrite Hin in Hbad).
  all: apply find_None_Forall in Hmethods.
  all: split; [intros _ | done].
  all: split; [done|]; split; [exists u; auto|].
  all: do 6 (split; [first [done | lia]|]).
  all: split;
    [eapply Forall_impl; [exact Hcodes|]; intros code Hcode; simpl in Hcode;
     destruct (Z.ltb_spec code 400), (Z.gtb_spec code 599); simpl in Hcode; (done || lia)|].
  all: do 2 (split; [lia|]).
  all: eapply Forall_impl; [exact Hmethods|]; intros m Hm; simpl in Hm;
    apply IsMCPMethod_elem_of; by destruct (IsMCPMethod m).
Qed.

End Validation.

(* --------------------------------------------------------------------- *)
(** ** MCP context of the payloads                                        *)
(* --------------------------------------------------------------------- *)

Section MCPPayloads.
Context {J : EncodingJSON} {C : Collaborators}.

Lemma extractMCPParams_fields method params ctx :
  MCPContext.Method (extractMCPParams method params ctx) = MCPContext.Method ctx /\
  MCPContext.JsonrpcID (extractMCPParams method params ctx) = MCPContext.JsonrpcID ctx /\
  (method <> "tools/call" ->
   MCPContext.ToolName (extractMCPParams method params ctx) = MCPContext.ToolName ctx /\
   MCPContext.ToolArguments (extractMCPParams method params ctx)
     = MCPContext.ToolArguments ctx) /\
  (method <> "resources/read" ->
   MCPContext.ResourceURI (extractMCPParams method params ctx)
     = MCPContext.ResourceURI ctx) /\
  (method <> "prompts/get" ->
   MCPContext.PromptName (extractMCPParams method params ctx)
     = MCPContext.PromptName ctx).
Proof.
  unfold extractMCPParams.
  destruct (Unmarshal_RawMap params) as [paramsMap|]; [|done].
  destruct (String.eqb_spec method "tools/call") as [->|Htc].
  { repeat case_match; simpl; repeat split; (done || congruence). }
  destruct (String.eqb_spec method "resources/read") as [->|Hrr].
  { repeat case_match; simpl; repeat split; (done || congruence). }
  destruct (String.eqb_spec method "prompts/get") as [->|Hpg].
  { repeat case_match; simpl; repeat split; (done || congruence). }
  done.
Qed.

(** X14.  A context ParseMCPRequest returns comes from a body that is not
    empty and decodes as a JSON-RPC request with [jsonrpc] equal to ["2.0"];
    its method is the request's and one of the seven MCP methods, its id is
    the request's id as it stood; and a tool name or tool arguments are
    present only for [tools/call], a resource URI only for [resources/read],
    a prompt name only for [prompts/get]. *)
Theorem ParseMCPRequest_fields (body : string) (ctx : MCPContext.t) :
  ParseMCPRequest body = Some ctx ->
  body <> "" /\
  exists rpc,
    Unmarshal_JsonRPCRequest body = Ok rpc /\
    JsonRPCRequest.Jsonrpc rpc = "2.0" /\
    MCPContext.Method ctx = JsonRPCRequest.Method rpc /\
    MCPContext.Method ctx ∈ mcpMethods /\
    MCPContext.JsonrpcID ctx = JsonRPCRequest.ID rpc /\
    (MCPContext.ToolName ctx <> "" \/ MCPContext.ToolArguments ctx <> None ->
     MCPContext.Method ctx = "tools/call") /\
    (MCPContext.ResourceURI ctx <> "" -> MCPContext.Method ctx = "resources/read") /\
    (MCPContext.PromptName ctx <> "" -> MCPContext.Method ctx = "prompts/get").
Proof.
  unfold ParseMCPRequest.
  destruct (len body =? 0) eqn:Hlen; [done|].
  destruct (Unmarshal_JsonRPCRequest body) as [rpc|]; [|done].
  destruct (String.eqb_spec (JsonRPCRequest.Jsonrpc rpc) "2.0") as [Hv|]; [|done].
  destruct (IsMCPMethod (JsonRPCRequest.Method rpc)) eqn:Hm; [|done]. simpl.
  apply IsMCPMethod_elem_of in Hm.
  set (ctx0 := {| MCPContext.Method := JsonRPCRequest.Method rpc;
                  MCPContext.ToolName := ""; MCPContext.ToolArguments := None;
                  MCPContext.ResourceURI := ""; MCPContext.PromptName := "";
                  MCPContext.JsonrpcID := JsonRPCRequest.ID rpc |}).
  assert (forall ctx',
            (ctx' = ctx0 \/
             exists params,
               ctx' = extractMCPParams (JsonRPCRequest.Method rpc) params ctx0) ->
            Some ctx' = Some ctx ->
            body <> "" /\
            exists rpc0,
              Ok rpc = Ok rpc0 /\ JsonRPCRequest.Jsonrpc rpc0 = "2.0" /\
              MCPContext.Method ctx = JsonRPCRequest.Method rpc0 /\
              MCPContext.Method ctx ∈ mcpMethods /\
              MCPContext.JsonrpcID ctx = JsonRPCRequest.ID rpc0 /\
              (MCPContext.ToolName ctx <> "" \/ MCPContext.ToolArguments ctx <> None ->
               MCPContext.Method ctx = "tools/call") /\
              (MCPContext.ResourceURI ctx <> "" ->
               MCPContext.Method ctx = "resources/read") /\
              (MCPContext.PromptName ctx <> "" ->
               MCPContext.Method ctx = "prompts/get")) as Hgoal.
  { intros ctx' Hctx' [= <-]. split.
    { intros ->. discriminate. }
    exists rpc. split; [done|]. split; [done|].
    destruct Hctx' as [->|[params ->]]; [by repeat split; try done; intros []|].
    destruct (extractMCPParams_fields (JsonRPCRequest.Method rpc) params ctx0)
      as (Hmeth & Hid & Htool & Hres & Hprompt).
    rewrite Hmeth, Hid. simpl. do 3 (split; [done|]). split; [|split].
    - intros Hset.
      destruct (decide (JsonRPCRequest.Method rpc = "tools/call")) as [|Hne]; [done|].
      destruct (Htool Hne) as [Hn Ha]. rewrite Hn, Ha in Hset. simpl in Hset.
      by destruct Hset.
    - intros Hset.
      destruct (decide (JsonRPCRequest.Method rpc = "resources/read")) as [|Hne]; [done|].
      rewrite (Hres Hne) in Hset. done.
    - intros Hset.
      destruct (decide (JsonRPCRequest.Method rpc = "prompts/get")) as [|Hne]; [done|].
      rewrite (Hprompt Hne) in Hset. done. }
  destruct (JsonRPCRequest.Params rpc) as [params|]; [|apply Hgoal; by left].
  destruct (len params >? 0); apply Hgoal; [right; by exists params | by left].
Qed.

(** X15.  The access payload: composeAccessPayload reads the request body;
    with [enable_mcp] the MCP context of the payload is what ParseMCPRequest
    finds in that body, without it there is none, and no extracted headers
    either; and [traffic_type] is ["mcp"] exactly when there is an MCP
    context (it is empty otherwise), also after the body was truncated. *)
Theorem composeAccessPayload_mcp (kong : PDK.t) (conf : Config.t)
  (req : SidebandAccessRequest.t) :
  composeAccessPayload kong conf = Ok req ->
  exists rawBody,
    PDK.Request_GetRawBody kong = Ok rawBody /\
    SidebandAccessRequest.MCP req =
      (if Config.EnableMCP conf then ParseMCPRequest rawBody else None) /\
    SidebandAccessRequest.TrafficType req =
      (match SidebandAccessRequest.MCP req with Some _ => "mcp" | None => "" end) /\
    (Config.EnableMCP conf = false -> SidebandAccessRequest.ExtractedHeaders req = None).
Proof.
  unfold composeAccessPayload.
  destruct (assembleAccessPayload kong conf) as [req0|] eqn:Hasm; [|done].
  simpl. intros [= <-].
  assert (exists rawBody,
            PDK.Request_GetRawBody kong = Ok rawBody /\
            SidebandAccessRequest.MCP req0 =
              (if Config.EnableMCP conf then ParseMCPRequest rawBody else None) /\
            SidebandAccessRequest.TrafficType req0 =
              (match SidebandAccessRequest.MCP req0 with Some _ => "mcp" | None => "" end) /\
            (Config.EnableMCP conf = false ->
             SidebandAccessRequest.ExtractedHeaders req0 = None)) as (rawBody & H1 & H2 & H3 & H4).
  { revert Hasm. unfold assembleAccessPayload.
    destruct (PDK.Client_GetIp kong); simpl; [|done].
    destruct (PDK.Client_GetPort kong); simpl; [|done].
    destruct (PDK.Request_GetMethod kong); simpl; [|done].
    destruct (buildForwardedURL kong); simpl; [|done].
    destruct (PDK.Request_GetRawBody kong) as [rawBody|]; simpl; [|done].
    destruct (PDK.Request_GetHeaders kong) as [hs|]; simpl; [|done].
    destruct (FormatHeaders hs); simpl; [|done].
    destruct (getHTTPVersion kong); simpl; [|done].
    intros Hasm. exists rawBody. split; [done|].
    destruct (getClientCertPEM kong) as [pem|]; simpl in Hasm.
    - destruct (negb (String.eqb pem "")); simpl in Hasm.
      + destruct (ExtractClientCertJWK pem _); simpl in Hasm; [|done].
        destruct (Config.EnableMCP conf); [|by injection Hasm as <-].
        destruct (ParseMCPRequest rawBody);
          destruct (Config.ExtractHeaders conf); try (by injection Hasm as <-);
          destruct (0 <? size _)%nat; by injection Hasm as <-.
      + destruct (Config.EnableMCP conf); [|by injection Hasm as <-].
        destruct (ParseMCPRequest rawBody);
          destruct (Config.ExtractHeaders conf); try (by injection Hasm as <-);
          destruct (0 <? size _)%nat; by injection Hasm as <-.
    - destruct (Config.EnableMCP conf); [|by injection Hasm as <-].
      destruct (ParseMCPRequest rawBody);
        destruct (Config.ExtractHeaders conf); try (by injection Hasm as <-);
        destruct (0 <? size _)%nat; by injection Hasm as <-. }
  exists rawBody. split; [done|].
  unfold payloadSizeEnforcement.
  destruct (_ >? 0); [|done].
  destruct (Marshal_SidebandAccessRequest req0); [|done].
  destruct (_ >? _); done.
Qed.

(** X16.  The response payload: its [traffic_type] is ["mcp"] exactly when
    it has an MCP context.  With [enable_mcp] that context is the one
    ParseMCPRequest finds in the body of the payload and, failing that, the
    context of the original request; without [enable_mcp] there is none and
    the body is the upstream body as it came (an event stream is not
    reduced to its final message). *)
Theorem composeResponsePayload_mcp (kong : PDK.t) (conf : Config.t)
  (originalRequest : option SidebandAccessRequest.t) (state : RawMessage)
  (payload : SidebandResponsePayload.t) :
  composeResponsePayload kong conf originalRequest state = Ok payload ->
  SidebandResponsePayload.TrafficType payload =
    (match SidebandResponsePayload.MCP payload with Some _ => "mcp" | None => "" end) /\
  (if Config.EnableMCP conf then
     SidebandResponsePayload.MCP payload =
       match ParseMCPRequest (SidebandResponsePayload.Body payload) with
       | Some mcpCtx => Some mcpCtx
       | None => originalMCP originalRequest
       end
   else
     SidebandResponsePayload.MCP payload = None /\
     PDK.ServiceResponse_GetRawBody kong = Ok (SidebandResponsePayload.Body payload)).
Proof.
  unfold composeResponsePayload.
  destruct (PDK.Request_GetMethod kong); simpl; [|done].
  destruct (buildForwardedURL kong); simpl; [|done].
  destruct (PDK.ServiceResponse_GetRawBody kong); simpl; [|done].
  destruct (PDK.ServiceResponse_GetStatus kong); simpl; [|done].
  destruct (PDK.ServiceResponse_GetHeaders kong) as [hs|]; simpl; [|done].
  destruct (FormatHeaders hs); simpl; [|done].
  destruct (getHTTPVersion kong); simpl; [|done].
  intros [= <-].
  destruct (Config.EnableMCP conf).
  - destruct (raw_len state >? 0); [|destruct originalRequest as [orig|]]; simpl.
    all: destruct (ParseMCPRequest _) as [ctx|] eqn:Hp; simpl; rewrite ?Hp; try done.
    all: try (destruct (SidebandAccessRequest.MCP orig); simpl; by rewrite ?Hp).
    destruct (originalMCP originalRequest); simpl; by rewrite ?Hp.
  - destruct (raw_len state >? 0); [|destruct originalRequest as [orig|]]; done.
Qed.


End MCPPayloads.

Lemma ParseMCPRequest_fields_witness :
  toolNameBody <> "" /\
  exists rpc,
    @Unmarshal_JsonRPCRequest MiniJSON toolNameBody = Ok rpc /\
    JsonRPCRequest.Jsonrpc rpc = "2.0" /\
    MCPContext.Method (mcpWithID (Some "1")) = JsonRPCRequest.Method rpc /\
    MCPContext.Method (mcpWithID (Some "1")) ∈ mcpMethods /\
    MCPContext.JsonrpcID (mcpWithID (Some "1")) = JsonRPCRequest.ID rpc /\
    (MCPContext.ToolName (mcpWithID (Some "1")) <> "" \/
     MCPContext.ToolArguments (mcpWithID (Some "1")) <> None ->
     MCPContext.Method (mcpWithID (Some "1")) = "tools/call") /\
    (MCPContext.ResourceURI (mcpWithID (Some "1")) <> "" ->
     MCPContext.Method (mcpWithID (Some "1")) = "resources/read") /\
    (MCPContext.PromptName (mcpWithID (Some "1")) <> "" ->
     MCPContext.Method (mcpWithID (Some "1")) = "prompts/get").
Proof.
  apply (@ParseMCPRequest_fields MiniJSON toolNameBody (mcpWithID (Some "1"))).
  vm_compute. reflexivity.
Defined.

Lemma composeAccessPayload_mcp_witness :
  exists rawBody,
    PDK.Request_GetRawBody (sampleKong toolsCallBody noContext) = Ok rawBody /\
    SidebandAccessRequest.MCP sampleAccessPayload =
      (if Config.EnableMCP retryConfig then @ParseMCPRequest MiniJSON rawBody else None) /\
    SidebandAccessRequest.TrafficType sampleAccessPayload =
      (match SidebandAccessRequest.MCP sampleAccessPayload with
       | Some _ => "mcp" | None => "" end) /\
    (Config.EnableMCP retryConfig = false ->
     SidebandAccessRequest.ExtractedHeaders sampleAccessPayload = None).
Proof.
  apply (@composeAccessPayload_mcp MiniJSON SampleCollaborators
           (sampleKong toolsCallBody noContext) retryConfig sampleAccessPayload).
  vm_compute. reflexivity.
Defined.

Lemma composeResponsePayload_mcp_witness :
  SidebandResponsePayload.TrafficType sampleResponsePayload =
    (match SidebandResponsePayload.MCP sampleResponsePayload with
     | Some _ => "mcp" | None => "" end) /\
  (if Config.EnableMCP retryConfig then
     SidebandResponsePayload.MCP sampleResponsePayload =
       match @ParseMCPRequest MiniJSON (SidebandResponsePayload.Body sampleResponsePayload) with
       | Some mcpCtx => Some mcpCtx
       | None => originalMCP (Some sampleAccessPayload)
       end
   else
     SidebandResponsePayload.MCP sampleResponsePayload = None /\
     PDK.ServiceResponse_GetRawBody (sampleKong toolsCallBody noContext)
       = Ok (SidebandResponsePayload.Body sampleResponsePayload)).
Proof.
  apply (@composeResponsePayload_mcp MiniJSON SampleCollaborators
           (sampleKong toolsCallBody noContext) retryConfig
           (Some sampleAccessPayload) None sampleResponsePayload).
  vm_compute. reflexivity.
Defined.

(* --------------------------------------------------------------------- *)
(** ** RedactHeaders                                                      *)
(* --------------------------------------------------------------------- *)

(** A header name RedactHeaders treats as sensitive. *)
Lemma RedactHeaders_map headers redactSet secretHeaderName :
  RedactHeaders headers redactSet secretHeaderName =
  map (fun entry : WireEntry =>
         map (fun nv : string * string =>
                if (default false (redactSet !! ToLower nv.1)
                    || String.eqb (ToLower nv.1) (ToLower secretHeaderName))%bool
                then (nv.1, "[REDACTED]") else (nv.1, nv.2)) entry) headers.
Proof. by destruct headers. Qed.

(** X18.  RedactHeaders keeps the number of entries and, entry by entry,
    the header names in their order; the value of a header whose lower-case
    name is marked in the redact set, or equals the secret header name up to
    case, is replaced by [[REDACTED]], so that the secret never appears under
    its own header name; every other value is kept; and redacting twice is
    redacting once. *)
Theorem RedactHeaders_redacts (headers : list WireEntry) (redactSet : gmap string bool)
  (secretHeaderName : string) :
  let redacted := RedactHeaders headers redactSet secretHeaderName in
  map (map fst) redacted = map (map fst) headers /\
  (forall (i j : nat) (entry : WireEntry) (name value : string),
     headers !! i = Some entry -> entry !! j = Some (name, value) ->
     exists entry',
       redacted !! i = Some entry' /\
       entry' !! j =
         Some (name,
               if decide (redactSet !! ToLower name = Some true \/
                          ToLower name = ToLower secretHeaderName)
               then "[REDACTED]" else value)) /\
  RedactHeaders redacted redactSet secretHeaderName = redacted.
Proof.
  cbv zeta. rewrite !RedactHeaders_map. split; [|split].
  - rewrite map_map. apply map_ext. intros entry. rewrite map_map.
    apply map_ext. intros [n v]. simpl. by destruct (_ || _)%bool.
  - intros i j entry name value Hi Hj.
    assert (forall (A B : Type) (f : A -> B) (l : list A) (n : nat),
              map f l !! n = f <$> (l !! n)) as Hmap
      by (intros; apply list_lookup_fmap).
    eexists. split.
    + rewrite Hmap, Hi. reflexivity.
    + unfold WireEntry in *. rewrite (Hmap _ _ _ entry j), Hj. simpl.
      case_decide as Hd.
      * destruct Hd as [Hr|He]; [by rewrite Hr|].
        by rewrite He, String.eqb_refl, orb_true_r.
      * destruct (redactSet !! ToLower name) as [[|]|] eqn:Hr; simpl;
          [exfalso; apply Hd; by left| |];
          (destruct (String.eqb_spec (ToLower name) (ToLower secretHeaderName));
           [exfalso; apply Hd; by right | done]).
  - rewrite map_map. apply map_ext. intros entry. rewrite map_map.
    apply map_ext. intros [n v]. simpl.
    destruct (default false (redactSet !! ToLower n) || _)%bool eqn:Hs; simpl; by rewrite Hs.
Qed.


(* --------------------------------------------------------------------- *)
(** ** The provider's decision in the access phase                        *)
(* --------------------------------------------------------------------- *)

Lemma exits_app calls1 calls2 : exits (calls1 ++ calls2) = (exits calls1 + exits calls2)%nat.
Proof. unfold exits. by rewrite filter_app, length_app. Qed.

Lemma exits_cons c calls :
  exits (c :: calls) = ((if isExit c then 1 else 0) + exits calls)%nat.
Proof. unfold exits. rewrite filter_cons. by destruct c. Qed.

Lemma exits_clientResponse calls : exits calls = 0%nat -> clientResponse calls = None.
Proof.
  unfold exits. induction calls as [|c calls IH]; [done|].
  rewrite filter_cons. destruct c; simpl; try done; auto.
Qed.

Lemma Forall_flat_map {A B : Type} (P : B -> Prop) (f : A -> list B) (l : list A) :
  (forall x, Forall P (f x)) -> Forall P (flat_map f l).
Proof.
  intros Hf. induction l as [|x l IH]; simpl; [constructor|].
  apply Forall_app. split; [apply Hf | exact IH].
Qed.

Lemma Forall_exits (calls : list PDKCall) :
  Forall (fun c => isExit c = false) calls -> exits calls = 0%nat.
Proof.
  unfold exits. induction 1 as [|c calls Hc _ IH]; [done|].
  rewrite filter_cons. by rewrite Hc.
Qed.

Section Decision.
Context {J : EncodingJSON} {C : Collaborators}.

(** Every call updateRequest makes is a log line or a change of the request
    that goes upstream. *)
Lemma updateRequest_calls kong conf resp payload :
  Forall (fun c => isExit c = false /\ isSetShared c = false)
    (updateRequest kong conf resp payload).
Proof.
  unfold updateRequest.
  destruct (PDK.Request_GetHeaders kong) as [currentHeaders|]; [|by repeat constructor].
  repeat apply Forall_app_2.
  - apply Forall_flat_map. intros nv. destruct (_ !! _); by repeat constructor.
  - apply Forall_flat_map. intros nv. destruct (if _ !! _ is Some _ then _ else _); [|constructor].
    destruct nv.2 as [|v vs]; [constructor|]. constructor; [done|].
    apply Forall_forall. intros c [v' [-> _]]%list_elem_of_fmap. done.
  - destruct (Config.StripAcceptEncoding conf); by repeat constructor.
  - destruct (negb _); [|constructor]. destruct (negb _); by repeat constructor.
  - destruct (negb _); [|constructor]. destruct (negb _); [|constructor].
    unfold updateURL. destruct (url_Parse _); [|by repeat constructor].
    destruct (url_Parse _); [|by repeat constructor].
    repeat apply Forall_app_2; destruct (negb _); by repeat constructor.
  - unfold updateBody. destruct (SidebandAccessResponse.Body resp); [|constructor].
    destruct (negb _); [|constructor].
    destruct (Config.EnableMCP conf), (SidebandAccessRequest.MCP payload);
      try by repeat constructor.
    unfold ensureValidJsonRPC. destruct (Unmarshal_JsonRPCRequest _);
      [destruct (negb _)|]; by repeat constructor.
Qed.

(** X19.  handleAccessResponse answers the client exactly when the
    provider's reply has a [response] field.  It then answers once, with the
    status of the denial (403 when that is not a number), returns the error
    [request denied with status <status>], and leaves the request that goes
    upstream alone.  Without a [response] field it never answers the client:
    it returns the [state] of the reply and only logs and changes the
    upstream request. *)
Theorem handleAccessResponse_decision (kong : PDK.t) (conf : Config.t)
  (resp : SidebandAccessResponse.t) (payload : SidebandAccessRequest.t) :
  match SidebandAccessResponse.Response resp with
  | Some deny =>
      let status := default 403 (Atoi (DenyResponse.ResponseCode deny)) in
      exits (handleAccessResponse kong conf resp payload).1 = 1%nat /\
      (exists body headers,
         clientResponse (handleAccessResponse kong conf resp payload).1
           = Some (status, body, headers)) /\
      (handleAccessResponse kong conf resp payload).2
        = Err ("request denied with status " +:+ Itoa status) /\
      Forall (fun c => isServiceRequest c = false)
        (handleAccessResponse kong conf resp payload).1
  | None =>
      exits (handleAccessResponse kong conf resp payload).1 = 0%nat /\
      clientResponse (handleAccessResponse kong conf resp payload).1 = None /\
      (handleAccessResponse kong conf resp payload).2
        = Ok (SidebandAccessResponse.State resp) /\
      Forall (fun c => isSetShared c = false)
        (handleAccessResponse kong conf resp payload).1
  end.
Proof.
  unfold handleAccessResponse.
  destruct (SidebandAccessResponse.Response resp) as [deny|].
  - destruct (Config.MCPJsonrpcErrors conf), (SidebandAccessRequest.MCP payload);
      simpl; (split; [done|]); (split; [by destruct (Atoi _); eauto|]);
      (split; [by destruct (Atoi _)|]); by repeat constructor.
  - simpl. pose proof (updateRequest_calls kong conf resp payload) as Hcalls.
    assert (exits (updateRequest kong conf resp payload) = 0%nat) as Hex.
    { apply Forall_exits. eapply Forall_impl; [exact Hcalls|]. by intros c [? _]. }
    split; [done|]. split; [by apply exits_clientResponse|]. split; [done|].
    eapply Forall_impl; [exact Hcalls|]. by intros c [_ ?].
Qed.

Lemma stringSliceEqual_refl a : stringSliceEqual a a = true.
Proof. induction a as [|x a IH]; simpl; [done|]. by rewrite String.eqb_refl. Qed.

Lemma flat_map_nil {A B : Type} (f : A -> list B) (l : list A) :
  (forall x, x ∈ l -> f x = []) -> flat_map f l = [].
Proof.
  induction l as [|x l IH]; intros Hf; simpl; [done|].
  rewrite (Hf x) by (apply elem_of_cons; by left). simpl.
  apply IH. intros y Hy. apply Hf. apply elem_of_cons. by right.
Qed.

(** The loop of updateRequest that lower-cases the current header names
    builds the map [lowercase_keys] when no two names collide. *)
Lemma currentFlat_lowercase_keys (currentHeaders : list (string * list string)) :
  NoDup (map (fun nv => ToLower nv.1) currentHeaders) ->
  fold_left (fun (m : gmap string (list string)) nv => <[ToLower nv.1 := nv.2]> m)
    currentHeaders ∅
  = lowercase_keys currentHeaders.
Proof.
  intros Hnd. apply map_eq. intros k.
  assert (forall acc : gmap string (list string),
            fold_left (fun (m : gmap string (list string)) nv => <[ToLower nv.1 := nv.2]> m)
              currentHeaders acc !! k =
            match lowercase_keys currentHeaders !! k with
            | Some vs => Some vs
            | None => acc !! k
            end) as Hgen.
  { unfold lowercase_keys. induction currentHeaders as [|[n vs] l IH]; intros acc; simpl.
    - by rewrite lookup_empty.
    - apply NoDup_cons in Hnd as [Hn Hnd]. rewrite (IH Hnd).
      destruct (decide (ToLower n = k)) as [<-|Hne].
      + rewrite lookup_insert_eq.
        rewrite (not_elem_of_list_to_map_1 (map (fun nv => (ToLower nv.1, nv.2)) l) (ToLower n)).
        * by rewrite lookup_insert_eq.
        * intros Hin. apply Hn. revert Hin.
          change (map ?f ?x).*1 with (map fst (map f x)). by rewrite map_map.
      + by rewrite !lookup_insert_ne by done. }
  rewrite Hgen, lookup_empty. by destruct (_ !! k).
Qed.

(** X20.  For a request whose current header names are pairwise distinct
    up to case and whose headers all have at least one value: when the
    provider allows the request and returns it as it was sent (the headers in
    their wire form, the method, the URL and the body, each of them the
    current one or left out), updateRequest changes nothing of the upstream
    request except that it clears [Accept-Encoding] when
    [strip_accept_encoding] is set.  (Both conditions on the current headers
    are needed: a header with an empty value list is cleared, and names that
    collide up to case are set again.) *)
Theorem updateRequest_unchanged (kong : PDK.t) (conf : Config.t)
  (resp : SidebandAccessResponse.t) (payload : SidebandAccessRequest.t)
  (currentHeaders : list (string * list string)) :
  PDK.Request_GetHeaders kong = Ok currentHeaders ->
  NoDup (map (fun nv => ToLower nv.1) currentHeaders) ->
  Forall (fun nv => nv.2 <> []) currentHeaders ->
  FormatHeaders currentHeaders = Ok (SidebandAccessResponse.Headers resp) ->
  (SidebandAccessResponse.Method resp = "" \/
   PDK.Request_GetMethod kong = Ok (SidebandAccessResponse.Method resp)) ->
  (SidebandAccessResponse.URL resp = "" \/
   buildForwardedURL kong = Ok (SidebandAccessResponse.URL resp)) ->
  (SidebandAccessResponse.Body resp = None \/
   exists b, SidebandAccessResponse.Body resp = Some b /\
             PDK.Request_GetRawBody kong = Ok b) ->
  updateRequest kong conf resp payload =
    if Config.StripAcceptEncoding conf
    then [ServiceRequest_ClearHeader "Accept-Encoding"] else [].
Proof.
  intros Hh Hnd Hne Hwire Hmethod Hurl Hbody. unfold updateRequest. rewrite Hh.
  rewrite (currentFlat_lowercase_keys _ Hnd).
  rewrite (FlattenHeaders_FormatHeaders_map _ _ Hnd Hne Hwire).
  rewrite !flat_map_nil.
  - simpl.
    assert ((if negb (String.eqb (SidebandAccessResponse.Method resp) "")
             then if negb (String.eqb (SidebandAccessResponse.Method resp)
                             (orZero "" (PDK.Request_GetMethod kong)))
                  then [ServiceRequest_SetMethod (SidebandAccessResponse.Method resp)]
                  else []
             else []) = []) as ->.
    { destruct Hmethod as [-> | ->]; [done|]. simpl.
      rewrite String.eqb_refl. by destruct (negb _). }
    assert ((if negb (String.eqb (SidebandAccessResponse.URL resp) "")
             then if negb (String.eqb (SidebandAccessResponse.URL resp)
                             (orZero "" (buildForwardedURL kong)))
                  then updateURL (SidebandAccessResponse.URL resp)
                         (orZero "" (buildForwardedURL kong))
                  else []
             else []) = []) as ->.
    { destruct Hurl as [-> | ->]; [done|]. simpl.
      rewrite String.eqb_refl. by destruct (negb _). }
    assert (updateBody kong conf resp payload = []) as ->.
    { unfold updateBody. destruct Hbody as [->|(b & -> & ->)]; [done|]. simpl.
      by rewrite String.eqb_refl. }
    simpl. by rewrite app_nil_r.
  - intros [k vs] Hin. apply elem_of_map_to_list in Hin. simpl. rewrite Hin.
    by rewrite stringSliceEqual_refl.
  - intros [k vs] Hin. apply elem_of_map_to_list in Hin. simpl. by rewrite Hin.
Qed.

End Decision.

Lemma updateRequest_unchanged_witness :
  @updateRequest MiniJSON SampleCollaborators (sampleKong "{}" noContext)
    defaultConfig sampleEcho (samplePayload "{}" None) =
    if Config.StripAcceptEncoding defaultConfig
    then [ServiceRequest_ClearHeader "Accept-Encoding"] else [].
Proof.
  apply (@updateRequest_unchanged MiniJSON SampleCollaborators
           (sampleKong "{}" noContext) defaultConfig sampleEcho
           (samplePayload "{}" None) [("content-type", ["application/json"])]).
  - reflexivity.
  - compute_done.
  - repeat constructor; simpl; discriminate.
  - reflexivity.
  - by right.
  - by right.
  - right. by exists "{}".
Defined.

(* --------------------------------------------------------------------- *)
(** ** The two phases                                                     *)
(* --------------------------------------------------------------------- *)

Lemma clientResponse_app calls1 calls2 :
  clientResponse (calls1 ++ calls2) =
    match clientResponse calls1 with
    | Some r => Some r
    | None => clientResponse calls2
    end.
Proof. induction calls1 as [|c calls1 IH]; [done|]. by destruct c. Qed.

Lemma Forall_isLog_exits calls :
  Forall (fun c => isLog c = true) calls -> exits calls = 0%nat.
Proof.
  intros H. apply Forall_exits. eapply Forall_impl; [exact H|]. by intros [].
Qed.

Lemma Forall_isSetShared_exits calls :
  Forall (fun c => isSetShared c = true) calls -> exits calls = 0%nat.
Proof.
  intros H. apply Forall_exits. eapply Forall_impl; [exact H|]. by intros [].
Qed.

(** After [k] transient failures a reply below 500 (a 429 among them) is
    what Execute returns, with a nil error. *)
Lemma Execute_reply conf p mcpMethod w cb k sc h b :
  Allow (breaker w) (now w) = (true, None, cb) ->
  (k < Z.to_nat (maxAttempts conf mcpMethod))%nat ->
  (forall j, (j < k)%nat -> transient (outcome (p j))) ->
  outcome (p k) = HTTPResponse sc h b ->
  sc < 500 ->
  (Execute conf p mcpMethod w).1 =
    {| statusCode := sc; respHeaders := Some h; respBody := Some b; err := None |} /\
  requests (Execute conf p mcpMethod w).2 = (requests w + S k)%nat.
Proof.
  intros Hallow Hk Htr Hout Hlt.
  rewrite (Execute_allowed _ _ _ _ _ Hallow).
  destruct (Z.to_nat (maxAttempts conf mcpMethod)) as [|fuel] eqn:Hfuel; [lia|].
  replace (S fuel) with (k + S (fuel - k))%nat by lia.
  destruct (retry_loop_transient conf p k (S (fuel - k)) 0
              {| lastErr := None; lastStatus := 0; lastHeaders := None; lastBody := None |}
              (set_breaker w cb) Htr)
    as (last' & w1 & -> & Hreq & _).
  cbn [Nat.add retry_loop]. unfold doRequest. rewrite Hout.
  destruct (Z.eqb_spec sc 429) as [->|_].
  - simpl in *. split; [done|]. destruct (0 <? k)%nat; simpl; lia.
  - destruct (Z.geb_spec sc 500); [lia|].
    simpl in *. split; [done|]. destruct (0 <? k)%nat; simpl; lia.
Qed.

(** When every attempt fails transiently Execute returns a plain error and
    has tripped the breaker. *)
Lemma Execute_transient conf p mcpMethod w cb n :
  Allow (breaker w) (now w) = (true, None, cb) ->
  maxAttempts conf mcpMethod = Z.of_nat (S n) ->
  (forall j, (j <= n)%nat -> transient (outcome (p j))) ->
  (exists msg, err (Execute conf p mcpMethod w).1 = Some (ErrMessage msg)) /\
  requests (Execute conf p mcpMethod w).2 = (requests w + S n)%nat /\
  exists trigger t,
    trigger <> TriggerNone /\
    breaker (Execute conf p mcpMethod w).2 = Trip cb trigger 30 t.
Proof.
  intros Hallow Hmax Htr.
  rewrite (Execute_allowed _ _ _ _ _ Hallow), Hmax, Nat2Z.id.
  destruct (retry_loop_transient conf p (S n) 0 0
              {| lastErr := None; lastStatus := 0; lastHeaders := None; lastBody := None |}
              (set_breaker w cb))
    as (last' & w1 & Hloop & Hreq & Hbr & _ & _ & Hlast).
  { intros j Hj. apply Htr. simpl. lia. }
  replace (S n + 0)%nat with (S n) in Hloop by lia. rewrite Hloop.
  specialize (Hlast n eq_refl). simpl in Hlast, Hreq, Hbr.
  cbn [retry_loop]. pose proof (Htr n ltac:(lia)) as Hn.
  destruct (outcome (p n)) as [e|sc h b]; subst last';
    cbn [lastOf lastErr lastStatus lastHeaders lastBody].
  - simpl. split; [by eexists|]. split; [done|].
    exists TriggerTimeout, (now w1). split; [done|]. by rewrite Hbr.
  - destruct Hn as [_ Hge].
    destruct (Z.geb_spec sc 500); [|lia]. destruct (Z.gtb_spec sc 0); [|lia].
    simpl. split; [by eexists|]. split; [done|].
    exists Trigger5xx, (now w1). split; [done|]. by rewrite Hbr.
Qed.

Section PhaseTheorems.
Context {J : EncodingJSON} {PJ : ProviderJSON} {C : Collaborators}
  {U : PackageURL} {E : ErrorTexts}.

Lemma DebugLogPayload_logs direction payload s conf :
  Forall (fun c => isLog c = true) (DebugLogPayload direction payload s conf).
Proof.
  unfold DebugLogPayload, logMCPContext. destruct (negb _); [constructor|].
  apply Forall_app_2.
  - destruct (Config.EnableMCP conf); [|constructor].
    destruct payload as [p|p|p|p]; try constructor.
    + destruct (SidebandAccessRequest.MCP p); by repeat constructor.
    + destruct (SidebandResponsePayload.MCP p); by repeat constructor.
  - destruct (Marshal_Payload payload); by repeat constructor.
Qed.

Lemma storePerRequestContext_shared req state :
  Forall (fun c => isSetShared c = true) (storePerRequestContext req state).
Proof.
  unfold storePerRequestContext. repeat apply Forall_app_2.
  - destruct (Marshal_SidebandAccessRequest req); by repeat constructor.
  - destruct state; by repeat constructor.
  - destruct (SidebandAccessRequest.MCP req) as [mcp|]; [|constructor].
    destruct (Marshal_MCPContext mcp); by repeat constructor.
Qed.

Lemma exits_handleCircuitBreakerError cbErr conf payload :
  (exits (handleCircuitBreakerError cbErr conf payload) <= 1)%nat.
Proof.
  unfold handleCircuitBreakerError.
  destruct (decide _); [|destruct (Config.FailOpen conf)];
    destruct (Config.MCPJsonrpcErrors conf), (SidebandAccessRequest.MCP payload);
    simpl; unfold exits; simpl; lia.
Qed.

Lemma exits_handleEvalError conf e failed unreachable failOpen :
  exits failOpen = 0%nat ->
  (exits (handleEvalError conf e failed unreachable failOpen) <= 1)%nat.
Proof.
  intros H0. unfold handleEvalError.
  destruct e as [g|httpErr|msg].
  - rewrite exits_cons. destruct (Config.FailOpen conf); simpl; [lia|].
    unfold exits; simpl; lia.
  - destruct (isPassthroughCode _ _); [unfold exits; simpl; lia|].
    rewrite exits_cons. destruct (Config.FailOpen conf); simpl; [lia|].
    unfold exits; simpl; lia.
  - rewrite exits_cons. destruct (Config.FailOpen conf); simpl; [lia|].
    unfold exits; simpl; lia.
Qed.

Lemma handleAccessResponse_exits kong conf resp payload :
  match (handleAccessResponse kong conf resp payload).2 with
  | Err _ => exits (handleAccessResponse kong conf resp payload).1 = 1%nat
  | Ok _ => exits (handleAccessResponse kong conf resp payload).1 = 0%nat
  end.
Proof.
  unfold handleAccessResponse.
  destruct (SidebandAccessResponse.Response resp) as [deny|].
  - by destruct (Config.MCPJsonrpcErrors conf), (SidebandAccessRequest.MCP payload).
  - simpl. apply Forall_exits.
    eapply Forall_impl; [apply updateRequest_calls|]. by intros c [? _].
Qed.

Lemma exits_handleResponseResult kong conf result :
  exits (handleResponseResult kong conf result) = 1%nat.
Proof.
  unfold handleResponseResult.
  destruct (PDK.ServiceResponse_GetHeaders kong);
    by rewrite ?upstreamHeaderLoop_makes_no_call.
Qed.

(** executeAccess once the service URL is parsed and the payload composed
    and encoded: the calls that follow the result of Execute. *)
Lemma executeAccess_eq kong s conf server w parsedURL payload body :
  ParseURL (Settings.ServiceURL s) = Ok parsedURL ->
  composeAccessPayload kong conf = Ok payload ->
  Marshal_SidebandAccessRequest payload = Ok body ->
  executeAccess kong s conf server w =
    (DebugLogPayload "Sending sideband request" (PAccessRequest payload) s conf
     ++ match evaluate Unmarshal_SidebandAccessResponse "access response"
                (Execute conf
                   (server (BuildSidebandURL parsedURL "/sideband/request") body)
                   (mcpMethodOf (SidebandAccessRequest.MCP payload)) w).1 with
        | inr (FromExecute (ErrCircuitOpen cbErr)) =>
            handleCircuitBreakerError cbErr conf payload
        | inr e =>
            handleEvalError conf e "Sideband request failed"
              "PingAuthorize unreachable"
              (Log LevelWarn
                 "PingAuthorize unreachable, fail-open enabled, allowing request"
               :: storePerRequestContext payload None)
        | inl resp =>
            DebugLogPayload "Received sideband response" (PAccessResponse resp) s conf
            ++ (handleAccessResponse kong conf resp payload).1
            ++ match (handleAccessResponse kong conf resp payload).2 with
               | Err _ => []
               | Ok state => storePerRequestContext payload state
               end
        end,
     (Execute conf (server (BuildSidebandURL parsedURL "/sideband/request") body)
        (mcpMethodOf (SidebandAccessRequest.MCP payload)) w).2).
Proof.
  intros Hurl Hpayload Hbody. unfold executeAccess, EvaluateRequest.
  rewrite Hurl, Hpayload, Hbody.
  destruct (Execute _ _ _ _) as [r w']. cbn [fst snd].
  destruct (evaluate _ _ r) as [resp|[[cbErr|msg]|httpErr|msg]]; try done.
  destruct (handleAccessResponse kong conf resp payload) as [calls [state|e]]; simpl.
  - done.
  - by rewrite app_nil_r.
Qed.

(** The same for executeResponse. *)
Lemma executeResponse_eq kong s conf server w parsedURL originalRequest state payload body :
  ParseURL (Settings.ServiceURL s) = Ok parsedURL ->
  loadPerRequestContext kong = Ok (originalRequest, state) ->
  composeResponsePayload kong conf (Some originalRequest) state = Ok payload ->
  Marshal_SidebandResponsePayload payload = Ok body ->
  executeResponse kong s conf server w =
    (DebugLogPayload "Sending sideband response" (PResponsePayload payload) s conf
     ++ match evaluate Unmarshal_SidebandResponseResult "response result"
                (Execute conf
                   (server (BuildSidebandURL parsedURL "/sideband/response") body)
                   (mcpMethodOf (SidebandResponsePayload.MCP payload)) w).1 with
        | inr (FromExecute (ErrCircuitOpen cbErr)) =>
            handleCircuitBreakerErrorResponse cbErr conf (Some originalRequest)
        | inr e =>
            handleEvalError conf e "Sideband response failed"
              "PingAuthorize unreachable during response phase"
              [Log LevelWarn
                 "PingAuthorize unreachable during response phase, fail-open, passing upstream response through"]
        | inl result =>
            DebugLogPayload "Received sideband response result"
              (PResponseResult result) s conf
            ++ handleResponseResult kong conf result
        end,
     (Execute conf (server (BuildSidebandURL parsedURL "/sideband/response") body)
        (mcpMethodOf (SidebandResponsePayload.MCP payload)) w).2).
Proof.
  intros Hurl Hload Hpayload Hbody. unfold executeResponse, EvaluateResponse.
  rewrite Hurl, Hload, Hpayload, Hbody.
  destruct (Execute _ _ _ _) as [r w']. cbn [fst snd].
  by destruct (evaluate _ _ r) as [result|[[cbErr|msg]|httpErr|msg]].
Qed.

(** X21.  Neither phase answers the client twice: whatever the gateway,
    the configuration and the provider do, executeAccess and executeResponse
    each call [kong.Response.Exit] at most once. *)
Theorem phases_answer_at_most_once (kong : PDK.t) (s : Settings.t) (conf : Config.t)
  (server : Server) (w : World) :
  (exits (executeAccess kong s conf server w).1 <= 1)%nat /\
  (exits (executeResponse kong s conf server w).1 <= 1)%nat.
Proof.
  split.
  - destruct (ParseURL (Settings.ServiceURL s)) as [parsedURL|] eqn:Hurl.
    2: { unfold executeAccess. rewrite Hurl. unfold exits. simpl. lia. }
    destruct (composeAccessPayload kong conf) as [payload|] eqn:Hpayload.
    2: { unfold executeAccess. rewrite Hurl, Hpayload. unfold exits. simpl. lia. }
    destruct (Marshal_SidebandAccessRequest payload) as [body|] eqn:Hbody.
    2: { unfold executeAccess, EvaluateRequest. rewrite Hurl, Hpayload, Hbody.
         cbn [fst]. rewrite exits_app, (Forall_isLog_exits _ (DebugLogPayload_logs _ _ _ _)).
         apply exits_handleEvalError.
         change (exits ([Log LevelWarn "PingAuthorize unreachable, fail-open enabled, allowing request"]
                        ++ storePerRequestContext payload None) = 0%nat).
         rewrite exits_app. by rewrite (Forall_isSetShared_exits _ (storePerRequestContext_shared _ _)). }
    rewrite (executeAccess_eq _ _ _ _ _ _ _ _ Hurl Hpayload Hbody). cbn [fst].
    rewrite exits_app, (Forall_isLog_exits _ (DebugLogPayload_logs _ _ _ _)). simpl.
    assert (exits (Log LevelWarn "PingAuthorize unreachable, fail-open enabled, allowing request"
                   :: storePerRequestContext payload None) = 0%nat) as Hopen.
    { change (exits ([Log LevelWarn "PingAuthorize unreachable, fail-open enabled, allowing request"]
                     ++ storePerRequestContext payload None) = 0%nat).
      rewrite exits_app. by rewrite (Forall_isSetShared_exits _ (storePerRequestContext_shared _ _)). }
    destruct (evaluate _ _ _) as [resp|[[cbErr|msg]|httpErr|msg]].
    + rewrite !exits_app, (Forall_isLog_exits _ (DebugLogPayload_logs _ _ _ _)).
      pose proof (handleAccessResponse_exits kong conf resp payload) as Hex.
      destruct (handleAccessResponse kong conf resp payload).2 as [state|e].
      * rewrite Hex, (Forall_isSetShared_exits _ (storePerRequestContext_shared _ _)). lia.
      * rewrite Hex. unfold exits. simpl. lia.
    + apply exits_handleCircuitBreakerError.
    + by apply exits_handleEvalError.
    + by apply exits_handleEvalError.
    + by apply exits_handleEvalError.
  - destruct (ParseURL (Settings.ServiceURL s)) as [parsedURL|] eqn:Hurl.
    2: { unfold executeResponse. rewrite Hurl. unfold exits. simpl. lia. }
    destruct (loadPerRequestContext kong) as [[originalRequest state]|] eqn:Hload.
    2: { unfold executeResponse. rewrite Hurl, Hload. unfold exits. simpl. lia. }
    destruct (composeResponsePayload kong conf (Some originalRequest) state)
      as [payload|] eqn:Hpayload.
    2: { unfold executeResponse. rewrite Hurl, Hload, Hpayload. unfold exits. simpl. lia. }
    destruct (Marshal_SidebandResponsePayload payload) as [body|] eqn:Hbody.
    2: { unfold executeResponse, EvaluateResponse. rewrite Hurl, Hload, Hpayload, Hbody.
         cbn [fst]. rewrite exits_app, (Forall_isLog_exits _ (DebugLogPayload_logs _ _ _ _)).
         by apply exits_handleEvalError. }
    rewrite (executeResponse_eq _ _ _ _ _ _ _ _ _ _ Hurl Hload Hpayload Hbody). cbn [fst].
    rewrite exits_app, (Forall_isLog_exits _ (DebugLogPayload_logs _ _ _ _)). simpl.
    destruct (evaluate _ _ _) as [result|[[cbErr|msg]|httpErr|msg]].
    + rewrite exits_app, (Forall_isLog_exits _ (DebugLogPayload_logs _ _ _ _)).
      by rewrite exits_handleResponseResult.
    + change (handleCircuitBreakerErrorResponse cbErr conf (Some originalRequest))
        with (handleCircuitBreakerError cbErr conf originalRequest).
      apply exits_handleCircuitBreakerError.
    + by apply exits_handleEvalError.
    + by apply exits_handleEvalError.
    + by apply exits_handleEvalError.
Qed.

(** X22.  The provider cannot be reached: the service URL parses, the
    payload is composed and encoded, the breaker lets the call through and
    every one of the [n + 1] attempts fails transiently.  Then [n + 1]
    requests were issued and an enabled breaker is left open; with
    [fail_open] the client is not answered, the request goes upstream and
    the original request is stored for the response phase, without a state;
    without it the client receives 502 with neither body nor headers (also
    for MCP traffic with [mcp_jsonrpc_errors], and also when the status of
    the last reply is listed in [passthrough_status_codes]: a 5xx is never
    passed through) and nothing is stored. *)
Theorem executeAccess_provider_unreachable (kong : PDK.t) (s : Settings.t)
  (conf : Config.t) (server : Server) (w : World) (parsedURL : ParsedURL.t)
  (payload : SidebandAccessRequest.t) (body : string) (cb : CircuitBreaker.t)
  (n : nat) :
  ParseURL (Settings.ServiceURL s) = Ok parsedURL ->
  composeAccessPayload kong conf = Ok payload ->
  Marshal_SidebandAccessRequest payload = Ok body ->
  Allow (breaker w) (now w) = (true, None, cb) ->
  maxAttempts conf (mcpMethodOf (SidebandAccessRequest.MCP payload)) = Z.of_nat (S n) ->
  (forall j, (j <= n)%nat ->
     transient (outcome (server (BuildSidebandURL parsedURL "/sideband/request") body j))) ->
  requests (executeAccess kong s conf server w).2 = (requests w + S n)%nat /\
  (CircuitBreaker.enabled cb = true ->
   IsClosed (breaker (executeAccess kong s conf server w).2) = false) /\
  (if Config.FailOpen conf then
     clientResponse (executeAccess kong s conf server w).1 = None /\
     Ctx_SetShared "paz_original_request" body ∈ (executeAccess kong s conf server w).1 /\
     (forall v, Ctx_SetShared "paz_state" v ∉ (executeAccess kong s conf server w).1)
   else
     clientResponse (executeAccess kong s conf server w).1 = Some (502, None, None) /\
     Forall (fun c => isSetShared c = false) (executeAccess kong s conf server w).1).
Proof.
  intros Hurl Hpayload Hbody Hallow Hmax Htr.
  rewrite (executeAccess_eq _ _ _ _ _ _ _ _ Hurl Hpayload Hbody). cbn [fst snd].
  destruct (Execute_transient conf _ _ w cb n Hallow Hmax Htr)
    as ((msg & Herr) & Hreq & trigger & t & Htrig & Hbr).
  split; [done|]. split.
  { intros Hen. rewrite Hbr. unfold Trip, IsClosed. by rewrite Hen. }
  unfold evaluate. rewrite Herr. unfold handleEvalError.
  pose proof (DebugLogPayload_logs "Sending sideband request" (PAccessRequest payload) s conf)
    as Hlogs.
  rewrite clientResponse_app, (exits_clientResponse _ (Forall_isLog_exits _ Hlogs)).
  destruct (Config.FailOpen conf).
  - split; [|split].
    + simpl. apply exits_clientResponse, Forall_isSetShared_exits,
        storePerRequestContext_shared.
    + rewrite elem_of_app. right. do 2 (apply elem_of_cons; right).
      unfold storePerRequestContext. rewrite Hbody. apply elem_of_app. left.
      by apply list_elem_of_singleton.
    + intros v. rewrite elem_of_app. intros [Hin|Hin].
      * rewrite Forall_forall in Hlogs. by apply Hlogs in Hin.
      * do 2 (apply elem_of_cons in Hin as [Hin|Hin]; [done|]).
        unfold storePerRequestContext in Hin. rewrite Hbody in Hin.
        rewrite !elem_of_app in Hin. destruct Hin as [Hin|[Hin|Hin]].
        -- by apply list_elem_of_singleton in Hin.
        -- by apply elem_of_nil in Hin.
        -- destruct (SidebandAccessRequest.MCP payload) as [mcp|];
             [|by apply elem_of_nil in Hin].
           destruct (Marshal_MCPContext mcp); [|by apply elem_of_nil in Hin].
           by apply list_elem_of_singleton in Hin.
  - split; [done|]. apply Forall_app_2.
    + eapply Forall_impl; [exact Hlogs|]. by intros [].
    + by repeat constructor.
Qed.

(** X23.  The provider answers with a status from 400 to 499 (a 429 among
    them), after [k] transient failures.  If the status is listed in
    [passthrough_status_codes] the client receives it with the provider's
    body and the one header [Content-Type: application/json]; if not, the
    request goes upstream unanswered under [fail_open] and the client
    receives 502 with neither body nor headers otherwise.  In particular the
    client of the request that meets the provider's 429 does not see a 429
    unless that status is listed. *)
Theorem executeAccess_provider_4xx (kong : PDK.t) (s : Settings.t)
  (conf : Config.t) (server : Server) (w : World) (parsedURL : ParsedURL.t)
  (payload : SidebandAccessRequest.t) (body : string) (cb : CircuitBreaker.t)
  (k : nat) (sc : Z) (h : gmap string (list string)) (b : string) :
  ParseURL (Settings.ServiceURL s) = Ok parsedURL ->
  composeAccessPayload kong conf = Ok payload ->
  Marshal_SidebandAccessRequest payload = Ok body ->
  Allow (breaker w) (now w) = (true, None, cb) ->
  (k < Z.to_nat (maxAttempts conf (mcpMethodOf (SidebandAccessRequest.MCP payload))))%nat ->
  (forall j, (j < k)%nat ->
     transient (outcome (server (BuildSidebandURL parsedURL "/sideband/request") body j))) ->
  outcome (server (BuildSidebandURL parsedURL "/sideband/request") body k)
    = HTTPResponse sc h b ->
  400 <= sc < 500 ->
  requests (executeAccess kong s conf server w).2 = (requests w + S k)%nat /\
  clientResponse (executeAccess kong s conf server w).1 =
    if isPassthroughCode sc conf
    then Some (sc, Some b, Some {[ "Content-Type" := ["application/json"] ]})
    else if Config.FailOpen conf then None else Some (502, None, None).
Proof.
  intros Hurl Hpayload Hbody Hallow Hk Htr Hout Hsc.
  rewrite (executeAccess_eq _ _ _ _ _ _ _ _ Hurl Hpayload Hbody). cbn [fst snd].
  destruct (Execute_reply conf _ _ w cb k sc h b Hallow Hk Htr Hout ltac:(lia))
    as [Hr Hreq].
  split; [done|]. unfold evaluate. rewrite Hr. cbn [err statusCode respBody].
  destruct (Z.geb_spec sc 400); [|lia]. unfold handleEvalError.
  cbn [sidebandHTTPError.StatusCode sidebandHTTPError.Body].
  pose proof (DebugLogPayload_logs "Sending sideband request" (PAccessRequest payload) s conf)
    as Hlogs.
  rewrite clientResponse_app, (exits_clientResponse _ (Forall_isLog_exits _ Hlogs)).
  destruct (isPassthroughCode sc conf); [done|].
  destruct (Config.FailOpen conf); [|done].
  simpl. apply exits_clientResponse, Forall_isSetShared_exits,
    storePerRequestContext_shared.
Qed.

(** X24.  The provider answers below 400, after [k] transient failures,
    with a body that decodes as an access response.  When that response has
    a [response] field the request is denied: the client is answered with the
    status of the denial (403 when it is not a number), and nothing is stored
    for the response phase nor changed in the upstream request.  When it has
    none the request is allowed: the client is not answered, the encoded
    original request is stored under [paz_original_request], and the state of
    the response is stored under [paz_state] exactly when the response has
    one. *)
Theorem executeAccess_decision (kong : PDK.t) (s : Settings.t)
  (conf : Config.t) (server : Server) (w : World) (parsedURL : ParsedURL.t)
  (payload : SidebandAccessRequest.t) (body : string) (cb : CircuitBreaker.t)
  (k : nat) (sc : Z) (h : gmap string (list string)) (b : string)
  (resp : SidebandAccessResponse.t) :
  ParseURL (Settings.ServiceURL s) = Ok parsedURL ->
  composeAccessPayload kong conf = Ok payload ->
  Marshal_SidebandAccessRequest payload = Ok body ->
  Allow (breaker w) (now w) = (true, None, cb) ->
  (k < Z.to_nat (maxAttempts conf (mcpMethodOf (SidebandAccessRequest.MCP payload))))%nat ->
  (forall j, (j < k)%nat ->
     transient (outcome (server (BuildSidebandURL parsedURL "/sideband/request") body j))) ->
  outcome (server (BuildSidebandURL parsedURL "/sideband/request") body k)
    = HTTPResponse sc h b ->
  sc < 400 ->
  Unmarshal_SidebandAccessResponse b = Ok resp ->
  match SidebandAccessResponse.Response resp with
  | Some deny =>
      (exists denyBody denyHeaders,
         clientResponse (executeAccess kong s conf server w).1 =
           Some (default 403 (Atoi (DenyResponse.ResponseCode deny)),
                 denyBody, denyHeaders)) /\
      Forall (fun c => isSetShared c = false /\ isServiceRequest c = false)
        (executeAccess kong s conf server w).1
  | None =>
      clientResponse (executeAccess kong s conf server w).1 = None /\
      Ctx_SetShared "paz_original_request" body ∈ (executeAccess kong s conf server w).1 /\
      match SidebandAccessResponse.State resp with
      | Some state =>
          Ctx_SetShared "paz_state" state ∈ (executeAccess kong s conf server w).1
      | None =>
          forall v, Ctx_SetShared "paz_state" v ∉ (executeAccess kong s conf server w).1
      end
  end.
Proof.
  intros Hurl Hpayload Hbody Hallow Hk Htr Hout Hsc Hresp.
  rewrite (executeAccess_eq _ _ _ _ _ _ _ _ Hurl Hpayload Hbody). cbn [fst snd].
  destruct (Execute_reply conf _ _ w cb k sc h b Hallow Hk Htr Hout ltac:(lia))
    as [Hr _].
  unfold evaluate. rewrite Hr. cbn [err statusCode respBody default].
  destruct (Z.geb_spec sc 400); [lia|]. change (id b) with b. rewrite Hresp.
  pose proof (DebugLogPayload_logs "Sending sideband request" (PAccessRequest payload) s conf)
    as Hsent.
  pose proof (DebugLogPayload_logs "Received sideband response" (PAccessResponse resp) s conf)
    as Hreceived.
  rewrite !clientResponse_app, (exits_clientResponse _ (Forall_isLog_exits _ Hsent)),
    (exits_clientResponse _ (Forall_isLog_exits _ Hreceived)).
  unfold handleAccessResponse.
  destruct (SidebandAccessResponse.Response resp) as [deny|].
  - split.
    + destruct (Config.MCPJsonrpcErrors conf), (SidebandAccessRequest.MCP payload);
        simpl; destruct (Atoi _); simpl; eauto.
    + apply Forall_app_2; [eapply Forall_impl; [exact Hsent|]; by intros []|].
      apply Forall_app_2; [eapply Forall_impl; [exact Hreceived|]; by intros []|].
      destruct (Config.MCPJsonrpcErrors conf), (SidebandAccessRequest.MCP payload);
        simpl; by repeat constructor.
  - cbn [fst snd].
    pose proof (updateRequest_calls kong conf resp payload) as Hupdate.
    assert (clientResponse (updateRequest kong conf resp payload) = None) as ->.
    { apply exits_clientResponse, Forall_exits.
      eapply Forall_impl; [exact Hupdate|]. by intros c [? _]. }
    split; [|split].
    + apply exits_clientResponse, Forall_isSetShared_exits, storePerRequestContext_shared.
    + rewrite !elem_of_app. do 3 right.
      unfold storePerRequestContext. rewrite Hbody. apply elem_of_app. left.
      by apply list_elem_of_singleton.
    + destruct (SidebandAccessResponse.State resp) as [state|].
      * rewrite !elem_of_app. do 3 right.
        unfold storePerRequestContext. rewrite !elem_of_app. right. left.
        by apply list_elem_of_singleton.
      * intros v. rewrite !elem_of_app. intros [Hin|[Hin|[Hin|Hin]]].
        -- rewrite Forall_forall in Hsent. by apply Hsent in Hin.
        -- rewrite Forall_forall in Hreceived. by apply Hreceived in Hin.
        -- rewrite Forall_forall in Hupdate. by apply Hupdate in Hin as [_ ?].
        -- unfold storePerRequestContext in Hin. rewrite Hbody in Hin.
           rewrite !elem_of_app in Hin. destruct Hin as [Hin|[Hin|Hin]].
           ++ by apply list_elem_of_singleton in Hin.
           ++ by apply elem_of_nil in Hin.
           ++ destruct (SidebandAccessRequest.MCP payload) as [mcp|];
                [|by apply elem_of_nil in Hin].
              destruct (Marshal_MCPContext mcp); [|by apply elem_of_nil in Hin].
              by apply list_elem_of_singleton in Hin.
Qed.

(** X25.  The breaker is open: the service URL parses and the payload is
    composed and encoded, but Allow rejects the call.  Then no request
    reaches the provider, and the client is answered by
    handleCircuitBreakerError: with 429 and [Retry-After] when the breaker
    was tripped by the rate limit; otherwise not at all under [fail_open],
    and with 502 without it. *)
Theorem executeAccess_breaker_open (kong : PDK.t) (s : Settings.t)
  (conf : Config.t) (server : Server) (w : World) (parsedURL : ParsedURL.t)
  (payload : SidebandAccessRequest.t) (body : string)
  (cbErr : CircuitBreakerOpenError.t) (cb : CircuitBreaker.t) :
  ParseURL (Settings.ServiceURL s) = Ok parsedURL ->
  composeAccessPayload kong conf = Ok payload ->
  Marshal_SidebandAccessRequest payload = Ok body ->
  Allow (breaker w) (now w) = (false, Some cbErr, cb) ->
  requests (executeAccess kong s conf server w).2 = requests w /\
  breaker (executeAccess kong s conf server w).2 = breaker w /\
  clientResponse (executeAccess kong s conf server w).1 =
    clientResponse (handleCircuitBreakerError cbErr conf payload) /\
  (if decide (CircuitBreakerOpenError.Trigger cbErr = Trigger429) then
     exists limitBody,
       clientResponse (executeAccess kong s conf server w).1 =
         Some (429, limitBody, Some (rateLimitHeaders (remainingSeconds cbErr)))
   else if Config.FailOpen conf then
     clientResponse (executeAccess kong s conf server w).1 = None
   else
     exists errorBody errorHeaders,
       clientResponse (executeAccess kong s conf server w).1 =
         Some (502, errorBody, errorHeaders)).
Proof.
  intros Hurl Hpayload Hbody Hallow.
  rewrite (executeAccess_eq _ _ _ _ _ _ _ _ Hurl Hpayload Hbody). cbn [fst snd].
  rewrite (Execute_rejected _ _ _ _ _ _ Hallow). cbn [fst snd].
  assert (cb = breaker w) as ->.
  { revert Hallow. unfold Allow. repeat case_match; congruence. }
  split; [done|]. split; [by destruct w|].
  unfold evaluate. cbn [err option_map].
  pose proof (DebugLogPayload_logs "Sending sideband request" (PAccessRequest payload) s conf)
    as Hlogs.
  rewrite clientResponse_app, (exits_clientResponse _ (Forall_isLog_exits _ Hlogs)).
  split; [done|]. unfold handleCircuitBreakerError, rateLimitHeaders.
  destruct (decide _); [|destruct (Config.FailOpen conf)];
    destruct (Config.MCPJsonrpcErrors conf), (SidebandAccessRequest.MCP payload);
    simpl; eauto.
Qed.

(** X26.  The response phase, when the provider answers below 400 with a
    body that decodes as a response result: the client receives the status
    of the result (200 when it is not a number), its body, and exactly its
    headers, decoded. *)
Theorem executeResponse_result (kong : PDK.t) (s : Settings.t)
  (conf : Config.t) (server : Server) (w : World) (parsedURL : ParsedURL.t)
  (originalRequest : SidebandAccessRequest.t) (state : RawMessage)
  (payload : SidebandResponsePayload.t) (body : string) (cb : CircuitBreaker.t)
  (k : nat) (sc : Z) (h : gmap string (list string)) (b : string)
  (result : SidebandResponseResult.t) :
  ParseURL (Settings.ServiceURL s) = Ok parsedURL ->
  loadPerRequestContext kong = Ok (originalRequest, state) ->
  composeResponsePayload kong conf (Some originalRequest) state = Ok payload ->
  Marshal_SidebandResponsePayload payload = Ok body ->
  Allow (breaker w) (now w) = (true, None, cb) ->
  (k < Z.to_nat (maxAttempts conf (mcpMethodOf (SidebandResponsePayload.MCP payload))))%nat ->
  (forall j, (j < k)%nat ->
     transient (outcome (server (BuildSidebandURL parsedURL "/sideband/response") body j))) ->
  outcome (server (BuildSidebandURL parsedURL "/sideband/response") body k)
    = HTTPResponse sc h b ->
  sc < 400 ->
  Unmarshal_SidebandResponseResult b = Ok result ->
  clientResponse (executeResponse kong s conf server w).1 =
    Some (default 200 (Atoi (SidebandResponseResult.ResponseCode result)),
          Some (SidebandResponseResult.Body result),
          Some (FlattenHeaders (SidebandResponseResult.Headers result))).
Proof.
  intros Hurl Hload Hpayload Hbody Hallow Hk Htr Hout Hsc Hresult.
  rewrite (executeResponse_eq _ _ _ _ _ _ _ _ _ _ Hurl Hload Hpayload Hbody). cbn [fst].
  destruct (Execute_reply conf _ _ w cb k sc h b Hallow Hk Htr Hout ltac:(lia))
    as [Hr _].
  unfold evaluate. rewrite Hr. cbn [err statusCode respBody default].
  destruct (Z.geb_spec sc 400); [lia|]. change (id b) with b. rewrite Hresult.
  rewrite !clientResponse_app,
    (exits_clientResponse _ (Forall_isLog_exits _ (DebugLogPayload_logs _ _ _ _))),
    (exits_clientResponse _ (Forall_isLog_exits _ (DebugLogPayload_logs _ _ _ _))).
  rewrite handleResponseResult_response. by destruct (Atoi _).
Qed.

(** X27.  The response phase, when the provider cannot be reached (every
    one of the [n + 1] attempts fails transiently): under [fail_open] the
    client is not answered by the plugin, so the upstream response passes
    through as it is; without it the client receives 502 with neither body
    nor headers instead of the upstream response. *)
Theorem executeResponse_provider_unreachable (kong : PDK.t) (s : Settings.t)
  (conf : Config.t) (server : Server) (w : World) (parsedURL : ParsedURL.t)
  (originalRequest : SidebandAccessRequest.t) (state : RawMessage)
  (payload : SidebandResponsePayload.t) (body : string) (cb : CircuitBreaker.t)
  (n : nat) :
  ParseURL (Settings.ServiceURL s) = Ok parsedURL ->
  loadPerRequestContext kong = Ok (originalRequest, state) ->
  composeResponsePayload kong conf (Some originalRequest) state = Ok payload ->
  Marshal_SidebandResponsePayload payload = Ok body ->
  Allow (breaker w) (now w) = (true, None, cb) ->
  maxAttempts conf (mcpMethodOf (SidebandResponsePayload.MCP payload)) = Z.of_nat (S n) ->
  (forall j, (j <= n)%nat ->
     transient (outcome (server (BuildSidebandURL parsedURL "/sideband/response") body j))) ->
  requests (executeResponse kong s conf server w).2 = (requests w + S n)%nat /\
  clientResponse (executeResponse kong s conf server w).1 =
    (if Config.FailOpen conf then None else Some (502, None, None)) /\
  Forall (fun c => isLog c = true \/ isExit c = true)
    (executeResponse kong s conf server w).1.
Proof.
  intros Hurl Hload Hpayload Hbody Hallow Hmax Htr.
  rewrite (executeResponse_eq _ _ _ _ _ _ _ _ _ _ Hurl Hload Hpayload Hbody).
  cbn [fst snd].
  destruct (Execute_transient conf _ _ w cb n Hallow Hmax Htr)
    as ((msg & Herr) & Hreq & _).
  split; [done|]. unfold evaluate. rewrite Herr. unfold handleEvalError.
  pose proof (DebugLogPayload_logs "Sending sideband response" (PResponsePayload payload) s conf)
    as Hlogs.
  rewrite clientResponse_app, (exits_clientResponse _ (Forall_isLog_exits _ Hlogs)).
  split.
  - by destruct (Config.FailOpen conf).
  - apply Forall_app_2; [eapply Forall_impl; [exact Hlogs|]; by left|].
    destruct (Config.FailOpen conf); repeat constructor; by (left + right).
Qed.

(** X28.  What the access phase stores, the response phase loads: on a
    request context that held nothing, after storePerRequestContext has
    stored a request and a state, loadPerRequestContext returns that request
    and that state, provided the JSON codec reads back the request and its
    MCP context as they were written. *)
Theorem store_then_load (kong : PDK.t) (payload : SidebandAccessRequest.t)
  (state : RawMessage) (body : string) :
  Marshal_SidebandAccessRequest payload = Ok body ->
  body <> "" ->
  Unmarshal_SidebandAccessRequest body = Ok payload ->
  (forall mcp, SidebandAccessRequest.MCP payload = Some mcp ->
     SidebandAccessRequest.TrafficType payload = "mcp" /\
     exists text, Marshal_MCPContext mcp = Ok text /\ Unmarshal_MCPContext text = Ok mcp) ->
  state <> Some "" ->
  (forall key, match PDK.Ctx_GetSharedString kong key with
               | Ok v => v = ""
               | Err _ => True
               end) ->
  loadPerRequestContext
    (withShared kong
       (sharedAfter (storePerRequestContext payload state)
          (PDK.Ctx_GetSharedString kong)))
  = Ok (payload, state).
Proof.
  intros Hbody Hne Hdecode Hmcp Hstate Hfresh.
  unfold loadPerRequestContext, storePerRequestContext, withShared.
  cbn [PDK.Ctx_GetSharedString]. rewrite Hbody.
  assert (negb (String.eqb body "") = true) as Hb.
  { apply negb_true_iff, String.eqb_neq, Hne. }
  assert (forall st, state = Some st -> negb (String.eqb st "") = true) as Hst.
  { intros st ->. apply negb_true_iff, String.eqb_neq. congruence. }
  pose proof (Hfresh "paz_state") as Hfs.
  pose proof (Hfresh mcpContextKey) as Hfm.
  destruct payload as [ip port method url reqBody headers version cert traffic mcp extracted].
  cbn [SidebandAccessRequest.MCP SidebandAccessRequest.TrafficType] in *.
  destruct mcp as [mcp|].
  - destruct (Hmcp mcp eq_refl) as (-> & text & Htext & Hback). rewrite Htext.
    destruct state as [st|]; simpl; rewrite Hb, Hdecode; simpl.
    + rewrite (Hst st eq_refl).
      destruct (String.eqb text ""); simpl; [done|]. by rewrite Hback.
    + destruct (String.eqb text ""); simpl; [|rewrite Hback]; simpl;
        (destruct (PDK.Ctx_GetSharedString kong "paz_state") as [v|]; [by subst|done]).
  - destruct state as [st|]; simpl; rewrite Hb, Hdecode; simpl.
    + rewrite (Hst st eq_refl).
      destruct (PDK.Ctx_GetSharedString kong mcpContextKey) as [v|]; [by subst|done].
    + destruct (PDK.Ctx_GetSharedString kong mcpContextKey) as [v|];
        destruct (PDK.Ctx_GetSharedString kong "paz_state") as [v'|]; by subst.
Qed.

End PhaseTheorems.

Lemma executeAccess_provider_unreachable_witness :
  requests (sampleAccess retryConfig (constantServer (HTTPResponse 500 ∅ "error"))
              (freshWorld true)).2 = 1%nat /\
  IsClosed (breaker (sampleAccess retryConfig
                       (constantServer (HTTPResponse 500 ∅ "error"))
                       (freshWorld true)).2) = false /\
  clientResponse (sampleAccess retryConfig (constantServer (HTTPResponse 500 ∅ "error"))
                    (freshWorld true)).1 = Some (502, None, None).
Proof.
  destruct (@executeAccess_provider_unreachable StoreJSON MiniProviderJSON
              SampleCollaborators SampleURL SampleTexts
              (sampleKong toolsCallBody noContext) sampleSettings retryConfig
              (constantServer (HTTPResponse 500 ∅ "error")) (freshWorld true)
              sampleParsedURL sampleAccessPayload sampleAccessBody
              (NewCircuitBreaker true) 0)
    as (Hrequests & Hbreaker & Hclient & _).
  - vm_compute. reflexivity.
  - vm_compute. reflexivity.
  - vm_compute. reflexivity.
  - reflexivity.
  - vm_compute. reflexivity.
  - intros j _. simpl. lia.
  - split; [exact Hrequests|]. split; [exact (Hbreaker eq_refl)|exact Hclient].
Defined.

Lemma executeAccess_provider_4xx_witness :
  requests (sampleAccess retryConfig (constantServer (HTTPResponse 413 ∅ "too large"))
              (freshWorld true)).2 = 1%nat /\
  clientResponse (sampleAccess retryConfig
                    (constantServer (HTTPResponse 413 ∅ "too large"))
                    (freshWorld true)).1 =
    Some (413, Some "too large", Some {[ "Content-Type" := ["application/json"] ]}).
Proof.
  apply (@executeAccess_provider_4xx StoreJSON MiniProviderJSON
           SampleCollaborators SampleURL SampleTexts
           (sampleKong toolsCallBody noContext) sampleSettings retryConfig
           (constantServer (HTTPResponse 413 ∅ "too large")) (freshWorld true)
           sampleParsedURL sampleAccessPayload sampleAccessBody
           (NewCircuitBreaker true) 0 413 ∅ "too large").
  - vm_compute. reflexivity.
  - vm_compute. reflexivity.
  - vm_compute. reflexivity.
  - reflexivity.
  - vm_compute. lia.
  - intros j Hj. lia.
  - reflexivity.
  - lia.
Defined.

Lemma executeAccess_decision_witness :
  clientResponse (sampleAccess retryConfig (constantServer (HTTPResponse 200 ∅ allowReply))
                    (freshWorld true)).1 = None /\
  Ctx_SetShared "paz_original_request" sampleAccessBody
    ∈ (sampleAccess retryConfig (constantServer (HTTPResponse 200 ∅ allowReply))
         (freshWorld true)).1 /\
  Ctx_SetShared "paz_state" (go_lit "{'decision':'allow'}")
    ∈ (sampleAccess retryConfig (constantServer (HTTPResponse 200 ∅ allowReply))
         (freshWorld true)).1.
Proof.
  apply (@executeAccess_decision StoreJSON MiniProviderJSON
           SampleCollaborators SampleURL SampleTexts
           (sampleKong toolsCallBody noContext) sampleSettings retryConfig
           (constantServer (HTTPResponse 200 ∅ allowReply)) (freshWorld true)
           sampleParsedURL sampleAccessPayload sampleAccessBody
           (NewCircuitBreaker true) 0 200 ∅ allowReply sampleAllow).
  - vm_compute. reflexivity.
  - vm_compute. reflexivity.
  - vm_compute. reflexivity.
  - reflexivity.
  - vm_compute. lia.
  - intros j Hj. lia.
  - reflexivity.
  - lia.
  - vm_compute. reflexivity.
Defined.

Lemma executeAccess_breaker_open_witness :
  requests (sampleAccess retryConfig (constantServer (HTTPResponse 200 ∅ allowReply))
              worldAfterTrip).2 = requests worldAfterTrip /\
  exists errorBody errorHeaders,
    clientResponse (sampleAccess retryConfig
                      (constantServer (HTTPResponse 200 ∅ allowReply))
                      worldAfterTrip).1 = Some (502, errorBody, errorHeaders).
Proof.
  destruct (@executeAccess_breaker_open StoreJSON MiniProviderJSON
              SampleCollaborators SampleURL SampleTexts
              (sampleKong toolsCallBody noContext) sampleSettings retryConfig
              (constantServer (HTTPResponse 200 ∅ allowReply)) worldAfterTrip
              sampleParsedURL sampleAccessPayload sampleAccessBody
              {| CircuitBreakerOpenError.Trigger := Trigger5xx;
                 CircuitBreakerOpenError.RetryAfterSec := 30;
                 CircuitBreakerOpenError.RemainingMs := 29000 |}
              (breaker worldAfterTrip))
    as (Hrequests & _ & _ & Hclient).
  - vm_compute. reflexivity.
  - vm_compute. reflexivity.
  - vm_compute. reflexivity.
  - vm_compute. reflexivity.
  - split; [exact Hrequests|exact Hclient].
Defined.

Lemma executeResponse_result_witness :
  clientResponse (sampleResponse retryConfig
                    (constantServer (HTTPResponse 200 ∅ resultReply))
                    (freshWorld true)).1 =
    Some (200, Some "{}", Some {[ "content-type" := ["application/json"] ]}).
Proof.
  apply (@executeResponse_result StoreJSON MiniProviderJSON
           SampleCollaborators SampleURL SampleTexts
           (sampleKong toolsCallBody storedContext) sampleSettings retryConfig
           (constantServer (HTTPResponse 200 ∅ resultReply)) (freshWorld true)
           sampleParsedURL sampleAccessPayload
           (SidebandAccessResponse.State sampleAllow)
           storedResponsePayload storedResponseBody
           (NewCircuitBreaker true) 0 200 ∅ resultReply sampleResult).
  - vm_compute. reflexivity.
  - vm_compute. reflexivity.
  - vm_compute. reflexivity.
  - vm_compute. reflexivity.
  - reflexivity.
  - vm_compute. lia.
  - intros j Hj. lia.
  - reflexivity.
  - lia.
  - vm_compute. reflexivity.
Defined.

Lemma executeResponse_provider_unreachable_witness :
  requests (sampleResponse retryConfig (constantServer (HTTPResponse 500 ∅ "error"))
              (freshWorld true)).2 = 1%nat /\
  clientResponse (sampleResponse retryConfig
                    (constantServer (HTTPResponse 500 ∅ "error"))
                    (freshWorld true)).1 = Some (502, None, None) /\
  Forall (fun c => isLog c = true \/ isExit c = true)
    (sampleResponse retryConfig (constantServer (HTTPResponse 500 ∅ "error"))
       (freshWorld true)).1.
Proof.
  apply (@executeResponse_provider_unreachable StoreJSON MiniProviderJSON
           SampleCollaborators SampleURL SampleTexts
           (sampleKong toolsCallBody storedContext) sampleSettings retryConfig
           (constantServer (HTTPResponse 500 ∅ "error")) (freshWorld true)
           sampleParsedURL sampleAccessPayload
           (SidebandAccessResponse.State sampleAllow)
           storedResponsePayload storedResponseBody
           (NewCircuitBreaker true) 0).
  - vm_compute. reflexivity.
  - vm_compute. reflexivity.
  - vm_compute. reflexivity.
  - vm_compute. reflexivity.
  - reflexivity.
  - vm_compute. reflexivity.
  - intros j _. simpl. lia.
Defined.

Lemma store_then_load_witness :
  @loadPerRequestContext StoreJSON (sampleKong toolsCallBody storedContext)
  = Ok (sampleAccessPayload, Some (go_lit "{'decision':'allow'}")).
Proof.
  apply (@store_then_load StoreJSON MiniProviderJSON
           (sampleKong toolsCallBody noContext) sampleAccessPayload
           (Some (go_lit "{'decision':'allow'}")) sampleAccessBody).
  - vm_compute. reflexivity.
  - vm_compute. discriminate.
  - vm_compute. reflexivity.
  - intros mcp Hmcp. split; [vm_compute; reflexivity|].
    injection Hmcp as <-.
    exists (go_lit "{'mcp_method':'tools/call','mcp_tool_name':'get_weather','mcp_tool_arguments':{'city':'London'},'mcp_jsonrpc_id':1}").
    split; vm_compute; reflexivity.
  - discriminate.
  - intros key. reflexivity.
Defined.
